(** * Bank management system: the ledger of [new.py]

    A shallow embedding of class [BankManagementSystem] (new.py, lines
    15-168) and of the form handler of [BankGUI] through which amounts
    reach it ([process_transaction], lines 567-588), followed by the rest
    of [BankGUI] that decides what happens to the store: the screens and
    their handlers ([login], [register], [show_dashboard], the amount
    screens, the history) and the page layout of [export_to_pdf].

    Modelling choices, all read off the source:

    - The SQLite file holds two tables.  A table is the list of its rows in
      insertion order, together with the counter that [AUTOINCREMENT] keeps
      for its primary key.
    - [self.conn] sees its own uncommitted writes; [self.conn.commit()]
      makes them durable.  A connection is therefore a pair of databases:
      what is on disk and what the connection sees.
    - The methods run SQL statements one after the other, and Python
      exceptions cut a method short while keeping the writes already made.
      This is a state monad with exceptions.
    - Amounts are Python floats (SQLite [REAL]).  In the first model they
      are idealised as exact integers of the smallest currency unit; it
      serves the properties that do not depend on the value of a sum or a
      difference, for accounts within SQLite's range of integers and
      finite amounts.  Module [Double] has the same methods and the same
      window on IEEE 754 doubles with SQLite's [NULL]; the properties about
      the value a deposit or a withdrawal computes, about what a NaN or an
      infinity does, and about the window whatever finite amounts are
      typed, are stated there.
    - [CURRENT_TIMESTAMP] is read from the clock; the value it yields is an
      argument of each operation that inserts a row.  SQLite renders it as
      a fixed-width text whose order is the order of the instants, so a
      timestamp is an integer number of seconds.
    - Failures of the database engine itself (I/O errors) are not modelled:
      the only [sqlite3.Error] that a statement of this program raises on a
      healthy store is the [IntegrityError] of the [UNIQUE] email column
      and, in [Double], of the [NOT NULL] columns of a transaction.
      Foreign keys are not enforced (SQLite's default). *)

From Stdlib Require Import Floats.
From Stdlib Require Import ZArith List String Bool Lia.
From Stdlib Require Import Sorting.Sorted Sorting.Permutation.
Import ListNotations.

Local Open Scope Z_scope.

(** ** The persisted tables (new.py, lines 29-52) *)

Record user_row : Type := mk_user {
  account_number : Z;
  full_name : string;
  email : string;
  phone : string;
  password : string;
  balance : Z;
  created_at : Z
}.

Record transaction_row : Type := mk_transaction {
  transaction_id : Z;
  tx_account_number : Z;
  transaction_type : string;
  amount : Z;
  balance_after : Z;
  transaction_date : Z
}.

Record database : Type := mk_database {
  users : list user_row;
  users_seq : Z;
  transactions : list transaction_row;
  transactions_seq : Z
}.

(** [setup_database] on a fresh file: both tables exist and are empty. *)
Definition empty_database : database :=
  {| users := []; users_seq := 0; transactions := []; transactions_seq := 0 |}.

(** The connection: [disk] is the committed content of the file, [view] is
    what statements run through [self.cursor] read and write. *)
Record connection : Type := mk_connection {
  disk : database;
  view : database
}.

Definition setup_database (file : database) : connection :=
  {| disk := file; view := file |}.

(** ** Exceptions and the statement monad *)

Inductive exn : Type :=
| IntegrityError   (* sqlite3.IntegrityError, a subclass of sqlite3.Error *)
| TypeError        (* subscripting the [None] that [fetchone] returned *)
| ValueError.      (* [float] applied to a text that is not a number *)

Definition is_sqlite3_Error (e : exn) : bool :=
  match e with
  | IntegrityError => true
  | TypeError | ValueError => false
  end.

(** [str(err)] *)
Definition str (e : exn) : string :=
  match e with
  | IntegrityError => "UNIQUE constraint failed: users.email"%string
  | TypeError => "'NoneType' object is not subscriptable"%string
  | ValueError => "could not convert string to float"%string
  end.

Inductive outcome (A : Type) : Type :=
| Return (a : A)
| Raise (e : exn).

Arguments Return {A} a.
Arguments Raise {A} e.

Definition M (A : Type) : Type := connection -> outcome A * connection.

Definition ret {A} (a : A) : M A := fun c => (Return a, c).

Definition raise {A} (e : exn) : M A := fun c => (Raise e, c).

Definition bind {A B} (m : M A) (k : A -> M B) : M B :=
  fun c =>
    match m c with
    | (Return a, c') => k a c'
    | (Raise e, c') => (Raise e, c')
    end.

(** [try: body except ...: handler].  The writes [body] made before it
    raised stay in the connection. *)
Definition try_except {A} (body : M A) (handler : exn -> M A) : M A :=
  fun c =>
    match body c with
    | (Return a, c') => (Return a, c')
    | (Raise e, c') => handler e c'
    end.

Notation "x <- m ;; k" := (bind m (fun x => k))
  (at level 61, m at next level, right associativity).
Notation "m ;; k" := (bind m (fun _ => k))
  (at level 61, right associativity).

(** The connection an operation leaves behind, and what it returned. *)
Definition result_of {A} (r : outcome A * connection) : outcome A := fst r.
Definition conn_of {A} (r : outcome A * connection) : connection := snd r.

(** ** SQL statements

    Each data-changing statement is a function on the database the
    connection sees; [write] runs it through the cursor. *)

Definition write (f : database -> database) : M unit :=
  fun c => (Return tt, {| disk := disk c; view := f (view c) |}).

Definition email_taken (em : string) (d : database) : bool :=
  existsb (fun u => String.eqb (email u) em) (users d).

(** [INSERT INTO users (full_name, email, phone, password, balance)
    VALUES (?, ?, ?, ?, ?)].  [account_number] is the next value of the
    [AUTOINCREMENT] counter and [created_at] the clock reading. *)
Definition db_insert_user (fn em ph pw : string) (bal : Z) (now : Z)
    (d : database) : database :=
  let id := users_seq d + 1 in
  {| users := users d ++ [mk_user id fn em ph pw bal now];
     users_seq := id;
     transactions := transactions d;
     transactions_seq := transactions_seq d |}.

(** The statement fails on the [UNIQUE] constraint of [email] and changes
    nothing then; otherwise it yields [cursor.lastrowid]. *)
Definition insert_user (fn em ph pw : string) (bal : Z) (now : Z) : M Z :=
  fun c =>
    if email_taken em (view c) then (Raise IntegrityError, c)
    else (write (db_insert_user fn em ph pw bal now) ;;
          ret (users_seq (view c) + 1)) c.

(** [UPDATE users SET balance = balance + ? WHERE account_number = ?] *)
Definition add_to_balance (delta : Z) (acct : Z) (u : user_row) : user_row :=
  if account_number u =? acct
  then mk_user (account_number u) (full_name u) (email u) (phone u)
               (password u) (balance u + delta) (created_at u)
  else u.

Definition db_update_balance (delta : Z) (acct : Z) (d : database)
    : database :=
  {| users := map (add_to_balance delta acct) (users d);
     users_seq := users_seq d;
     transactions := transactions d;
     transactions_seq := transactions_seq d |}.

Definition update_balance (delta : Z) (acct : Z) : M unit :=
  write (db_update_balance delta acct).

(** [SELECT balance FROM users WHERE account_number = ?] followed by
    [fetchone()]: the first matching row, or [None]. *)
Definition lookup_balance (acct : Z) (d : database) : option Z :=
  option_map balance
    (find (fun u => account_number u =? acct) (users d)).

Definition select_balance (acct : Z) : M (option Z) :=
  fun c => (Return (lookup_balance acct (view c)), c).

(** [fetchone()[0]]: a [TypeError] when no row matched. *)
Definition subscript0 (r : option Z) : M Z :=
  match r with
  | Some b => ret b
  | None => raise TypeError
  end.

(** [INSERT INTO transactions (account_number, transaction_type, amount,
    balance_after) VALUES (?, ?, ?, ?)] *)
Definition db_insert_transaction (acct : Z) (trans_type : string)
    (amt bal_after : Z) (now : Z) (d : database) : database :=
  let id := transactions_seq d + 1 in
  {| users := users d;
     users_seq := users_seq d;
     transactions :=
       transactions d ++ [mk_transaction id acct trans_type amt bal_after now];
     transactions_seq := id |}.

Definition insert_transaction (acct : Z) (trans_type : string)
    (amt bal_after : Z) (now : Z) : M unit :=
  write (db_insert_transaction acct trans_type amt bal_after now).

(** [self.conn.commit()] *)
Definition commit : M unit :=
  fun c => (Return tt, {| disk := view c; view := view c |}).

(** ** The methods of [BankManagementSystem] *)

(** new.py, lines 149-156.  The handler only prints. *)
Definition record_transaction (acct : Z) (trans_type : string)
    (amt bal_after : Z) (now : Z) : M unit :=
  try_except
    (insert_transaction acct trans_type amt bal_after now)
    (fun e => if is_sqlite3_Error e then ret tt else raise e).

(** new.py, lines 60-80.  [now_user] and [now_tx] are the clock readings of
    the two inserts. *)
Definition register_user (fn em ph pw : string) (initial_deposit : Z)
    (now_user now_tx : Z) : M (option Z) :=
  try_except
    (acct <- insert_user fn em ph pw initial_deposit now_user ;;
     commit ;;
     (if 0 <? initial_deposit
      then record_transaction acct "Deposit"%string initial_deposit initial_deposit
             now_tx
      else ret tt) ;;
     ret (Some acct))
    (fun e => if is_sqlite3_Error e then ret None else raise e).

(** new.py, lines 93-111. *)
Definition deposit_money (acct : Z) (amt : Z) (now : Z) : M (option Z) :=
  try_except
    (update_balance amt acct ;;
     r <- select_balance acct ;;
     new_balance <- subscript0 r ;;
     record_transaction acct "Deposit"%string amt new_balance now ;;
     commit ;;
     ret (Some new_balance))
    (fun e => if is_sqlite3_Error e then ret None else raise e).

(** new.py, lines 113-137. *)
Definition withdraw_money (acct : Z) (amt : Z) (now : Z)
    : M (option Z * string) :=
  try_except
    (r <- select_balance acct ;;
     current_balance <- subscript0 r ;;
     if current_balance <? amt then ret (None, "Insufficient funds"%string)
     else
       update_balance (- amt) acct ;;
       let new_balance := current_balance - amt in
       record_transaction acct "Withdrawal"%string amt new_balance now ;;
       commit ;;
       ret (Some new_balance, "Success"%string))
    (fun e => if is_sqlite3_Error e then ret (None, str e) else raise e).

(** new.py, lines 139-147. *)
Definition get_balance (acct : Z) : M (option Z) :=
  try_except
    (r <- select_balance acct ;;
     b <- subscript0 r ;;
     ret (Some b))
    (fun e => if is_sqlite3_Error e then ret None else raise e).

(** new.py, lines 158-168.  The rows of [fetchall()] are the four selected
    columns. *)
Definition history_row : Type := (string * Z * Z * Z)%type.

Definition selected_columns (t : transaction_row) : history_row :=
  (transaction_type t, amount t, balance_after t, transaction_date t).

Definition date_of (r : history_row) : Z := snd r.

(** [WHERE account_number = ?] *)
Definition transactions_of (acct : Z) (txs : list transaction_row)
    : list transaction_row :=
  filter (fun t => tx_account_number t =? acct) txs.

(** [ORDER BY transaction_date DESC], as a stable insertion sort; SQL leaves
    the order of rows with equal dates open. *)
Fixpoint insert_desc (r : history_row) (l : list history_row)
    : list history_row :=
  match l with
  | [] => [r]
  | r' :: l' =>
      if date_of r' <=? date_of r then r :: r' :: l'
      else r' :: insert_desc r l'
  end.

Fixpoint order_by_date_desc (l : list history_row) : list history_row :=
  match l with
  | [] => []
  | r :: l' => insert_desc r (order_by_date_desc l')
  end.

Definition select_history (acct : Z) (d : database) : list history_row :=
  order_by_date_desc (map selected_columns (transactions_of acct (transactions d))).

Definition get_transaction_history (acct : Z) : M (list history_row) :=
  try_except
    (fun c => (Return (select_history acct (view c)), c))
    (fun e => if is_sqlite3_Error e then ret [] else raise e).

(** ** The amount form of [BankGUI] (new.py, lines 567-588) *)

Inductive dialog : Type :=
| showwarning (title message : string)
| showinfo_deposited (amt new_balance : Z)
| showinfo_withdrawn (amt new_balance : Z)
| showerror (title message : string).

(** [float(amount_entry.get().strip())]: [entered] is the number the text
    denotes, if it denotes one.  The numbers here are the finite ones; what
    the form does with a NaN or an infinity, which [float] also reads, is
    the subject of [Double.process_transaction]. *)
Definition float (entered : option Z) : M Z :=
  match entered with
  | Some a => ret a
  | None => raise ValueError
  end.

(** The handler yields the dialog it opens itself, if any. *)
Definition process_transaction (trans_type : string) (current_user : Z)
    (entered : option Z) (now : Z) : M (option dialog) :=
  try_except
    (amt <- float entered ;;
     if amt <=? 0
     then ret (Some (showwarning "Invalid Amount"%string
                       "Amount must be greater than 0"%string))
     else if String.eqb trans_type "Deposit"%string
     then
       new_balance <- deposit_money current_user amt now ;;
       match new_balance with
       | Some nb => ret (Some (showinfo_deposited amt nb))
       | None => ret None
       end
     else
       r <- withdraw_money current_user amt now ;;
       match r with
       | (Some nb, _) => ret (Some (showinfo_withdrawn amt nb))
       | (None, message) =>
           ret (Some (showerror "Transaction Failed"%string message))
       end)
    (fun e =>
       match e with
       | ValueError =>
           ret (Some (showwarning "Invalid Input"%string
                        "Please enter a valid amount"%string))
       | _ => raise e
       end).

(** ** Runs of the application

    What a user can make the ledger do: register, deposit, withdraw, and
    close the application and start it again, which drops whatever the
    connection had not committed. *)

Inductive operation : Type :=
| Register (fn em ph pw : string) (initial_deposit now_user now_tx : Z)
| Deposit (acct amt now : Z)
| Withdraw (acct amt now : Z)
| Restart.

Definition run (c : connection) (o : operation) : connection :=
  match o with
  | Register fn em ph pw dep now_user now_tx =>
      conn_of (register_user fn em ph pw dep now_user now_tx c)
  | Deposit acct amt now => conn_of (deposit_money acct amt now c)
  | Withdraw acct amt now => conn_of (withdraw_money acct amt now c)
  | Restart => setup_database (disk c)
  end.

(** The store after a run that started on a fresh database file. *)
Definition run_all (ops : list operation) : connection :=
  fold_left run ops (setup_database empty_database).

(** The amounts the forms let through: a registration deposit that is not
    negative, and positive amounts to deposit and withdraw. *)
Definition valid_operation (o : operation) : bool :=
  match o with
  | Register _ _ _ _ dep _ _ => 0 <=? dep
  | Deposit _ amt _ => 0 <? amt
  | Withdraw _ amt _ => 0 <? amt
  | Restart => true
  end.

(** The transaction of an account that was recorded last. *)
Definition most_recent_transaction (acct : Z) (d : database)
    : option transaction_row :=
  hd_error (rev (transactions_of acct (transactions d))).

(** The order of a history: a row is followed by one that is not newer. *)
Definition not_older (r1 r2 : history_row) : Prop := date_of r1 >= date_of r2.

(** ** Consistency of a database

    Account numbers are distinct and were all handed out by the counter,
    every transaction belongs to an account number the counter has handed
    out, and the transaction recorded last for an account carries the
    balance the account has now. *)
Record db_wf (d : database) : Prop := mk_db_wf {
  wf_distinct : NoDup (map account_number (users d));
  wf_users_seq : forall u, In u (users d) -> account_number u <= users_seq d;
  wf_transactions_seq :
    forall t, In t (transactions d) -> tx_account_number t <= users_seq d;
  wf_most_recent :
    forall u t, In u (users d) ->
      most_recent_transaction (account_number u) d = Some t ->
      balance_after t = balance u
}.

Definition non_negative (d : database) : Prop :=
  forall u, In u (users d) -> 0 <= balance u.

(** Both what is on disk and what the connection sees. *)
Definition conn_wf (c : connection) : Prop := db_wf (disk c) /\ db_wf (view c).


(** A connection right after a commit. *)
Definition committed (d : database) : connection := {| disk := d; view := d |}.

(** The example of the specification: one account, opened with 100. *)
Definition example_store : connection :=
  run_all [Register "A" "a@x.com" "555" "pw" 100 10 10].

(** A run on the example: the account is opened with 100, a withdrawal of
    150 is refused, a withdrawal of 40 goes through. *)
Definition example_run : list operation :=
  [Register "A" "a@x.com" "555" "pw" 100 10 10;
   Withdraw 1 150 11;
   Withdraw 1 40 12].

(** ** Login (new.py, lines 82-91) *)

(** The three columns that [login_user] selects. *)
Definition login_row : Type := (Z * string * Z)%type.

Definition login_columns (u : user_row) : login_row :=
  (account_number u, full_name u, balance u).

(** [WHERE email = ? AND password = ?] *)
Definition credentials_match (em pw : string) (u : user_row) : bool :=
  String.eqb (email u) em && String.eqb (password u) pw.

(** The query followed by [fetchone()]. *)
Definition select_login (em pw : string) (d : database) : option login_row :=
  option_map login_columns (find (credentials_match em pw) (users d)).

Definition login_user (em pw : string) : M (option login_row) :=
  try_except
    (fun c => (Return (select_login em pw (view c)), c))
    (fun e => if is_sqlite3_Error e then ret None else raise e).

(** ** More on the consistency of a database *)

(** The columns of an account that no statement of the program updates. *)
Definition identity_of (u : user_row)
    : Z * string * string * string * string * Z :=
  (account_number u, full_name u, email u, phone u, password u, created_at u).

Definition emails_unique (d : database) : Prop :=
  NoDup (map email (users d)).

(** Every transaction belongs to an account of the users table. *)
Definition transactions_refer (d : database) : Prop :=
  forall t, In t (transactions d) ->
    exists u, In u (users d) /\ account_number u = tx_account_number t.

(** The invariants that hold of the file and of the connection alike. *)
Definition sound (d : database) : Prop :=
  db_wf d /\ emails_unique d /\ transactions_refer d.

(** What a commit has not reached yet is at most some transactions. *)
Definition synced (c : connection) : Prop :=
  users (disk c) = users (view c) /\
  users_seq (disk c) = users_seq (view c) /\
  exists pending, transactions (view c) = transactions (disk c) ++ pending.

Definition is_restart (o : operation) : bool :=
  match o with
  | Restart => true
  | _ => false
  end.

(** The dates of the rows grow strictly in the order of insertion: no two
    transactions of the account fall into the same second and the clock was
    never set back. *)
Definition dates_increase (txs : list transaction_row) : Prop :=
  StronglySorted (fun t1 t2 => transaction_date t1 < transaction_date t2) txs.

(** ** The statement export (new.py, lines 681-734)

    The loop over the transactions keeps the height [y] of the next line
    and, through [showPage], the page it is on.  Its result is the list of
    the lines drawn: page, height and the row printed there. *)

Record drawn_line : Type := mk_line {
  page : Z;
  height : Z;
  printed : history_row
}.

Fixpoint draw_rows (current_page y : Z) (rows : list history_row)
    : list drawn_line :=
  match rows with
  | [] => []
  | trans :: rest =>
      let current_page' := if y <? 50 then current_page + 1 else current_page in
      let y' := if y <? 50 then 750 else y in
      mk_line current_page' y' trans :: draw_rows current_page' (y' - 20) rest
  end.

(** The table header is at [y = 640] on the first page and the first row 25
    below it. *)
Definition statement_body (rows : list history_row) : list drawn_line :=
  draw_rows 0 (640 - 25) rows.

(** Two lines in the order in which they are drawn: the second is on a later
    page, or on the same page at least one line height below the first. *)
Definition drawn_before (l1 l2 : drawn_line) : Prop :=
  page l1 < page l2 \/ (page l1 = page l2 /\ height l2 + 20 <= height l1).

(** ** The screens of [BankGUI] (new.py, lines 235-734)

    What matters of the window is which screen it shows, since that decides
    which handlers can run.  Texts arrive as the form fields hold them after
    [strip()], numbers as [float] reads them when it reads a finite number:
    the events of this model do not include typing "nan" or "inf" into an
    amount field.  The window with every double that [float] can read is
    [Double.handle]; what holds of the window whatever is typed is stated
    there. *)

Inductive screen : Type :=
| LoginScreen
| RegisterScreen
| DashboardScreen
| TransactionScreen (trans_type : string)
| HistoryScreen
| DashboardNavbar  (* [show_dashboard] cut short at [get_balance]: the
                      navigation bar with "Logout" is all there is *)
| DashboardBlank.  (* [show_dashboard] cut short at [current_user['name']]:
                      nothing on the screen is bound to a handler *)

Record gui : Type := mk_gui {
  bank_system : connection;
  current_user : option login_row;
  shown : screen
}.

(** [BankGUI.__init__] on a database file. *)
Definition launch (file : database) : gui :=
  {| bank_system := setup_database file;
     current_user := None;
     shown := LoginScreen |}.

Definition with_connection (c : connection) (g : gui) : gui :=
  {| bank_system := c; current_user := current_user g; shown := shown g |}.

Definition show (s : screen) (g : gui) : gui :=
  {| bank_system := bank_system g; current_user := current_user g;
     shown := s |}.

Inductive gui_dialog : Type :=
| messagebox (d : dialog)
| showinfo_account_created (account_number : Z)
| showinfo_no_data
| showinfo_exported (body : list drawn_line).

(** [if x:] on a text and on what [register_user] returns. *)
Definition empty_text (s : string) : bool := String.eqb s "".

Definition truthy (account_number : option Z) : bool :=
  match account_number with
  | Some n => negb (n =? 0)
  | None => false
  end.

(** new.py, lines 430-514.  The balance is read for the account of the
    session; the widgets built before a failure stay on the screen. *)
Definition show_dashboard (g : gui) : outcome unit * gui :=
  match current_user g with
  | None => (Raise TypeError, show DashboardBlank g)
  | Some (acct, _, _) =>
      match get_balance acct (bank_system g) with
      | (Return (Some _), c) => (Return tt, show DashboardScreen (with_connection c g))
      | (Return None, c) => (Raise TypeError, show DashboardNavbar (with_connection c g))
      | (Raise e, c) => (Raise e, show DashboardNavbar (with_connection c g))
      end
  end.

(** new.py, lines 319-336. *)
Definition login (email_text password_text : string) (g : gui)
    : outcome (option gui_dialog) * gui :=
  if empty_text email_text || empty_text password_text
  then (Return (Some (messagebox (showwarning "Input Error"
                                    "Please fill all fields"))), g)
  else
    match login_user email_text password_text (bank_system g) with
    | (Return (Some user), c) =>
        match show_dashboard
                {| bank_system := c; current_user := Some user;
                   shown := shown g |} with
        | (Return _, g') => (Return None, g')
        | (Raise e, g') => (Raise e, g')
        end
    | (Return None, c) =>
        (Return (Some (messagebox (showerror "Login Failed"
                                     "Invalid email or password"))),
         with_connection c g)
    | (Raise e, c) => (Raise e, with_connection c g)
    end.

(** new.py, lines 399-425.  [initial_deposit] is what [float] makes of
    [initial_deposit_text]. *)
Definition register (full_name_text email_text phone_text password_text
                     initial_deposit_text : string)
    (initial_deposit : option Z) (now_user now_tx : Z) (g : gui)
    : outcome (option gui_dialog) * gui :=
  if empty_text full_name_text || empty_text email_text
     || empty_text phone_text || empty_text password_text
     || empty_text initial_deposit_text
  then (Return (Some (messagebox (showwarning "Input Error"
                                    "Please fill all fields"))), g)
  else
    match initial_deposit with
    | None =>
        (Return (Some (messagebox (showwarning "Invalid Amount"
                                     "Please enter a valid amount"))), g)
    | Some dep =>
        if dep <? 0
        then (Return (Some (messagebox
                              (showwarning "Invalid Amount"
                                 "Initial deposit cannot be negative"))), g)
        else
          match register_user full_name_text email_text phone_text
                  password_text dep now_user now_tx (bank_system g) with
          | (Return account_number, c) =>
              if truthy account_number
              then (Return (option_map showinfo_account_created account_number),
                    show LoginScreen (with_connection c g))
              else (Return (Some (messagebox
                                    (showerror "Registration Failed"
                                       "Email already exists or registration failed"))),
                    with_connection c g)
          | (Raise e, c) => (Raise e, with_connection c g)
          end
    end.

(** The "Confirm" button of the amount screen: [process_transaction] for the
    account of the session, then the dashboard when it succeeded.  Without a
    session the account number is asked for only after the amount has passed
    its checks. *)
Definition confirm (trans_type : string) (entered : option Z) (now : Z)
    (g : gui) : outcome (option gui_dialog) * gui :=
  match current_user g with
  | Some (acct, _, _) =>
      match process_transaction trans_type acct entered now (bank_system g)
      with
      | (Return (Some (showinfo_deposited a nb)), c) =>
          match show_dashboard (with_connection c g) with
          | (Return _, g') =>
              (Return (Some (messagebox (showinfo_deposited a nb))), g')
          | (Raise e, g') => (Raise e, g')
          end
      | (Return (Some (showinfo_withdrawn a nb)), c) =>
          match show_dashboard (with_connection c g) with
          | (Return _, g') =>
              (Return (Some (messagebox (showinfo_withdrawn a nb))), g')
          | (Raise e, g') => (Raise e, g')
          end
      | (Return d, c) => (Return (option_map messagebox d), with_connection c g)
      | (Raise e, c) => (Raise e, with_connection c g)
      end
  | None =>
      match entered with
      | None =>
          (Return (Some (messagebox (showwarning "Invalid Input"
                                       "Please enter a valid amount"))), g)
      | Some amt =>
          if amt <=? 0
          then (Return (Some (messagebox
                                (showwarning "Invalid Amount"
                                   "Amount must be greater than 0"))), g)
          else (Raise TypeError, g)
      end
  end.

(** new.py, lines 593-679: the header with its two buttons is built before
    the history is read. *)
Definition show_transaction_history (g : gui)
    : outcome (option gui_dialog) * gui :=
  match current_user g with
  | Some _ => (Return None, show HistoryScreen g)
  | None => (Raise TypeError, show HistoryScreen g)
  end.

(** new.py, lines 681-734.  [except Exception] turns every failure into a
    dialog. *)
Definition export_to_pdf (g : gui) : outcome (option gui_dialog) * gui :=
  match current_user g with
  | Some (acct, _, _) =>
      match get_transaction_history acct (bank_system g) with
      | (Return [], c) => (Return (Some showinfo_no_data), with_connection c g)
      | (Return rows, c) =>
          (Return (Some (showinfo_exported (statement_body rows))),
           with_connection c g)
      | (Raise e, c) =>
          (Return (Some (messagebox
                           (showerror "Export Failed"
                              ("Failed to export PDF: " ++ str e)))),
           with_connection c g)
      end
  | None =>
      (Return (Some (messagebox
                       (showerror "Export Failed"
                          ("Failed to export PDF: " ++ str TypeError)))),
       g)
  end.

(** What the user can do: press a button of the screen shown, or close the
    window and start the application again. *)
Inductive event : Type :=
| SignIn (email_text password_text : string)
| CreateAccountLink
| BackToLogin
| CreateAccount (full_name_text email_text phone_text password_text
                 initial_deposit_text : string)
                (initial_deposit : option Z) (now_user now_tx : Z)
| Logout
| OpenDeposit
| OpenWithdraw
| OpenHistory
| BackToDashboard
| Confirm (entered : option Z) (now : Z)
| ExportPDF
| Relaunch.

Definition lift_unit (r : outcome unit * gui) : outcome (option gui_dialog) * gui :=
  match r with
  | (Return _, g) => (Return None, g)
  | (Raise e, g) => (Raise e, g)
  end.

(** The handler bound to the button, when the screen shown has the button;
    nothing happens otherwise. *)
Definition handle (g : gui) (e : event) : outcome (option gui_dialog) * gui :=
  match e, shown g with
  | Relaunch, _ => (Return None, launch (disk (bank_system g)))
  | SignIn em pw, LoginScreen => login em pw g
  | CreateAccountLink, LoginScreen => (Return None, show RegisterScreen g)
  | BackToLogin, RegisterScreen => (Return None, show LoginScreen g)
  | CreateAccount fn em ph pw dep_text dep now_user now_tx, RegisterScreen =>
      register fn em ph pw dep_text dep now_user now_tx g
  | Logout, (DashboardScreen | DashboardNavbar) =>
      (Return None, show LoginScreen g)
  | OpenDeposit, DashboardScreen =>
      (Return None, show (TransactionScreen "Deposit") g)
  | OpenWithdraw, DashboardScreen =>
      (Return None, show (TransactionScreen "Withdraw") g)
  | OpenHistory, DashboardScreen => show_transaction_history g
  | BackToDashboard, (TransactionScreen _ | HistoryScreen) =>
      lift_unit (show_dashboard g)
  | Confirm entered now, TransactionScreen trans_type =>
      confirm trans_type entered now g
  | ExportPDF, HistoryScreen => export_to_pdf g
  | _, _ => (Return None, g)
  end.

Definition after (g : gui) (e : event) : gui := snd (handle g e).

(** The window after a sequence of events, the application having been
    started on a fresh database file. *)
Definition gui_run (events : list event) : gui :=
  fold_left after events (launch empty_database).

(** The session, when there is one, is the session of an account that
    exists; the screens behind the login have a session; no screen was cut
    short. *)
Definition session_ok (g : gui) : Prop :=
  (forall acct name bal, current_user g = Some (acct, name, bal) ->
     lookup_balance acct (view (bank_system g)) <> None) /\
  (match shown g with
   | LoginScreen | RegisterScreen => True
   | DashboardScreen | TransactionScreen _ | HistoryScreen =>
       current_user g <> None
   | DashboardNavbar | DashboardBlank => False
   end).

(** A history of 31 equal rows, one more than fits on the first page and
    the first line of the second. *)
Definition example_long_history : list history_row :=
  repeat ("Deposit"%string, 1, 1, 0) 31.

(** The three facts about one event that the properties of the window rest
    on: the handler returns, the session stays sound, and the store is
    either untouched or moved by one operation with valid amounts. *)
Definition step_ok (g : gui) (r : outcome (option gui_dialog) * gui) : Prop :=
  (exists d, fst r = Return d) /\
  session_ok (snd r) /\
  (bank_system (snd r) = bank_system g \/
   exists o, valid_operation o = true /\
             bank_system (snd r) = run (bank_system g) o).

(** A visit: an account is opened with 100, its owner signs in and
    withdraws 40. *)
Definition example_events : list event :=
  [CreateAccountLink;
   CreateAccount "A" "a@x.com" "555" "pw" "100" (Some 100) 10 10;
   SignIn "a@x.com" "pw";
   OpenWithdraw;
   Confirm (Some 40) 12].

(** ** The ledger in double precision

    The same methods with amounts as they are at run time: Python floats
    and SQLite [REAL] values, that is IEEE 754 doubles, with the three
    places where a NaN turns into [NULL] or an error:
    - a NaN bound to a statement parameter is stored as [NULL];
    - [+] and [-] in SQL yield [NULL] when an operand is [NULL] or the
      result is a NaN;
    - [amount] and [balance_after] are [NOT NULL]: inserting a [NULL]
      there raises [IntegrityError].  [balance] has no such constraint.
    A [NULL] read back through [fetchone] is Python's [None].  Account
    numbers are the integers SQLite holds; the properties below are about
    accounts that exist. *)

Module Double.

Definition double : Set := PrimFloat.float.

(** A float bound to a parameter, as the column receives it. *)
Definition to_real (x : double) : option double :=
  if PrimFloat.is_nan x then None else Some x.

(** A Python value, [None] or a float, bound to a parameter. *)
Definition bind_value (v : option double) : option double :=
  match v with
  | Some x => to_real x
  | None => None
  end.

(** SQL [x + y] and [x - y] on [REAL] values. *)
Definition real_add (x y : option double) : option double :=
  match x, y with
  | Some a, Some b => to_real (PrimFloat.add a b)
  | _, _ => None
  end.

Definition real_sub (x y : option double) : option double :=
  match x, y with
  | Some a, Some b => to_real (PrimFloat.sub a b)
  | _, _ => None
  end.

Record user_row : Type := mk_user {
  account_number : Z;
  full_name : string;
  email : string;
  phone : string;
  password : string;
  balance : option double;
  created_at : Z
}.

Record transaction_row : Type := mk_transaction {
  transaction_id : Z;
  tx_account_number : Z;
  transaction_type : string;
  amount : double;
  balance_after : double;
  transaction_date : Z
}.

Record database : Type := mk_database {
  users : list user_row;
  users_seq : Z;
  transactions : list transaction_row;
  transactions_seq : Z
}.

Definition empty_database : database :=
  {| users := []; users_seq := 0; transactions := []; transactions_seq := 0 |}.

Record connection : Type := mk_connection {
  disk : database;
  view : database
}.

Definition setup_database (file : database) : connection :=
  {| disk := file; view := file |}.

Definition committed (d : database) : connection := {| disk := d; view := d |}.

Definition M (A : Type) : Type := connection -> outcome A * connection.

Definition ret {A} (a : A) : M A := fun c => (Return a, c).

Definition raise {A} (e : exn) : M A := fun c => (Raise e, c).

Definition bind {A B} (m : M A) (k : A -> M B) : M B :=
  fun c =>
    match m c with
    | (Return a, c') => k a c'
    | (Raise e, c') => (Raise e, c')
    end.

Definition try_except {A} (body : M A) (handler : exn -> M A) : M A :=
  fun c =>
    match body c with
    | (Return a, c') => (Return a, c')
    | (Raise e, c') => handler e c'
    end.

#[local, warnings="-notation-overridden"]
Notation "x <- m ;; k" := (bind m (fun x => k))
  (at level 61, m at next level, right associativity).
#[local, warnings="-notation-overridden"]
Notation "m ;; k" := (bind m (fun _ => k))
  (at level 61, right associativity).

Definition write (f : database -> database) : M unit :=
  fun c => (Return tt, {| disk := disk c; view := f (view c) |}).

Definition email_taken (em : string) (d : database) : bool :=
  existsb (fun u => String.eqb (email u) em) (users d).

(** [INSERT INTO users (full_name, email, phone, password, balance)
    VALUES (?, ?, ?, ?, ?)] *)
Definition db_insert_user (fn em ph pw : string) (bal : option double)
    (now : Z) (d : database) : database :=
  let id := users_seq d + 1 in
  {| users := users d ++ [mk_user id fn em ph pw bal now];
     users_seq := id;
     transactions := transactions d;
     transactions_seq := transactions_seq d |}.

Definition insert_user (fn em ph pw : string) (bal : double) (now : Z)
    : M Z :=
  fun c =>
    if email_taken em (view c) then (Raise IntegrityError, c)
    else (write (db_insert_user fn em ph pw (to_real bal) now) ;;
          ret (users_seq (view c) + 1)) c.

(** [UPDATE users SET balance = balance + ? WHERE account_number = ?] and
    the same with [-]: [f] is what is done to the balance. *)
Definition set_balance (f : option double -> option double) (acct : Z)
    (u : user_row) : user_row :=
  if account_number u =? acct
  then mk_user (account_number u) (full_name u) (email u) (phone u)
               (password u) (f (balance u)) (created_at u)
  else u.

Definition db_update_balance (f : option double -> option double) (acct : Z)
    (d : database) : database :=
  {| users := map (set_balance f acct) (users d);
     users_seq := users_seq d;
     transactions := transactions d;
     transactions_seq := transactions_seq d |}.

Definition add_amount (amt : double) (b : option double) : option double :=
  real_add b (to_real amt).

Definition subtract_amount (amt : double) (b : option double)
    : option double :=
  real_sub b (to_real amt).

Definition update_balance (f : option double -> option double) (acct : Z)
    : M unit :=
  write (db_update_balance f acct).

(** [SELECT balance FROM users WHERE account_number = ?] and [fetchone()]:
    no row, or the row with its balance, which may be [NULL]. *)
Definition lookup_balance (acct : Z) (d : database)
    : option (option double) :=
  option_map balance
    (find (fun u => account_number u =? acct) (users d)).

Definition select_balance (acct : Z) : M (option (option double)) :=
  fun c => (Return (lookup_balance acct (view c)), c).

(** [fetchone()[0]]: the float, [None] for a [NULL], a [TypeError] without
    a row. *)
Definition subscript0 (r : option (option double)) : M (option double) :=
  match r with
  | Some b => ret b
  | None => raise TypeError
  end.

(** [INSERT INTO transactions (account_number, transaction_type, amount,
    balance_after) VALUES (?, ?, ?, ?)], both amounts [NOT NULL]. *)
Definition db_insert_transaction (acct : Z) (trans_type : string)
    (amt bal_after : double) (now : Z) (d : database) : database :=
  let id := transactions_seq d + 1 in
  {| users := users d;
     users_seq := users_seq d;
     transactions :=
       transactions d ++ [mk_transaction id acct trans_type amt bal_after now];
     transactions_seq := id |}.

Definition insert_transaction (acct : Z) (trans_type : string)
    (amt : double) (bal_after : option double) (now : Z) : M unit :=
  fun c =>
    match to_real amt, bind_value bal_after with
    | Some a, Some b => write (db_insert_transaction acct trans_type a b now) c
    | _, _ => (Raise IntegrityError, c)
    end.

Definition commit : M unit :=
  fun c => (Return tt, {| disk := view c; view := view c |}).

(** new.py, lines 149-156. *)
Definition record_transaction (acct : Z) (trans_type : string)
    (amt : double) (bal_after : option double) (now : Z) : M unit :=
  try_except
    (insert_transaction acct trans_type amt bal_after now)
    (fun e => if is_sqlite3_Error e then ret tt else raise e).

(** new.py, lines 60-80. *)
Definition register_user (fn em ph pw : string) (initial_deposit : double)
    (now_user now_tx : Z) : M (option Z) :=
  try_except
    (acct <- insert_user fn em ph pw initial_deposit now_user ;;
     commit ;;
     (if PrimFloat.ltb PrimFloat.zero initial_deposit
      then record_transaction acct "Deposit" initial_deposit
             (Some initial_deposit) now_tx
      else ret tt) ;;
     ret (Some acct))
    (fun e => if is_sqlite3_Error e then ret None else raise e).

(** new.py, lines 93-111.  What is returned is what [fetchone] gave:
    [None] when the new balance is [NULL]. *)
Definition deposit_money (acct : Z) (amt : double) (now : Z)
    : M (option double) :=
  try_except
    (update_balance (add_amount amt) acct ;;
     r <- select_balance acct ;;
     new_balance <- subscript0 r ;;
     record_transaction acct "Deposit" amt new_balance now ;;
     commit ;;
     ret new_balance)
    (fun e => if is_sqlite3_Error e then ret None else raise e).

(** [current_balance < amount]: a [TypeError] when the balance is [None]. *)
Definition less_than (current_balance : option double) (amt : double)
    : M bool :=
  match current_balance with
  | Some b => ret (PrimFloat.ltb b amt)
  | None => raise TypeError
  end.

(** new.py, lines 113-137.  Past the comparison the balance is a float and
    [new_balance] is the difference Python computes. *)
Definition withdraw_money (acct : Z) (amt : double) (now : Z)
    : M (option double * string) :=
  try_except
    (r <- select_balance acct ;;
     current_balance <- subscript0 r ;;
     insufficient <- less_than current_balance amt ;;
     if insufficient then ret (None, "Insufficient funds"%string)
     else
       update_balance (subtract_amount amt) acct ;;
       let new_balance :=
         option_map (fun b => PrimFloat.sub b amt) current_balance in
       record_transaction acct "Withdrawal" amt new_balance now ;;
       commit ;;
       ret (new_balance, "Success"%string))
    (fun e => if is_sqlite3_Error e then ret (None, str e) else raise e).

(** new.py, lines 139-147. *)
Definition get_balance (acct : Z) : M (option double) :=
  try_except
    (r <- select_balance acct ;; subscript0 r)
    (fun e => if is_sqlite3_Error e then ret None else raise e).

(** The amount form (new.py, lines 567-588). *)
Inductive dialog : Type :=
| showwarning (title message : string)
| showinfo_deposited (amt new_balance : double)
| showinfo_withdrawn (amt new_balance : double)
| showerror (title message : string).

(** [float(amount_entry.get().strip())]: any double, a NaN and the
    infinities included, or a [ValueError]. *)
Definition float (entered : option double) : M double :=
  match entered with
  | Some a => ret a
  | None => raise ValueError
  end.

Definition process_transaction (trans_type : string) (current_user : Z)
    (entered : option double) (now : Z) : M (option dialog) :=
  try_except
    (amt <- float entered ;;
     if PrimFloat.leb amt PrimFloat.zero
     then ret (Some (showwarning "Invalid Amount"
                       "Amount must be greater than 0"))
     else if String.eqb trans_type "Deposit"
     then
       new_balance <- deposit_money current_user amt now ;;
       match new_balance with
       | Some nb => ret (Some (showinfo_deposited amt nb))
       | None => ret None
       end
     else
       r <- withdraw_money current_user amt now ;;
       match r with
       | (Some nb, _) => ret (Some (showinfo_withdrawn amt nb))
       | (None, message) =>
           ret (Some (showerror "Transaction Failed" message))
       end)
    (fun e =>
       match e with
       | ValueError =>
           ret (Some (showwarning "Invalid Input"
                        "Please enter a valid amount"))
       | _ => raise e
       end).

(** An account opened with [deposit], on a fresh database. *)
Definition opened_with (deposit : double) : connection :=
  snd (register_user "A" "a@x.com" "555" "pw" deposit 10 10
         (setup_database empty_database)).

(** *** The history, the login and the window on doubles

    The rest of the program on this ledger, statement for statement as in
    the first model; only the type of the amounts differs. *)

Definition history_row : Type := (string * double * double * Z)%type.

Definition selected_columns (t : transaction_row) : history_row :=
  (transaction_type t, amount t, balance_after t, transaction_date t).

Definition date_of (r : history_row) : Z := snd r.

Definition transactions_of (acct : Z) (txs : list transaction_row)
    : list transaction_row :=
  filter (fun t => tx_account_number t =? acct) txs.

Fixpoint insert_desc (r : history_row) (l : list history_row)
    : list history_row :=
  match l with
  | [] => [r]
  | r' :: l' =>
      if date_of r' <=? date_of r then r :: r' :: l'
      else r' :: insert_desc r l'
  end.

Fixpoint order_by_date_desc (l : list history_row) : list history_row :=
  match l with
  | [] => []
  | r :: l' => insert_desc r (order_by_date_desc l')
  end.

Definition select_history (acct : Z) (d : database) : list history_row :=
  order_by_date_desc (map selected_columns (transactions_of acct (transactions d))).

(** new.py, lines 158-168. *)
Definition get_transaction_history (acct : Z) : M (list history_row) :=
  try_except
    (fun c => (Return (select_history acct (view c)), c))
    (fun e => if is_sqlite3_Error e then ret [] else raise e).

Definition login_row : Type := (Z * string * option double)%type.

Definition login_columns (u : user_row) : login_row :=
  (account_number u, full_name u, balance u).

Definition credentials_match (em pw : string) (u : user_row) : bool :=
  String.eqb (email u) em && String.eqb (password u) pw.

Definition select_login (em pw : string) (d : database) : option login_row :=
  option_map login_columns (find (credentials_match em pw) (users d)).

(** new.py, lines 82-91. *)
Definition login_user (em pw : string) : M (option login_row) :=
  try_except
    (fun c => (Return (select_login em pw (view c)), c))
    (fun e => if is_sqlite3_Error e then ret None else raise e).

(** Runs of the ledger. *)
Inductive operation : Type :=
| Register (fn em ph pw : string) (initial_deposit : double)
           (now_user now_tx : Z)
| Deposit (acct : Z) (amt : double) (now : Z)
| Withdraw (acct : Z) (amt : double) (now : Z)
| Restart.

Definition run (c : connection) (o : operation) : connection :=
  match o with
  | Register fn em ph pw dep now_user now_tx =>
      snd (register_user fn em ph pw dep now_user now_tx c)
  | Deposit acct amt now => snd (deposit_money acct amt now c)
  | Withdraw acct amt now => snd (withdraw_money acct amt now c)
  | Restart => setup_database (disk c)
  end.

Definition run_all (ops : list operation) : connection :=
  fold_left run ops (setup_database empty_database).

(** The finite amounts that the forms let through: a registration deposit
    that is not negative, and positive amounts to deposit and withdraw. *)
Definition valid_operation (o : operation) : bool :=
  match o with
  | Register _ _ _ _ dep _ _ =>
      PrimFloat.is_finite dep && PrimFloat.leb PrimFloat.zero dep
  | Deposit _ amt _ | Withdraw _ amt _ =>
      PrimFloat.is_finite amt && PrimFloat.ltb PrimFloat.zero amt
  | Restart => true
  end.

(** Every balance of the table is a number, not [NULL], and not negative;
    account numbers are distinct and were handed out by the counter. *)
Definition non_negative (d : database) : Prop :=
  forall u, In u (users d) ->
    exists b, balance u = Some b /\ PrimFloat.leb PrimFloat.zero b = true.

Record db_ok (d : database) : Prop := mk_db_ok {
  ok_nodup : NoDup (map account_number (users d));
  ok_ids : forall u, In u (users d) -> account_number u <= users_seq d;
  ok_balances : non_negative d
}.

Definition ledger_ok (c : connection) : Prop := db_ok (view c) /\ db_ok (disk c).

(** The PDF statement (new.py, lines 716-729), as in the first model. *)
Record drawn_line : Type := mk_line {
  page : Z;
  height : Z;
  printed : history_row
}.

Fixpoint draw_rows (current_page y : Z) (rows : list history_row)
    : list drawn_line :=
  match rows with
  | [] => []
  | trans :: rest =>
      let current_page' := if y <? 50 then current_page + 1 else current_page in
      let y' := if y <? 50 then 750 else y in
      mk_line current_page' y' trans :: draw_rows current_page' (y' - 20) rest
  end.

Definition statement_body (rows : list history_row) : list drawn_line :=
  draw_rows 0 (640 - 25) rows.

(** The window on this ledger (new.py, lines 235-734): the handlers of the
    first model, with amounts as [float] reads them. *)
Record gui : Type := mk_gui {
  bank_system : connection;
  current_user : option login_row;
  shown : screen
}.

Definition launch (file : database) : gui :=
  {| bank_system := setup_database file;
     current_user := None;
     shown := LoginScreen |}.

Definition with_connection (c : connection) (g : gui) : gui :=
  {| bank_system := c; current_user := current_user g; shown := shown g |}.

Definition show (s : screen) (g : gui) : gui :=
  {| bank_system := bank_system g; current_user := current_user g;
     shown := s |}.

Inductive gui_dialog : Type :=
| messagebox (d : dialog)
| showinfo_account_created (account_number : Z)
| showinfo_no_data
| showinfo_exported (body : list drawn_line).

(** new.py, lines 430-514: [f"Rs {balance:,.2f}"] on a balance that is
    [None] is a [TypeError]. *)
Definition show_dashboard (g : gui) : outcome unit * gui :=
  match current_user g with
  | None => (Raise TypeError, show DashboardBlank g)
  | Some (acct, _, _) =>
      match get_balance acct (bank_system g) with
      | (Return (Some _), c) => (Return tt, show DashboardScreen (with_connection c g))
      | (Return None, c) => (Raise TypeError, show DashboardNavbar (with_connection c g))
      | (Raise e, c) => (Raise e, show DashboardNavbar (with_connection c g))
      end
  end.

(** new.py, lines 319-336. *)
Definition login (email_text password_text : string) (g : gui)
    : outcome (option gui_dialog) * gui :=
  if empty_text email_text || empty_text password_text
  then (Return (Some (messagebox (showwarning "Input Error"
                                    "Please fill all fields"))), g)
  else
    match login_user email_text password_text (bank_system g) with
    | (Return (Some user), c) =>
        match show_dashboard
                {| bank_system := c; current_user := Some user;
                   shown := shown g |} with
        | (Return _, g') => (Return None, g')
        | (Raise e, g') => (Raise e, g')
        end
    | (Return None, c) =>
        (Return (Some (messagebox (showerror "Login Failed"
                                     "Invalid email or password"))),
         with_connection c g)
    | (Raise e, c) => (Raise e, with_connection c g)
    end.

(** new.py, lines 399-425. *)
Definition register (full_name_text email_text phone_text password_text
                     initial_deposit_text : string)
    (initial_deposit : option double) (now_user now_tx : Z) (g : gui)
    : outcome (option gui_dialog) * gui :=
  if empty_text full_name_text || empty_text email_text
     || empty_text phone_text || empty_text password_text
     || empty_text initial_deposit_text
  then (Return (Some (messagebox (showwarning "Input Error"
                                    "Please fill all fields"))), g)
  else
    match initial_deposit with
    | None =>
        (Return (Some (messagebox (showwarning "Invalid Amount"
                                     "Please enter a valid amount"))), g)
    | Some dep =>
        if PrimFloat.ltb dep PrimFloat.zero
        then (Return (Some (messagebox
                              (showwarning "Invalid Amount"
                                 "Initial deposit cannot be negative"))), g)
        else
          match register_user full_name_text email_text phone_text
                  password_text dep now_user now_tx (bank_system g) with
          | (Return account_number, c) =>
              if truthy account_number
              then (Return (option_map showinfo_account_created account_number),
                    show LoginScreen (with_connection c g))
              else (Return (Some (messagebox
                                    (showerror "Registration Failed"
                                       "Email already exists or registration failed"))),
                    with_connection c g)
          | (Raise e, c) => (Raise e, with_connection c g)
          end
    end.

(** The "Confirm" button: [process_transaction] for the account of the
    session, then the dashboard when a success dialog was shown. *)
Definition confirm (trans_type : string) (entered : option double) (now : Z)
    (g : gui) : outcome (option gui_dialog) * gui :=
  match current_user g with
  | Some (acct, _, _) =>
      match process_transaction trans_type acct entered now (bank_system g)
      with
      | (Return (Some (showinfo_deposited a nb)), c) =>
          match show_dashboard (with_connection c g) with
          | (Return _, g') =>
              (Return (Some (messagebox (showinfo_deposited a nb))), g')
          | (Raise e, g') => (Raise e, g')
          end
      | (Return (Some (showinfo_withdrawn a nb)), c) =>
          match show_dashboard (with_connection c g) with
          | (Return _, g') =>
              (Return (Some (messagebox (showinfo_withdrawn a nb))), g')
          | (Raise e, g') => (Raise e, g')
          end
      | (Return d, c) => (Return (option_map messagebox d), with_connection c g)
      | (Raise e, c) => (Raise e, with_connection c g)
      end
  | None =>
      match entered with
      | None =>
          (Return (Some (messagebox (showwarning "Invalid Input"
                                       "Please enter a valid amount"))), g)
      | Some amt =>
          if PrimFloat.leb amt PrimFloat.zero
          then (Return (Some (messagebox
                                (showwarning "Invalid Amount"
                                   "Amount must be greater than 0"))), g)
          else (Raise TypeError, g)
      end
  end.

(** new.py, lines 593-679. *)
Definition show_transaction_history (g : gui)
    : outcome (option gui_dialog) * gui :=
  match current_user g with
  | Some _ => (Return None, show HistoryScreen g)
  | None => (Raise TypeError, show HistoryScreen g)
  end.

(** new.py, lines 681-734. *)
Definition export_to_pdf (g : gui) : outcome (option gui_dialog) * gui :=
  match current_user g with
  | Some (acct, _, _) =>
      match get_transaction_history acct (bank_system g) with
      | (Return [], c) => (Return (Some showinfo_no_data), with_connection c g)
      | (Return rows, c) =>
          (Return (Some (showinfo_exported (statement_body rows))),
           with_connection c g)
      | (Raise e, c) =>
          (Return (Some (messagebox
                           (showerror "Export Failed"
                              ("Failed to export PDF: " ++ str e)))),
           with_connection c g)
      end
  | None =>
      (Return (Some (messagebox
                       (showerror "Export Failed"
                          ("Failed to export PDF: " ++ str TypeError)))),
       g)
  end.

Inductive event : Type :=
| SignIn (email_text password_text : string)
| CreateAccountLink
| BackToLogin
| CreateAccount (full_name_text email_text phone_text password_text
                 initial_deposit_text : string)
                (initial_deposit : option double) (now_user now_tx : Z)
| Logout
| OpenDeposit
| OpenWithdraw
| OpenHistory
| BackToDashboard
| Confirm (entered : option double) (now : Z)
| ExportPDF
| Relaunch.

Definition lift_unit (r : outcome unit * gui) : outcome (option gui_dialog) * gui :=
  match r with
  | (Return _, g) => (Return None, g)
  | (Raise e, g) => (Raise e, g)
  end.

Definition handle (g : gui) (e : event) : outcome (option gui_dialog) * gui :=
  match e, shown g with
  | Relaunch, _ => (Return None, launch (disk (bank_system g)))
  | SignIn em pw, LoginScreen => login em pw g
  | CreateAccountLink, LoginScreen => (Return None, show RegisterScreen g)
  | BackToLogin, RegisterScreen => (Return None, show LoginScreen g)
  | CreateAccount fn em ph pw dep_text dep now_user now_tx, RegisterScreen =>
      register fn em ph pw dep_text dep now_user now_tx g
  | Logout, (DashboardScreen | DashboardNavbar) =>
      (Return None, show LoginScreen g)
  | OpenDeposit, DashboardScreen =>
      (Return None, show (TransactionScreen "Deposit") g)
  | OpenWithdraw, DashboardScreen =>
      (Return None, show (TransactionScreen "Withdraw") g)
  | OpenHistory, DashboardScreen => show_transaction_history g
  | BackToDashboard, (TransactionScreen _ | HistoryScreen) =>
      lift_unit (show_dashboard g)
  | Confirm entered now, TransactionScreen trans_type =>
      confirm trans_type entered now g
  | ExportPDF, HistoryScreen => export_to_pdf g
  | _, _ => (Return None, g)
  end.

Definition after (g : gui) (e : event) : gui := snd (handle g e).

Definition gui_run (events : list event) : gui :=
  fold_left after events (launch empty_database).

(** The amount typed, when the text is a number at all, is a finite one:
    not what [float] makes of "nan", "inf" or "1e999". *)
Definition finite_entry (entered : option double) : bool :=
  match entered with
  | Some a => PrimFloat.is_finite a
  | None => true
  end.

Definition finite_event (e : event) : bool :=
  match e with
  | CreateAccount _ _ _ _ _ initial_deposit _ _ => finite_entry initial_deposit
  | Confirm entered _ => finite_entry entered
  | _ => true
  end.

Definition session_ok (g : gui) : Prop :=
  (forall acct name bal, current_user g = Some (acct, name, bal) ->
     lookup_balance acct (view (bank_system g)) <> None) /\
  (match shown g with
   | LoginScreen | RegisterScreen => True
   | DashboardScreen | TransactionScreen _ | HistoryScreen =>
       current_user g <> None
   | DashboardNavbar | DashboardBlank => False
   end).

(** One event: the handler returns, the session and the ledger stay sound,
    and the store is either untouched or moved by one valid operation. *)
Definition step_ok (g : gui) (r : outcome (option gui_dialog) * gui) : Prop :=
  (exists d, fst r = Return d) /\
  session_ok (snd r) /\
  (bank_system (snd r) = bank_system g \/
   exists o, valid_operation o = true /\
             bank_system (snd r) = run (bank_system g) o).

(** A visit: an account is opened with 100, its owner signs in and
    withdraws 40. *)
Definition example_events : list event :=
  [CreateAccountLink;
   CreateAccount "A" "a@x.com" "555" "pw" "100" (Some 100%float) 10 10;
   SignIn "a@x.com" "pw";
   OpenWithdraw;
   Confirm (Some 40%float) 12].

(** The same owner on the deposit screen. *)
Definition example_deposit_screen : list event :=
  [CreateAccountLink;
   CreateAccount "A" "a@x.com" "555" "pw" "100" (Some 100%float) 10 10;
   SignIn "a@x.com" "pw";
   OpenDeposit].

End Double.

(** ** Signs of doubles *)

(** A result with the sign [s]: a zero, a finite number or an infinity,
    and not a NaN. *)
Definition has_sign (s : bool) (x : SpecFloat.spec_float) : Prop :=
  match x with
  | SpecFloat.S754_zero s' | SpecFloat.S754_infinity s'
  | SpecFloat.S754_finite s' _ _ => s' = s
  | SpecFloat.S754_nan => False
  end.

(** What [0 <= x] and [0 < x] say of a double: [-0.0] is not negative. *)
Definition SFnon_negative (x : SpecFloat.spec_float) : Prop :=
  match x with
  | SpecFloat.S754_zero _ => True
  | SpecFloat.S754_infinity s | SpecFloat.S754_finite s _ _ => s = false
  | SpecFloat.S754_nan => False
  end.

Definition SFpositive (x : SpecFloat.spec_float) : Prop :=
  match x with
  | SpecFloat.S754_infinity s | SpecFloat.S754_finite s _ _ => s = false
  | _ => False
  end.

(** * Properties *)

(** ** What the statements do *)

Section Statements.

Variables (acct delta : Z).

Lemma add_to_balance_account (u : user_row) :
  account_number (add_to_balance delta acct u) = account_number u.
Proof.
  unfold add_to_balance. destruct (account_number u =? acct); reflexivity.
Qed.

Lemma add_to_balance_other (u : user_row) :
  account_number u <> acct -> add_to_balance delta acct u = u.
Proof.
  intros Hne. unfold add_to_balance.
  destruct (Z.eqb_spec (account_number u) acct); [contradiction | reflexivity].
Qed.

Lemma add_to_balance_same (u : user_row) :
  account_number u = acct ->
  balance (add_to_balance delta acct u) = balance u + delta.
Proof.
  intros He. unfold add_to_balance. rewrite He, Z.eqb_refl. reflexivity.
Qed.

Lemma find_add_to_balance (l : list user_row) :
  find (fun u => account_number u =? acct) (map (add_to_balance delta acct) l)
  = option_map (add_to_balance delta acct)
      (find (fun u => account_number u =? acct) l).
Proof.
  induction l as [|u l IH]; simpl; [reflexivity|].
  rewrite add_to_balance_account.
  destruct (account_number u =? acct); [reflexivity | exact IH].
Qed.

Lemma lookup_balance_update (d : database) :
  lookup_balance acct (db_update_balance delta acct d)
  = option_map (fun b => b + delta) (lookup_balance acct d).
Proof.
  unfold lookup_balance, db_update_balance; simpl.
  rewrite find_add_to_balance.
  destruct (find _ (users d)) as [u|] eqn:Hf; simpl; [|reflexivity].
  apply find_some in Hf. destruct Hf as [_ Hu].
  apply Z.eqb_eq in Hu. rewrite (add_to_balance_same _ Hu). reflexivity.
Qed.

Lemma map_add_to_balance_absent (l : list user_row) :
  find (fun u => account_number u =? acct) l = None ->
  map (add_to_balance delta acct) l = l.
Proof.
  induction l as [|u l IH]; simpl; [reflexivity|].
  destruct (Z.eqb_spec (account_number u) acct) as [|Hne]; [discriminate|].
  intros Hf. rewrite (add_to_balance_other _ Hne), (IH Hf). reflexivity.
Qed.

Lemma db_update_balance_absent (d : database) :
  lookup_balance acct d = None -> db_update_balance delta acct d = d.
Proof.
  unfold lookup_balance, db_update_balance. intros Hl.
  destruct (find _ (users d)) eqn:Hf; [discriminate|].
  rewrite (map_add_to_balance_absent _ Hf). destruct d; reflexivity.
Qed.

End Statements.

Lemma lookup_balance_insert_transaction (acct acct' : Z) (ty : string)
    (amt bal now : Z) (d : database) :
  lookup_balance acct (db_insert_transaction acct' ty amt bal now d)
  = lookup_balance acct d.
Proof. reflexivity. Qed.

Lemma connection_eta (c : connection) :
  {| disk := disk c; view := view c |} = c.
Proof. destruct c; reflexivity. Qed.

(** ** The methods in closed form *)

(** The balance the application shows is [lookup_balance] on what the
    connection sees. *)
Lemma get_balance_eq (acct : Z) (c : connection) :
  get_balance acct c =
  match lookup_balance acct (view c) with
  | Some b => (Return (Some b), c)
  | None => (Raise TypeError, c)
  end.
Proof.
  unfold get_balance, try_except, bind, select_balance, subscript0.
  destruct (lookup_balance acct (view c)); reflexivity.
Qed.

Lemma deposit_money_found (acct amt now b : Z) (c : connection) :
  lookup_balance acct (view c) = Some b ->
  deposit_money acct amt now c =
  (Return (Some (b + amt)),
   committed (db_insert_transaction acct "Deposit" amt (b + amt) now
                (db_update_balance amt acct (view c)))).
Proof.
  intros Hb.
  unfold deposit_money, try_except, bind, update_balance, write,
    select_balance; simpl.
  rewrite lookup_balance_update, Hb. reflexivity.
Qed.

Lemma deposit_money_missing (acct amt now : Z) (c : connection) :
  lookup_balance acct (view c) = None ->
  deposit_money acct amt now c = (Raise TypeError, c).
Proof.
  intros Hb.
  unfold deposit_money, try_except, bind, update_balance, write,
    select_balance; simpl.
  rewrite lookup_balance_update, Hb; simpl.
  rewrite (db_update_balance_absent _ _ _ Hb), connection_eta. reflexivity.
Qed.

Lemma withdraw_money_found (acct amt now b : Z) (c : connection) :
  lookup_balance acct (view c) = Some b ->
  withdraw_money acct amt now c =
  if b <? amt then (Return (None, "Insufficient funds"%string), c)
  else
    (Return (Some (b - amt), "Success"%string),
     committed (db_insert_transaction acct "Withdrawal" amt (b - amt) now
                  (db_update_balance (- amt) acct (view c)))).
Proof.
  intros Hb.
  unfold withdraw_money, try_except, bind, select_balance; simpl.
  rewrite Hb; simpl. destruct (b <? amt); reflexivity.
Qed.

Lemma withdraw_money_missing (acct amt now : Z) (c : connection) :
  lookup_balance acct (view c) = None ->
  withdraw_money acct amt now c = (Raise TypeError, c).
Proof.
  intros Hb.
  unfold withdraw_money, try_except, bind, select_balance; simpl.
  rewrite Hb. reflexivity.
Qed.

Lemma register_user_taken (fn em ph pw : string) (dep t1 t2 : Z)
    (c : connection) :
  email_taken em (view c) = true ->
  register_user fn em ph pw dep t1 t2 c = (Return None, c).
Proof.
  intros Ht. unfold register_user, try_except, bind, insert_user.
  rewrite Ht. reflexivity.
Qed.

Lemma register_user_fresh (fn em ph pw : string) (dep t1 t2 : Z)
    (c : connection) :
  email_taken em (view c) = false ->
  register_user fn em ph pw dep t1 t2 c =
  let d1 := db_insert_user fn em ph pw dep t1 (view c) in
  (Return (Some (users_seq (view c) + 1)),
   {| disk := d1;
      view := if 0 <? dep
              then db_insert_transaction (users_seq (view c) + 1) "Deposit"
                     dep dep t2 d1
              else d1 |}).
Proof.
  intros Ht. unfold register_user, try_except, bind, insert_user.
  rewrite Ht. simpl. destruct (0 <? dep); reflexivity.
Qed.

(** The example of the specification, with the clock at 10, 11 and 12. *)
Example specification_example :
  let c0 := setup_database empty_database in
  let r1 := register_user "A" "a@x.com" "555" "pw" 100 10 10 c0 in
  let r2 := withdraw_money 1 150 11 (conn_of r1) in
  let r3 := withdraw_money 1 40 12 (conn_of r2) in
  result_of r1 = Return (Some 1) /\
  get_balance 1 (conn_of r1) = (Return (Some 100), conn_of r1) /\
  result_of (get_transaction_history 1 (conn_of r1))
    = Return [("Deposit"%string, 100, 100, 10)] /\
  result_of r2 = Return (None, "Insufficient funds"%string) /\
  get_balance 1 (conn_of r2) = (Return (Some 100), conn_of r2) /\
  result_of r3 = Return (Some 60, "Success"%string) /\
  result_of (get_transaction_history 1 (conn_of r3))
    = Return [("Withdrawal"%string, 40, 60, 12);
              ("Deposit"%string, 100, 100, 10)].
Proof. repeat split. Qed.

(** ** Withdrawals *)

(** C2.  When the account holds [b] and [a > b], [withdraw_money] returns
    [(None, "Insufficient funds")] and the balance stored for the account is
    still [b]. *)
Theorem withdraw_money_insufficient (c : connection) (acct b a now : Z) :
  lookup_balance acct (view c) = Some b ->
  a > b ->
  let r := withdraw_money acct a now c in
  result_of r = Return (None, "Insufficient funds"%string) /\
  lookup_balance acct (view (conn_of r)) = Some b.
Proof.
  intros Hb Hgt r. subst r.
  rewrite (withdraw_money_found _ _ _ _ _ Hb).
  destruct (Z.ltb_spec b a) as [_|Hle]; [|lia].
  split; [reflexivity | exact Hb].
Qed.

Lemma withdraw_money_insufficient_witness :
  lookup_balance 1 (view example_store) = Some 100 /\
  150 > 100 /\
  result_of (withdraw_money 1 150 11 example_store)
    = Return (None, "Insufficient funds"%string) /\
  lookup_balance 1 (view (conn_of (withdraw_money 1 150 11 example_store)))
    = Some 100.
Proof.
  assert (Hb : lookup_balance 1 (view example_store) = Some 100)
    by reflexivity.
  assert (Ha : 150 > 100) by lia.
  split; [exact Hb|]. split; [exact Ha|].
  exact (withdraw_money_insufficient example_store 1 100 150 11 Hb Ha).
Defined.

(** C10.  A call of [withdraw_money] that reports insufficient funds found
    the account with a balance below the amount and returns the connection
    exactly as it received it: no row of either table is written, nothing is
    committed.  The comparison comes before every write. *)
Theorem withdraw_money_failure_atomic (c : connection) (acct a now : Z) :
  result_of (withdraw_money acct a now c)
    = Return (None, "Insufficient funds"%string) ->
  conn_of (withdraw_money acct a now c) = c /\
  exists b, lookup_balance acct (view c) = Some b /\ b < a.
Proof.
  destruct (lookup_balance acct (view c)) as [b|] eqn:Hb.
  - rewrite (withdraw_money_found _ _ _ _ _ Hb).
    destruct (Z.ltb_spec b a) as [Hlt|Hle]; simpl.
    + intros _. split; [reflexivity|]. exists b. split; [reflexivity | exact Hlt].
    + unfold result_of; simpl. discriminate.
  - rewrite (withdraw_money_missing _ _ _ _ Hb). unfold result_of; simpl.
    discriminate.
Qed.

Lemma withdraw_money_failure_atomic_witness :
  result_of (withdraw_money 1 150 11 example_store)
    = Return (None, "Insufficient funds"%string) /\
  conn_of (withdraw_money 1 150 11 example_store) = example_store.
Proof.
  assert (Hr : result_of (withdraw_money 1 150 11 example_store)
               = Return (None, "Insufficient funds"%string)) by reflexivity.
  split; [exact Hr|].
  exact (proj1 (withdraw_money_failure_atomic example_store 1 150 11 Hr)).
Defined.

(** ** Registration with an email that is taken *)

Lemma email_taken_In (u : user_row) (d : database) :
  In u (users d) -> email_taken (email u) d = true.
Proof.
  intros Hu. unfold email_taken. apply existsb_exists.
  exists u. split; [exact Hu | apply String.eqb_refl].
Qed.

(** C5.  When the users table holds an account [u], [register_user] called
    with the email of [u] (and any name, phone, password and deposit) returns
    [None] and leaves the connection as it was: no row is added to either
    table, so the row of [u] and its transactions are the ones from before. *)
Theorem register_user_duplicate_email (c : connection) (u : user_row)
    (fn ph pw : string) (dep now_user now_tx : Z) :
  In u (users (view c)) ->
  let r := register_user fn (email u) ph pw dep now_user now_tx c in
  result_of r = Return None /\
  conn_of r = c /\
  In u (users (view (conn_of r))) /\
  transactions_of (account_number u) (transactions (view (conn_of r)))
    = transactions_of (account_number u) (transactions (view c)).
Proof.
  intros Hu r. subst r.
  rewrite (register_user_taken _ _ _ _ _ _ _ _ (email_taken_In _ _ Hu)).
  unfold result_of, conn_of; simpl. auto.
Qed.

Lemma register_user_duplicate_email_witness :
  In (mk_user 1 "A" "a@x.com" "555" "pw" 100 10) (users (view example_store))
  /\ result_of (register_user "B" "a@x.com" "777" "qw" 50 12 12 example_store)
     = Return None
  /\ conn_of (register_user "B" "a@x.com" "777" "qw" 50 12 12 example_store)
     = example_store.
Proof.
  assert (Hu : In (mk_user 1 "A" "a@x.com" "555" "pw" 100 10)
                 (users (view example_store))) by (simpl; auto).
  split; [exact Hu|].
  pose proof (register_user_duplicate_email example_store _ "B" "777" "qw"
                50 12 12 Hu) as H.
  split; [exact (proj1 H) | exact (proj1 (proj2 H))].
Defined.

(** ** Amounts that are not positive *)

(** C6, as stated, fails: [deposit_money] and [withdraw_money] do not look at
    the sign of the amount.  On the example store (balance 100) a deposit of
    [-5] succeeds, stores 95 and records a transaction; a withdrawal of [-5]
    succeeds, stores 105 and records a transaction. *)
Lemma ledger_accepts_non_positive_amount :
  lookup_balance 1 (view example_store) = Some 100 /\
  -5 <= 0 /\
  result_of (deposit_money 1 (-5) 11 example_store) = Return (Some 95) /\
  lookup_balance 1 (view (conn_of (deposit_money 1 (-5) 11 example_store)))
    = Some 95 /\
  transactions (view (conn_of (deposit_money 1 (-5) 11 example_store)))
    = transactions (view example_store)
      ++ [mk_transaction 2 1 "Deposit" (-5) 95 11] /\
  result_of (withdraw_money 1 (-5) 11 example_store)
    = Return (Some 105, "Success"%string) /\
  lookup_balance 1 (view (conn_of (withdraw_money 1 (-5) 11 example_store)))
    = Some 105 /\
  transactions (view (conn_of (withdraw_money 1 (-5) 11 example_store)))
    = transactions (view example_store)
      ++ [mk_transaction 2 1 "Withdrawal" (-5) 105 11].
Proof.
  repeat split; try reflexivity. lia.
Qed.

(** C6, amended.  The amount form is where amounts that are not positive are
    turned away: for every amount [a <= 0], whichever of the two screens it
    was entered on, [process_transaction] opens the "Invalid Amount" warning,
    calls neither [deposit_money] nor [withdraw_money], and leaves the
    connection, hence every balance and every transaction, as it was. *)
Theorem process_transaction_rejects_non_positive (c : connection)
    (trans_type : string) (current_user a now : Z) :
  a <= 0 ->
  let r := process_transaction trans_type current_user (Some a) now c in
  result_of r =
    Return (Some (showwarning "Invalid Amount"
                    "Amount must be greater than 0")) /\
  conn_of r = c.
Proof.
  intros Ha r. subst r.
  unfold process_transaction, try_except, bind, float, ret; simpl.
  destruct (Z.leb_spec a 0) as [_|Hgt]; [|lia].
  split; reflexivity.
Qed.

Lemma process_transaction_rejects_non_positive_witness :
  -5 <= 0 /\
  result_of (process_transaction "Deposit" 1 (Some (-5)) 11 example_store)
    = Return (Some (showwarning "Invalid Amount"
                      "Amount must be greater than 0")) /\
  conn_of (process_transaction "Deposit" 1 (Some (-5)) 11 example_store)
    = example_store.
Proof.
  assert (Ha : -5 <= 0) by lia.
  split; [exact Ha|].
  exact (process_transaction_rejects_non_positive example_store "Deposit" 1
           (-5) 11 Ha).
Defined.

(** ** Transaction history *)

Lemma insert_desc_perm (r : history_row) (l : list history_row) :
  Permutation (insert_desc r l) (r :: l).
Proof.
  induction l as [|r' l IH]; simpl; [apply Permutation_refl|].
  destruct (date_of r' <=? date_of r); [apply Permutation_refl|].
  eapply perm_trans; [apply perm_skip, IH | apply perm_swap].
Qed.

Lemma order_by_date_desc_perm (l : list history_row) :
  Permutation (order_by_date_desc l) l.
Proof.
  induction l as [|r l IH]; simpl; [constructor|].
  eapply perm_trans; [apply insert_desc_perm | apply perm_skip, IH].
Qed.

Lemma insert_desc_hd (r x : history_row) (l : list history_row) :
  not_older x r -> HdRel not_older x l -> HdRel not_older x (insert_desc r l).
Proof.
  intros Hxr Hl. destruct l as [|r' l]; simpl; [constructor; exact Hxr|].
  destruct (date_of r' <=? date_of r); constructor;
    [exact Hxr | inversion Hl; assumption].
Qed.

Lemma insert_desc_sorted (r : history_row) (l : list history_row) :
  Sorted not_older l -> Sorted not_older (insert_desc r l).
Proof.
  induction l as [|r' l IH]; intros Hs; simpl.
  - repeat constructor.
  - destruct (Z.leb_spec (date_of r') (date_of r)) as [Hle|Hlt].
    + constructor; [exact Hs|]. constructor. unfold not_older. lia.
    + inversion Hs as [|? ? Hs' Hhd]; subst.
      constructor; [apply IH; exact Hs'|].
      apply insert_desc_hd; [unfold not_older; lia | exact Hhd].
Qed.

Lemma order_by_date_desc_sorted (l : list history_row) :
  Sorted not_older (order_by_date_desc l).
Proof.
  induction l as [|r l IH]; simpl; [constructor|].
  apply insert_desc_sorted, IH.
Qed.

(** C9.  [get_transaction_history] changes nothing and returns rows that are,
    up to their order, the selected columns of exactly the transactions whose
    account is the one asked for, each row followed by one whose date is not
    later. *)
Theorem get_transaction_history_newest_first (c : connection) (acct : Z) :
  exists rows : list history_row,
    get_transaction_history acct c = (Return rows, c) /\
    Permutation rows
      (map selected_columns
         (filter (fun t => tx_account_number t =? acct)
            (transactions (view c)))) /\
    Sorted not_older rows.
Proof.
  exists (select_history acct (view c)).
  split; [reflexivity|]. split.
  - apply order_by_date_desc_perm.
  - apply order_by_date_desc_sorted.
Qed.

(** ** Consistency is kept by every operation *)

Lemma find_unique (l : list user_row) (u : user_row) :
  NoDup (map account_number l) -> In u l ->
  find (fun x => account_number x =? account_number u) l = Some u.
Proof.
  induction l as [|x l IH]; simpl; [contradiction|].
  intros Hnd [->|Hin].
  - rewrite Z.eqb_refl. reflexivity.
  - inversion Hnd as [|? ? Hnotin Hnd']; subst.
    destruct (Z.eqb_spec (account_number x) (account_number u)) as [He|_].
    + exfalso. apply Hnotin. rewrite He. apply in_map. exact Hin.
    + apply IH; assumption.
Qed.

Lemma lookup_balance_unique (d : database) (u : user_row) :
  NoDup (map account_number (users d)) -> In u (users d) ->
  lookup_balance (account_number u) d = Some (balance u).
Proof.
  intros Hnd Hin. unfold lookup_balance.
  rewrite (find_unique _ _ Hnd Hin). reflexivity.
Qed.

Lemma lookup_balance_In (acct b : Z) (d : database) :
  lookup_balance acct d = Some b ->
  exists u, In u (users d) /\ account_number u = acct /\ balance u = b.
Proof.
  unfold lookup_balance. destruct (find _ (users d)) as [u|] eqn:Hf;
    [|discriminate].
  intros [= <-]. apply find_some in Hf. destruct Hf as [Hin He].
  exists u. repeat split; [exact Hin | apply Z.eqb_eq; exact He].
Qed.

Lemma find_app_absent {A} (f : A -> bool) (l l' : list A) :
  (forall x, In x l -> f x = false) -> find f (l ++ l') = find f l'.
Proof.
  induction l as [|x l IH]; simpl; intros H; [reflexivity|].
  rewrite (H x (or_introl eq_refl)). apply IH. intros y Hy. apply H. now right.
Qed.

Lemma filter_absent {A} (f : A -> bool) (l : list A) :
  (forall x, In x l -> f x = false) -> filter f l = [].
Proof.
  induction l as [|x l IH]; simpl; intros H; [reflexivity|].
  rewrite (H x (or_introl eq_refl)). apply IH. intros y Hy. apply H. now right.
Qed.

Lemma most_recent_insert (a acct : Z) (ty : string) (amt bal now : Z)
    (d : database) :
  most_recent_transaction a (db_insert_transaction acct ty amt bal now d)
  = if acct =? a
    then Some (mk_transaction (transactions_seq d + 1) acct ty amt bal now)
    else most_recent_transaction a d.
Proof.
  unfold most_recent_transaction, transactions_of, db_insert_transaction.
  cbn [transactions]. rewrite filter_app, rev_app_distr. simpl.
  destruct (acct =? a); simpl; reflexivity.
Qed.

(** Recording a transaction that carries the balance of its account. *)
Lemma db_wf_insert_transaction (acct : Z) (ty : string) (amt bal now : Z)
    (d : database) :
  NoDup (map account_number (users d)) ->
  (forall u, In u (users d) -> account_number u <= users_seq d) ->
  (forall t, In t (transactions d) -> tx_account_number t <= users_seq d) ->
  acct <= users_seq d ->
  (forall u, In u (users d) -> account_number u = acct -> balance u = bal) ->
  (forall u t, In u (users d) -> account_number u <> acct ->
     most_recent_transaction (account_number u) d = Some t ->
     balance_after t = balance u) ->
  db_wf (db_insert_transaction acct ty amt bal now d).
Proof.
  intros Hnd Hus Hts Hacct Hsame Hother.
  constructor; cbn [users users_seq db_insert_transaction].
  - exact Hnd.
  - exact Hus.
  - cbn [transactions]. intros t Ht. apply in_app_or in Ht.
    destruct Ht as [Ht|[<-|[]]]; [apply Hts; exact Ht | exact Hacct].
  - intros u t Hu. rewrite most_recent_insert.
    destruct (Z.eqb_spec acct (account_number u)) as [He|Hne].
    + intros [= <-]. simpl. symmetry. apply Hsame; [exact Hu | now symmetry].
    + apply Hother; [exact Hu | congruence].
Qed.

Lemma db_wf_insert_user (fn em ph pw : string) (bal now : Z) (d : database) :
  db_wf d -> db_wf (db_insert_user fn em ph pw bal now d).
Proof.
  intros [Hnd Hus Hts Hmr].
  constructor; cbn [users users_seq transactions db_insert_user].
  - rewrite map_app. simpl. apply Permutation_NoDup with
      (l := (users_seq d + 1) :: map account_number (users d)).
    + apply Permutation_cons_append.
    + constructor; [|exact Hnd]. intros Hin. apply in_map_iff in Hin.
      destruct Hin as [u [He Hu]]. apply Hus in Hu. lia.
  - intros u Hu. apply in_app_or in Hu. destruct Hu as [Hu|[<-|[]]]; simpl.
    + apply Hus in Hu. lia.
    + lia.
  - intros t Ht. apply Hts in Ht. lia.
  - intros u t Hu. apply in_app_or in Hu. destruct Hu as [Hu|[<-|[]]].
    + apply Hmr. exact Hu.
    + unfold most_recent_transaction, transactions_of; simpl.
      rewrite filter_absent; [discriminate|].
      intros x Hx. apply Hts in Hx. apply Z.eqb_neq. lia.
Qed.

Lemma db_wf_initial_deposit (fn em ph pw : string) (dep t1 t2 : Z)
    (d : database) :
  db_wf d ->
  db_wf (db_insert_transaction (users_seq d + 1) "Deposit" dep dep t2
           (db_insert_user fn em ph pw dep t1 d)).
Proof.
  intros Hd. pose proof (db_wf_insert_user fn em ph pw dep t1 d Hd) as H1.
  destruct H1 as [Hnd Hus Hts Hmr].
  apply db_wf_insert_transaction; try assumption.
  - simpl. lia.
  - cbn [users db_insert_user]. intros u Hu He.
    apply in_app_or in Hu. destruct Hu as [Hu|[<-|[]]]; [|reflexivity].
    apply (wf_users_seq d Hd) in Hu. lia.
  - intros u t Hu _. apply Hmr. exact Hu.
Qed.

(** The pair of statements of a deposit ([delta = amt]) and of a withdrawal
    ([delta = - amt]): the balance is moved by [delta] and the transaction
    carries the balance that results. *)
Lemma db_wf_move (acct delta amt b now : Z) (ty : string) (d : database) :
  db_wf d ->
  lookup_balance acct d = Some b ->
  db_wf (db_insert_transaction acct ty amt (b + delta) now
           (db_update_balance delta acct d)).
Proof.
  intros [Hnd Hus Hts Hmr] Hb.
  destruct (lookup_balance_In _ _ _ Hb) as [u0 [Hu0 [He0 Hb0]]].
  assert (Hmap : map account_number (map (add_to_balance delta acct) (users d))
                 = map account_number (users d)).
  { rewrite map_map. apply map_ext. intros u. apply add_to_balance_account. }
  apply db_wf_insert_transaction; cbn [users users_seq transactions
                                        db_update_balance].
  - rewrite Hmap. exact Hnd.
  - intros u' Hu'. apply in_map_iff in Hu'. destruct Hu' as [u [<- Hu]].
    rewrite add_to_balance_account. apply Hus. exact Hu.
  - exact Hts.
  - rewrite <- He0. apply Hus. exact Hu0.
  - intros u' Hu' He'. apply in_map_iff in Hu'. destruct Hu' as [u [<- Hu]].
    rewrite add_to_balance_account in He'.
    rewrite (add_to_balance_same _ _ _ He').
    pose proof (lookup_balance_unique d u Hnd Hu) as Hl.
    rewrite He', Hb in Hl. injection Hl as ->. reflexivity.
  - intros u' t Hu' Hne. apply in_map_iff in Hu'. destruct Hu' as [u [<- Hu]].
    rewrite add_to_balance_account in *.
    rewrite (add_to_balance_other _ _ _ Hne).
    apply Hmr. exact Hu.
Qed.

Lemma db_wf_empty : db_wf empty_database.
Proof.
  constructor; simpl; try contradiction. constructor.
Qed.

Lemma conn_wf_run (c : connection) (o : operation) :
  conn_wf c -> conn_wf (run c o).
Proof.
  intros [Hdisk Hview]. destruct o as [fn em ph pw dep t1 t2|acct amt now|acct amt now|];
    cbn [run].
  - destruct (email_taken em (view c)) eqn:Ht.
    + rewrite (register_user_taken _ _ _ _ _ _ _ _ Ht). split; assumption.
    + rewrite (register_user_fresh _ _ _ _ _ _ _ _ Ht).
      unfold conn_of; cbn [snd]. split; cbn [disk view].
      * apply db_wf_insert_user. exact Hview.
      * destruct (0 <? dep);
          [apply db_wf_initial_deposit | apply db_wf_insert_user];
          exact Hview.
  - destruct (lookup_balance acct (view c)) as [b|] eqn:Hb.
    + rewrite (deposit_money_found _ _ _ _ _ Hb).
      unfold conn_of, committed; cbn [snd].
      split; cbn [disk view]; apply db_wf_move; assumption.
    + rewrite (deposit_money_missing _ _ _ _ Hb). split; assumption.
  - destruct (lookup_balance acct (view c)) as [b|] eqn:Hb.
    + rewrite (withdraw_money_found _ _ _ _ _ Hb).
      destruct (b <? amt); [split; assumption|].
      unfold conn_of, committed; cbn [snd].
      replace (b - amt) with (b + - amt) by lia.
      split; cbn [disk view]; apply db_wf_move; assumption.
    + rewrite (withdraw_money_missing _ _ _ _ Hb). split; assumption.
  - split; exact Hdisk.
Qed.

Lemma conn_wf_fold (ops : list operation) (c : connection) :
  conn_wf c -> conn_wf (fold_left run ops c).
Proof.
  revert c. induction ops as [|o ops IH]; intros c Hc; simpl; [exact Hc|].
  apply IH, conn_wf_run, Hc.
Qed.

Lemma conn_wf_run_all (ops : list operation) : conn_wf (run_all ops).
Proof.
  apply conn_wf_fold. split; exact db_wf_empty.
Qed.



(** ** Balances never go below zero *)







(** ** Registration *)

(** C4.  On the store left by any run, a registration with an email that no
    account has and an initial deposit [>= 0] returns a new account number;
    the users table then holds exactly one row with that number, made of the
    data given, and its balance is the initial deposit.  The account has
    exactly one transaction, a "Deposit" of the initial deposit with
    [balance_after] equal to it, when the deposit is positive, and none when
    it is zero. *)
Theorem register_user_valid (ops : list operation) (fn em ph pw : string)
    (dep now_user now_tx : Z) :
  email_taken em (view (run_all ops)) = false ->
  0 <= dep ->
  let c := run_all ops in
  let r := register_user fn em ph pw dep now_user now_tx c in
  let acct := users_seq (view c) + 1 in
  result_of r = Return (Some acct) /\
  filter (fun u => account_number u =? acct) (users (view (conn_of r)))
    = [mk_user acct fn em ph pw dep now_user] /\
  lookup_balance acct (view (conn_of r)) = Some dep /\
  (0 < dep ->
   transactions_of acct (transactions (view (conn_of r)))
     = [mk_transaction (transactions_seq (view c) + 1) acct "Deposit" dep dep
          now_tx]) /\
  (dep = 0 -> transactions_of acct (transactions (view (conn_of r))) = []).
Proof.
  intros Hfresh Hdep. cbv zeta.
  destruct (conn_wf_run_all ops) as [_ Hwf].
  revert Hfresh Hwf. generalize (run_all ops). intros c Hfresh Hwf.
  rewrite (register_user_fresh _ _ _ _ _ _ _ _ Hfresh).
  unfold result_of, conn_of; cbn [fst snd view].
  assert (Hold : forall u, In u (users (view c)) ->
                 (account_number u =? users_seq (view c) + 1) = false).
  { intros u Hu. apply (wf_users_seq _ Hwf) in Hu. apply Z.eqb_neq. lia. }
  assert (Htx : forall t, In t (transactions (view c)) ->
                (tx_account_number t =? users_seq (view c) + 1) = false).
  { intros t Ht. apply (wf_transactions_seq _ Hwf) in Ht. apply Z.eqb_neq. lia. }
  assert (Husers : forall d' : database,
            users d' = users (view c)
                       ++ [mk_user (users_seq (view c) + 1) fn em ph pw dep
                             now_user] ->
            filter (fun u => account_number u =? users_seq (view c) + 1)
              (users d')
            = [mk_user (users_seq (view c) + 1) fn em ph pw dep now_user] /\
            lookup_balance (users_seq (view c) + 1) d' = Some dep).
  { intros d' Hd'. unfold lookup_balance. rewrite Hd'.
    rewrite filter_app, (filter_absent _ _ Hold), (find_app_absent _ _ _ Hold).
    simpl. rewrite Z.eqb_refl. split; reflexivity. }
  split; [reflexivity|].
  destruct (Z.ltb_spec 0 dep) as [Hpos|Hzero].
  - destruct (Husers (db_insert_transaction (users_seq (view c) + 1) "Deposit"
                        dep dep now_tx
                        (db_insert_user fn em ph pw dep now_user (view c)))
                eq_refl) as [Hf Hl].
    split; [exact Hf|]. split; [exact Hl|]. split; [|lia].
    intros _. unfold transactions_of; cbn [transactions db_insert_transaction
                                           db_insert_user transactions_seq].
    rewrite filter_app, (filter_absent _ _ Htx). simpl.
    rewrite Z.eqb_refl. reflexivity.
  - destruct (Husers (db_insert_user fn em ph pw dep now_user (view c))
                eq_refl) as [Hf Hl].
    split; [exact Hf|]. split; [exact Hl|]. split; [lia|].
    intros _. unfold transactions_of; cbn [transactions db_insert_user].
    apply filter_absent. exact Htx.
Qed.

(** The "Deposit" row of a registration is written after the commit of the
    account row and is not committed by [register_user] itself: it is in
    what the connection sees and not yet on disk. *)
Remark register_user_deposit_row_pending (c : connection)
    (fn em ph pw : string) (dep now_user now_tx : Z) :
  email_taken em (view c) = false ->
  let r := register_user fn em ph pw dep now_user now_tx c in
  transactions (disk (conn_of r)) = transactions (view c).
Proof.
  intros Hfresh r. subst r.
  rewrite (register_user_fresh _ _ _ _ _ _ _ _ Hfresh). reflexivity.
Qed.

Lemma register_user_valid_witness :
  email_taken "b@x.com" (view (run_all example_run)) = false /\
  0 <= 50 /\
  result_of (register_user "B" "b@x.com" "777" "qw" 50 13 13
               (run_all example_run))
    = Return (Some 2) /\
  lookup_balance 2
    (view (conn_of (register_user "B" "b@x.com" "777" "qw" 50 13 13
                      (run_all example_run))))
    = Some 50.
Proof.
  assert (Hf : email_taken "b@x.com" (view (run_all example_run)) = false)
    by reflexivity.
  assert (Hd : 0 <= 50) by lia.
  split; [exact Hf|]. split; [exact Hd|].
  pose proof (register_user_valid example_run "B" "b@x.com" "777" "qw" 50 13 13
                Hf Hd) as H.
  split; [exact (proj1 H) | exact (proj1 (proj2 (proj2 H)))].
Defined.

(** * Further properties of the ledger *)

(** ** Invariants of every run, in general *)

Section RunInvariant.

Variable P : database -> Prop.

Hypothesis P_insert_user :
  forall fn em ph pw dep now d,
    P d -> email_taken em d = false ->
    P (db_insert_user fn em ph pw dep now d).

Hypothesis P_initial_deposit :
  forall fn em ph pw dep now_user now_tx d,
    P d -> email_taken em d = false ->
    P (db_insert_transaction (users_seq d + 1) "Deposit" dep dep now_tx
         (db_insert_user fn em ph pw dep now_user d)).

Hypothesis P_move :
  forall acct delta amt b now ty d,
    P d -> lookup_balance acct d = Some b ->
    P (db_insert_transaction acct ty amt (b + delta) now
         (db_update_balance delta acct d)).

Lemma invariant_run (c : connection) (o : operation) :
  P (disk c) -> P (view c) -> P (disk (run c o)) /\ P (view (run c o)).
Proof.
  intros Hdisk Hview.
  destruct o as [fn em ph pw dep t1 t2|acct amt now|acct amt now|]; cbn [run].
  - destruct (email_taken em (view c)) eqn:Ht.
    + rewrite (register_user_taken _ _ _ _ _ _ _ _ Ht). split; assumption.
    + rewrite (register_user_fresh _ _ _ _ _ _ _ _ Ht).
      unfold conn_of; cbn [snd disk view]. split.
      * apply P_insert_user; assumption.
      * destruct (0 <? dep);
          [apply P_initial_deposit | apply P_insert_user]; assumption.
  - destruct (lookup_balance acct (view c)) as [b|] eqn:Hb.
    + rewrite (deposit_money_found _ _ _ _ _ Hb).
      unfold conn_of, committed; cbn [snd disk view].
      split; apply P_move; assumption.
    + rewrite (deposit_money_missing _ _ _ _ Hb). split; assumption.
  - destruct (lookup_balance acct (view c)) as [b|] eqn:Hb.
    + rewrite (withdraw_money_found _ _ _ _ _ Hb).
      destruct (b <? amt); [split; assumption|].
      unfold conn_of, committed; cbn [snd disk view].
      replace (b - amt) with (b + - amt) by lia.
      split; apply P_move; assumption.
    + rewrite (withdraw_money_missing _ _ _ _ Hb). split; assumption.
  - split; exact Hdisk.
Qed.

Lemma invariant_fold (ops : list operation) (c : connection) :
  P (disk c) -> P (view c) ->
  P (disk (fold_left run ops c)) /\ P (view (fold_left run ops c)).
Proof.
  revert c. induction ops as [|o ops IH]; intros c Hd Hv; simpl;
    [split; assumption|].
  destruct (invariant_run c o Hd Hv) as [Hd' Hv']. apply IH; assumption.
Qed.

Lemma invariant_run_all (ops : list operation) :
  P empty_database ->
  P (disk (run_all ops)) /\ P (view (run_all ops)).
Proof.
  intros H0. apply invariant_fold; exact H0.
Qed.

End RunInvariant.

(** ** Emails and references *)

Lemma email_taken_false (em : string) (d : database) (u : user_row) :
  email_taken em d = false -> In u (users d) -> email u <> em.
Proof.
  intros Ht Hu He. rewrite <- He in Ht.
  rewrite (email_taken_In _ _ Hu) in Ht. discriminate.
Qed.

Lemma map_email_update (delta acct : Z) (l : list user_row) :
  map email (map (add_to_balance delta acct) l) = map email l.
Proof.
  rewrite map_map. apply map_ext. intros u. unfold add_to_balance.
  destruct (account_number u =? acct); reflexivity.
Qed.

Lemma emails_unique_insert_user (fn em ph pw : string) (dep now : Z)
    (d : database) :
  emails_unique d -> email_taken em d = false ->
  emails_unique (db_insert_user fn em ph pw dep now d).
Proof.
  unfold emails_unique. intros Hnd Ht. cbn [users db_insert_user].
  rewrite map_app. simpl.
  apply Permutation_NoDup with (l := em :: map email (users d)).
  - apply Permutation_cons_append.
  - constructor; [|exact Hnd]. intros Hin. apply in_map_iff in Hin.
    destruct Hin as [u [He Hu]]. exact (email_taken_false _ _ _ Ht Hu He).
Qed.

Lemma transactions_refer_insert_user (fn em ph pw : string) (dep now : Z)
    (d : database) :
  transactions_refer d ->
  transactions_refer (db_insert_user fn em ph pw dep now d).
Proof.
  intros Hr t Ht. destruct (Hr t Ht) as [u [Hu He]].
  exists u. split; [|exact He]. cbn [users db_insert_user].
  apply in_or_app. left. exact Hu.
Qed.

Lemma transactions_refer_insert_transaction (acct : Z) (ty : string)
    (amt bal now : Z) (d : database) :
  transactions_refer d ->
  (exists u, In u (users d) /\ account_number u = acct) ->
  transactions_refer (db_insert_transaction acct ty amt bal now d).
Proof.
  intros Hr Hex t Ht. cbn [transactions db_insert_transaction] in Ht.
  apply in_app_or in Ht. destruct Ht as [Ht|[<-|[]]].
  - exact (Hr t Ht).
  - exact Hex.
Qed.

Lemma transactions_refer_update (delta acct : Z) (d : database) :
  transactions_refer d -> transactions_refer (db_update_balance delta acct d).
Proof.
  intros Hr t Ht. destruct (Hr t Ht) as [u [Hu He]].
  exists (add_to_balance delta acct u). split.
  - cbn [users db_update_balance]. apply in_map. exact Hu.
  - rewrite add_to_balance_account. exact He.
Qed.

Lemma sound_run_all (ops : list operation) :
  sound (disk (run_all ops)) /\ sound (view (run_all ops)).
Proof.
  apply (invariant_run_all sound).
  - intros fn em ph pw dep now d [Hwf [He Hr]] Ht. split; [|split].
    + apply db_wf_insert_user; exact Hwf.
    + apply emails_unique_insert_user; assumption.
    + apply transactions_refer_insert_user; exact Hr.
  - intros fn em ph pw dep t1 t2 d [Hwf [He Hr]] Ht. split; [|split].
    + apply db_wf_initial_deposit; exact Hwf.
    + apply (emails_unique_insert_user fn em ph pw dep t1 d He Ht).
    + apply transactions_refer_insert_transaction.
      * apply transactions_refer_insert_user; exact Hr.
      * exists (mk_user (users_seq d + 1) fn em ph pw dep t1).
        split; [|reflexivity].
        cbn [users db_insert_user]. apply in_or_app. right. left. reflexivity.
  - intros acct delta amt b now ty d [Hwf [He Hr]] Hb. split; [|split].
    + apply db_wf_move; assumption.
    + unfold emails_unique. cbn [users db_insert_transaction db_update_balance].
      rewrite map_email_update. exact He.
    + apply transactions_refer_insert_transaction.
      * apply transactions_refer_update; exact Hr.
      * destruct (lookup_balance_In _ _ _ Hb) as [u [Hu [Ha _]]].
        exists (add_to_balance delta acct u). split.
        -- cbn [users db_update_balance]. apply in_map. exact Hu.
        -- rewrite add_to_balance_account. exact Ha.
  - split; [exact db_wf_empty|]. split; [constructor | intros t []].
Qed.

(** X4.  After any run from a fresh database no two accounts have the same
    email, in what the connection sees and in what is committed. *)
Theorem emails_stay_unique (ops : list operation) :
  NoDup (map email (users (view (run_all ops)))) /\
  NoDup (map email (users (disk (run_all ops)))).
Proof.
  destruct (sound_run_all ops) as [[_ [Hd _]] [_ [Hv _]]].
  split; assumption.
Qed.

(** X5.  After any run from a fresh database every transaction belongs to an
    account that is in the users table, in what the connection sees and in
    what is committed: the foreign key that SQLite does not enforce is kept
    by the program. *)
Theorem transactions_reference_accounts (ops : list operation) :
  (forall t, In t (transactions (view (run_all ops))) ->
     exists u, In u (users (view (run_all ops))) /\
               account_number u = tx_account_number t) /\
  (forall t, In t (transactions (disk (run_all ops))) ->
     exists u, In u (users (disk (run_all ops))) /\
               account_number u = tx_account_number t).
Proof.
  destruct (sound_run_all ops) as [[_ [_ Hd]] [_ [_ Hv]]].
  split; assumption.
Qed.

(** ** Login *)

Lemma credentials_match_other_email (em pw : string) (u : user_row) :
  email u <> em -> credentials_match em pw u = false.
Proof.
  intros Hne. unfold credentials_match.
  destruct (String.eqb_spec (email u) em); [contradiction | reflexivity].
Qed.

Lemma find_credentials_absent (em pw : string) (l : list user_row) :
  (forall u, In u l -> email u <> em) ->
  find (credentials_match em pw) l = None.
Proof.
  induction l as [|x l IH]; intros H; simpl; [reflexivity|].
  rewrite (credentials_match_other_email em pw x (H x (or_introl eq_refl))).
  apply IH. intros u Hu. apply H. now right.
Qed.

Lemma find_credentials_unique (pw : string) (l : list user_row)
    (u : user_row) :
  NoDup (map email l) -> In u l ->
  find (credentials_match (email u) pw) l
  = if String.eqb (password u) pw then Some u else None.
Proof.
  induction l as [|x l IH]; simpl; [contradiction|].
  intros Hnd Hin. inversion Hnd as [|? ? Hnotin Hnd']; subst.
  destruct Hin as [->|Hin].
  - unfold credentials_match at 1. rewrite String.eqb_refl. simpl.
    destruct (String.eqb (password u) pw); [reflexivity|].
    apply find_credentials_absent. intros y Hy He.
    apply Hnotin. rewrite <- He. apply in_map. exact Hy.
  - rewrite credentials_match_other_email; [apply IH; assumption|].
    intros He. apply Hnotin. rewrite He. apply in_map. exact Hin.
Qed.



(** X2.  [login_user] never changes the store and never raises.  When it
    yields a row, the users table holds an account with exactly the email
    and the password given, and the row is the number, name and balance of
    that account; when it yields [None], no account has that email together
    with that password. *)
Theorem login_user_sound (c : connection) (em pw : string) :
  exists r : option login_row,
    login_user em pw c = (Return r, c) /\
    (forall a n b, r = Some (a, n, b) ->
       exists u, In u (users (view c)) /\ email u = em /\ password u = pw /\
                 account_number u = a /\ full_name u = n /\ balance u = b) /\
    (r = None ->
       forall u, In u (users (view c)) -> ~ (email u = em /\ password u = pw)).
Proof.
  exists (select_login em pw (view c)). split; [reflexivity|].
  unfold select_login.
  destruct (find (credentials_match em pw) (users (view c))) as [u|] eqn:Hf;
    simpl.
  - split; [|discriminate]. intros a n b [= <- <- <-].
    apply find_some in Hf. destruct Hf as [Hu Hm].
    unfold credentials_match in Hm. apply andb_true_iff in Hm.
    destruct Hm as [He Hp].
    exists u. repeat split;
      [exact Hu | apply String.eqb_eq; exact He | apply String.eqb_eq; exact Hp].
  - split; [discriminate|]. intros _ u Hu [He Hp].
    pose proof (find_none _ _ Hf u Hu) as Hm. unfold credentials_match in Hm.
    rewrite He, Hp, !String.eqb_refl in Hm. discriminate.
Qed.

(** X3.  After any run from a fresh database, for every account in the users
    table, [login_user] with the email of the account succeeds exactly when
    the password given is the stored one: it then yields the number, name
    and current balance of that account, and [None] for every other
    password. *)
Theorem login_user_checks_password (ops : list operation) (u : user_row)
    (pw : string) :
  In u (users (view (run_all ops))) ->
  login_user (email u) pw (run_all ops)
  = (Return (if String.eqb (password u) pw then Some (login_columns u)
             else None),
     run_all ops).
Proof.
  intros Hu. destruct (sound_run_all ops) as [_ [_ [He _]]].
  unfold login_user, try_except, select_login.
  rewrite (find_credentials_unique pw _ u He Hu).
  destruct (String.eqb (password u) pw); reflexivity.
Qed.

Lemma login_user_checks_password_witness :
  In (mk_user 1 "A" "a@x.com" "555" "pw" 60 10)
     (users (view (run_all example_run))) /\
  login_user "a@x.com" "pw" (run_all example_run)
    = (Return (Some (1, "A"%string, 60)), run_all example_run) /\
  login_user "a@x.com" "pW" (run_all example_run)
    = (Return None, run_all example_run).
Proof.
  assert (Hu : In (mk_user 1 "A" "a@x.com" "555" "pw" 60 10)
                 (users (view (run_all example_run)))) by (simpl; auto).
  split; [exact Hu|]. split.
  - exact (login_user_checks_password example_run _ "pw" Hu).
  - exact (login_user_checks_password example_run _ "pW" Hu).
Defined.

(** ** Account numbers that no account has *)

Lemma lookup_balance_absent (acct : Z) (d : database) :
  (forall u, In u (users d) -> account_number u <> acct) ->
  lookup_balance acct d = None.
Proof.
  intros H. unfold lookup_balance.
  destruct (find _ (users d)) as [u|] eqn:Hf; [|reflexivity].
  apply find_some in Hf. destruct Hf as [Hu He].
  apply Z.eqb_eq in He. exfalso. exact (H u Hu He).
Qed.

(** X6.  For an account number that SQLite can take as a parameter, a
    64-bit signed integer, and that no row of the users table has,
    [deposit_money], [withdraw_money] and [get_balance] all end in the
    [TypeError] of subscripting [None]; none of them catches it, and the
    store is left exactly as it was.  (A larger integer does not reach the
    query: binding it is refused.) *)
Theorem unknown_account_raises (c : connection) (acct amt now : Z) :
  -9223372036854775808 <= acct < 9223372036854775808 ->
  (forall u, In u (users (view c)) -> account_number u <> acct) ->
  deposit_money acct amt now c = (Raise TypeError, c) /\
  withdraw_money acct amt now c = (Raise TypeError, c) /\
  get_balance acct c = (Raise TypeError, c).
Proof.
  intros _ H. pose proof (lookup_balance_absent _ _ H) as Hb.
  split; [apply deposit_money_missing; exact Hb|].
  split; [apply withdraw_money_missing; exact Hb|].
  rewrite get_balance_eq, Hb. reflexivity.
Qed.

Lemma unknown_account_raises_witness :
  -9223372036854775808 <= 7 < 9223372036854775808 /\
  (forall u, In u (users (view example_store)) -> account_number u <> 7) /\
  deposit_money 7 5 11 example_store = (Raise TypeError, example_store) /\
  withdraw_money 7 5 11 example_store = (Raise TypeError, example_store).
Proof.
  assert (H : forall u, In u (users (view example_store)) ->
              account_number u <> 7).
  { intros u [<-|[]]. simpl. lia. }
  assert (Hr : -9223372036854775808 <= 7 < 9223372036854775808) by lia.
  split; [exact Hr|]. split; [exact H|].
  pose proof (unknown_account_raises example_store 7 5 11 Hr H) as [Hd [Hw _]].
  split; assumption.
Defined.

(** ** What an operation leaves alone *)

Lemma find_add_to_balance_any (delta acct a : Z) (l : list user_row) :
  find (fun u => account_number u =? a) (map (add_to_balance delta acct) l)
  = option_map (add_to_balance delta acct)
      (find (fun u => account_number u =? a) l).
Proof.
  induction l as [|u l IH]; simpl; [reflexivity|].
  rewrite add_to_balance_account.
  destruct (account_number u =? a); [reflexivity | exact IH].
Qed.

Lemma lookup_balance_update_other (delta acct a : Z) (d : database) :
  a <> acct ->
  lookup_balance a (db_update_balance delta acct d) = lookup_balance a d.
Proof.
  intros Hne. unfold lookup_balance, db_update_balance; cbn [users].
  rewrite find_add_to_balance_any.
  destruct (find _ (users d)) as [u|] eqn:Hf; simpl; [|reflexivity].
  apply find_some in Hf. destruct Hf as [_ He]. apply Z.eqb_eq in He.
  rewrite add_to_balance_other; [reflexivity | congruence].
Qed.

(** X9.  A deposit or a withdrawal on one account never changes the balance
    stored for another account number, whatever the amount and whether or
    not the call succeeds. *)
Theorem other_balances_untouched (c : connection) (acct other amt now : Z) :
  other <> acct ->
  lookup_balance other (view (conn_of (deposit_money acct amt now c)))
    = lookup_balance other (view c) /\
  lookup_balance other (view (conn_of (withdraw_money acct amt now c)))
    = lookup_balance other (view c).
Proof.
  intros Hne. destruct (lookup_balance acct (view c)) as [b|] eqn:Hb.
  - rewrite (deposit_money_found _ _ _ _ _ Hb),
      (withdraw_money_found _ _ _ _ _ Hb).
    split.
    + unfold conn_of, committed; cbn [snd view].
      rewrite lookup_balance_insert_transaction.
      apply lookup_balance_update_other. exact Hne.
    + destruct (b <? amt); [reflexivity|].
      unfold conn_of, committed; cbn [snd view].
      rewrite lookup_balance_insert_transaction.
      apply lookup_balance_update_other. exact Hne.
  - rewrite (deposit_money_missing _ _ _ _ Hb),
      (withdraw_money_missing _ _ _ _ Hb).
    split; reflexivity.
Qed.

Lemma other_balances_untouched_witness :
  2 <> 1 /\
  lookup_balance 2
    (view (conn_of (deposit_money 1 25 14
                      (run_all (example_run
                                ++ [Register "B" "b@x.com" "777" "qw" 50 13 13])))))
  = Some 50.
Proof.
  assert (Hne : 2 <> 1) by lia.
  split; [exact Hne|].
  exact (eq_trans
           (proj1 (other_balances_untouched
                     (run_all (example_run
                               ++ [Register "B" "b@x.com" "777" "qw" 50 13 13]))
                     1 2 25 14 Hne))
           eq_refl).
Defined.

Lemma map_identity_update (delta acct : Z) (l : list user_row) :
  map identity_of (map (add_to_balance delta acct) l) = map identity_of l.
Proof.
  rewrite map_map. apply map_ext. intros u. unfold add_to_balance, identity_of.
  destruct (account_number u =? acct); reflexivity.
Qed.

(** What one operation other than a restart does to the two tables: the
    transactions gain at most one row at the end, the users gain at most one
    row at the end and keep the identity columns of the others. *)
Lemma run_grows (c : connection) (o : operation) :
  is_restart o = false ->
  (exists added, transactions (view (run c o))
                 = transactions (view c) ++ added /\ (List.length added <= 1)%nat) /\
  (exists added, map identity_of (users (view (run c o)))
                 = map identity_of (users (view c)) ++ added
                 /\ (List.length added <= 1)%nat).
Proof.
  intros Hr.
  assert (Hsame : forall c' : connection,
            transactions (view c') = transactions (view c) ->
            map identity_of (users (view c')) = map identity_of (users (view c)) ->
            (exists added, transactions (view c')
                           = transactions (view c) ++ added
                           /\ (List.length added <= 1)%nat) /\
            (exists added, map identity_of (users (view c'))
                           = map identity_of (users (view c)) ++ added
                           /\ (List.length added <= 1)%nat)).
  { intros c' Ht Hu. split; exists []; rewrite app_nil_r; simpl;
      (split; [assumption | lia]). }
  destruct o as [fn em ph pw dep t1 t2|acct amt now|acct amt now|];
    cbn [run]; [| | |discriminate].
  - destruct (email_taken em (view c)) eqn:Ht.
    + rewrite (register_user_taken _ _ _ _ _ _ _ _ Ht).
      apply Hsame; reflexivity.
    + rewrite (register_user_fresh _ _ _ _ _ _ _ _ Ht).
      unfold conn_of; cbn [snd view]. split.
      * destruct (0 <? dep);
          cbn [transactions db_insert_transaction db_insert_user].
        -- eexists. split; [reflexivity | simpl; lia].
        -- exists []. rewrite app_nil_r. split; [reflexivity | simpl; lia].
      * destruct (0 <? dep); cbn [users db_insert_transaction db_insert_user];
          rewrite map_app; eexists; (split; [reflexivity | simpl; lia]).
  - destruct (lookup_balance acct (view c)) as [b|] eqn:Hb.
    + rewrite (deposit_money_found _ _ _ _ _ Hb).
      unfold conn_of, committed; cbn [snd view]. split.
      * eexists. split; [reflexivity | simpl; lia].
      * exists []. rewrite app_nil_r.
        cbn [users db_insert_transaction db_update_balance].
        rewrite map_identity_update. split; [reflexivity | simpl; lia].
    + rewrite (deposit_money_missing _ _ _ _ Hb). apply Hsame; reflexivity.
  - destruct (lookup_balance acct (view c)) as [b|] eqn:Hb.
    + rewrite (withdraw_money_found _ _ _ _ _ Hb).
      destruct (b <? amt); [apply Hsame; reflexivity|].
      unfold conn_of, committed; cbn [snd view]. split.
      * eexists. split; [reflexivity | simpl; lia].
      * exists []. rewrite app_nil_r.
        cbn [users db_insert_transaction db_update_balance].
        rewrite map_identity_update. split; [reflexivity | simpl; lia].
    + rewrite (withdraw_money_missing _ _ _ _ Hb). apply Hsame; reflexivity.
Qed.

(** X7.  The transactions table is append-only: a registration, a deposit or
    a withdrawal, on any store and with any arguments, leaves every row that
    was there in place and unchanged, and adds at most one row at the end. *)
Theorem transactions_append_only (c : connection) (o : operation) :
  is_restart o = false ->
  exists added : list transaction_row,
    transactions (view (run c o)) = transactions (view c) ++ added /\
    (List.length added <= 1)%nat.
Proof.
  intros Hr. exact (proj1 (run_grows c o Hr)).
Qed.

Lemma transactions_append_only_witness :
  is_restart (Withdraw 1 40 11) = false /\
  exists added : list transaction_row,
    transactions (view (run example_store (Withdraw 1 40 11)))
    = transactions (view example_store) ++ added /\
    (List.length added <= 1)%nat.
Proof.
  assert (Hr : is_restart (Withdraw 1 40 11) = false) by reflexivity.
  split; [exact Hr|].
  exact (transactions_append_only example_store (Withdraw 1 40 11) Hr).
Defined.

(** ** What a restart can lose *)

Lemma synced_run (c : connection) (o : operation) :
  synced c -> synced (run c o).
Proof.
  intros Hs.
  assert (Hcommitted : forall d, synced (committed d)).
  { intros d. repeat split. exists []. cbn. rewrite app_nil_r. reflexivity. }
  destruct o as [fn em ph pw dep t1 t2|acct amt now|acct amt now|]; cbn [run].
  - destruct (email_taken em (view c)) eqn:Ht.
    + rewrite (register_user_taken _ _ _ _ _ _ _ _ Ht). exact Hs.
    + rewrite (register_user_fresh _ _ _ _ _ _ _ _ Ht).
      unfold conn_of; cbn [snd]. destruct (0 <? dep).
      * repeat split. cbn. eexists. reflexivity.
      * apply (Hcommitted _).
  - destruct (lookup_balance acct (view c)) as [b|] eqn:Hb.
    + rewrite (deposit_money_found _ _ _ _ _ Hb). apply Hcommitted.
    + rewrite (deposit_money_missing _ _ _ _ Hb). exact Hs.
  - destruct (lookup_balance acct (view c)) as [b|] eqn:Hb.
    + rewrite (withdraw_money_found _ _ _ _ _ Hb).
      destruct (b <? amt); [exact Hs | apply Hcommitted].
    + rewrite (withdraw_money_missing _ _ _ _ Hb). exact Hs.
  - apply (Hcommitted (disk c)).
Qed.

Lemma synced_run_all (ops : list operation) : synced (run_all ops).
Proof.
  unfold run_all.
  assert (H : forall c, synced c -> synced (fold_left run ops c)).
  { induction ops as [|o ops IH]; intros c Hc; simpl; [exact Hc|].
    apply IH, synced_run, Hc. }
  apply H. repeat split. exists []. reflexivity.
Qed.

Lemma restart_users_kept (ops : list operation) :
  users (view (run (run_all ops) Restart)) = users (view (run_all ops)).
Proof.
  destruct (synced_run_all ops) as [Hu _]. exact Hu.
Qed.

(** X12.  After any run from a fresh database, closing the application and
    starting it again loses no account and no balance: the users table is
    row for row the one the connection saw.  Of the transactions it keeps an
    initial segment; only rows at the end that no commit had reached are
    gone. *)
Theorem restart_keeps_accounts (ops : list operation) :
  users (view (run (run_all ops) Restart)) = users (view (run_all ops)) /\
  exists pending : list transaction_row,
    transactions (view (run_all ops))
    = transactions (view (run (run_all ops) Restart)) ++ pending.
Proof.
  destruct (synced_run_all ops) as [Hu [_ Hp]].
  cbn [run setup_database view]. split; assumption.
Qed.

(** X8.  Accounts are never deleted and never renumbered, and their name,
    email, phone, password and creation date never change: after any run
    from a fresh database, one more operation of any kind, a restart
    included, keeps these columns of every row of the users table, in the
    same order, and adds at most one row at the end. *)
Theorem accounts_keep_identity (ops : list operation) (o : operation) :
  exists added,
    map identity_of (users (view (run (run_all ops) o)))
    = map identity_of (users (view (run_all ops))) ++ added /\
    (List.length added <= 1)%nat.
Proof.
  destruct (is_restart o) eqn:Hr.
  - destruct o; try discriminate.
    pose proof (restart_users_kept ops) as Hu.
    exists []. rewrite app_nil_r, Hu. split; [reflexivity | simpl; lia].
  - exact (proj2 (run_grows (run_all ops) o Hr)).
Qed.

(** X11.  The "Deposit" row of a registration does not survive a restart
    that follows at once: after any run, a registration with a free email and
    a positive initial deposit, and then a restart, the new account is there
    with the deposit as its balance and has no transaction at all. *)
Theorem restart_after_register_loses_deposit_row (ops : list operation)
    (fn em ph pw : string) (dep now_user now_tx : Z) :
  email_taken em (view (run_all ops)) = false ->
  0 < dep ->
  let c := run_all ops in
  let acct := users_seq (view c) + 1 in
  let c' := run (run c (Register fn em ph pw dep now_user now_tx)) Restart in
  lookup_balance acct (view c') = Some dep /\
  transactions_of acct (transactions (view c')) = [].
Proof.
  intros Hfresh Hdep. cbv zeta.
  destruct (conn_wf_run_all ops) as [_ Hwf].
  revert Hfresh Hwf. generalize (run_all ops). intros c Hfresh Hwf.
  cbn [run]. rewrite (register_user_fresh _ _ _ _ _ _ _ _ Hfresh).
  unfold conn_of; cbn [snd disk view setup_database]. split.
  - unfold lookup_balance. cbn [users db_insert_user].
    rewrite find_app_absent.
    + simpl. rewrite Z.eqb_refl. reflexivity.
    + intros u Hu. apply (wf_users_seq _ Hwf) in Hu. apply Z.eqb_neq. lia.
  - unfold transactions_of. cbn [transactions db_insert_user].
    apply filter_absent. intros t Ht.
    apply (wf_transactions_seq _ Hwf) in Ht. apply Z.eqb_neq. lia.
Qed.

Lemma restart_after_register_loses_deposit_row_witness :
  email_taken "b@x.com" (view (run_all example_run)) = false /\
  0 < 50 /\
  lookup_balance 2
    (view (run (run (run_all example_run)
                  (Register "B" "b@x.com" "777" "qw" 50 13 13)) Restart))
    = Some 50 /\
  transactions_of 2
    (transactions
       (view (run (run (run_all example_run)
                     (Register "B" "b@x.com" "777" "qw" 50 13 13)) Restart)))
    = [].
Proof.
  assert (Hf : email_taken "b@x.com" (view (run_all example_run)) = false)
    by reflexivity.
  assert (Hd : 0 < 50) by lia.
  split; [exact Hf|]. split; [exact Hd|].
  exact (restart_after_register_loses_deposit_row example_run "B" "b@x.com"
           "777" "qw" 50 13 13 Hf Hd).
Defined.

(** ** The amount form and the ledger *)

Lemma process_transaction_eq (trans_type : string) (current_user a now : Z)
    (c : connection) :
  0 < a ->
  process_transaction trans_type current_user (Some a) now c =
  if String.eqb trans_type "Deposit"
  then match lookup_balance current_user (view c) with
       | Some b =>
           (Return (Some (showinfo_deposited a (b + a))),
            conn_of (deposit_money current_user a now c))
       | None => (Raise TypeError, c)
       end
  else match lookup_balance current_user (view c) with
       | Some b =>
           if b <? a
           then (Return (Some (showerror "Transaction Failed"
                                 "Insufficient funds")), c)
           else (Return (Some (showinfo_withdrawn a (b - a))),
                 conn_of (withdraw_money current_user a now c))
       | None => (Raise TypeError, c)
       end.
Proof.
  intros Ha.
  unfold process_transaction, try_except, bind, float, ret at 1.
  destruct (Z.leb_spec a 0) as [Hle|_]; [lia|].
  destruct (String.eqb trans_type "Deposit");
    destruct (lookup_balance current_user (view c)) as [b|] eqn:Hb.
  - rewrite (deposit_money_found _ _ _ _ _ Hb). reflexivity.
  - rewrite (deposit_money_missing _ _ _ _ Hb). reflexivity.
  - rewrite (withdraw_money_found _ _ _ _ _ Hb).
    destruct (b <? a); reflexivity.
  - rewrite (withdraw_money_missing _ _ _ _ Hb). reflexivity.
Qed.

(** ** The history when the clock ticks between transactions *)

Lemma insert_desc_oldest (r : history_row) (l : list history_row) :
  (forall x, In x l -> date_of r < date_of x) ->
  insert_desc r l = l ++ [r].
Proof.
  induction l as [|x l IH]; intros H; simpl; [reflexivity|].
  pose proof (H x (or_introl eq_refl)) as Hx.
  destruct (Z.leb_spec (date_of x) (date_of r)); [lia|].
  rewrite IH; [reflexivity|]. intros y Hy. apply H. now right.
Qed.

Lemma order_by_date_desc_increasing (txs : list transaction_row) :
  dates_increase txs ->
  order_by_date_desc (map selected_columns txs)
  = rev (map selected_columns txs).
Proof.
  induction 1 as [|t txs Hs IH Hall]; simpl; [reflexivity|].
  rewrite IH. apply insert_desc_oldest.
  intros x Hx. apply in_rev in Hx. apply in_map_iff in Hx.
  destruct Hx as [t' [<- Ht']].
  rewrite Forall_forall in Hall. exact (Hall t' Ht').
Qed.

(** X15.  When the dates of the transactions of an account grow strictly in
    the order in which they were recorded, [get_transaction_history] returns
    them in exactly the reverse of that order, and the first row of the
    history is the transaction recorded last. *)
Theorem history_reverses_insertion_order (c : connection) (acct : Z) :
  dates_increase (transactions_of acct (transactions (view c))) ->
  exists rows : list history_row,
    get_transaction_history acct c = (Return rows, c) /\
    rows = rev (map selected_columns
                  (transactions_of acct (transactions (view c)))) /\
    hd_error rows
    = option_map selected_columns (most_recent_transaction acct (view c)).
Proof.
  intros Hinc.
  exists (rev (map selected_columns
                 (transactions_of acct (transactions (view c))))).
  split; [|split; [reflexivity|]].
  - unfold get_transaction_history, try_except, select_history.
    rewrite (order_by_date_desc_increasing _ Hinc). reflexivity.
  - unfold most_recent_transaction. rewrite <- map_rev.
    destruct (rev (transactions_of acct (transactions (view c))));
      reflexivity.
Qed.

Lemma history_reverses_insertion_order_witness :
  dates_increase (transactions_of 1 (transactions (view (run_all example_run))))
  /\ get_transaction_history 1 (run_all example_run)
     = (Return [("Withdrawal"%string, 40, 60, 12);
                ("Deposit"%string, 100, 100, 10)],
        run_all example_run).
Proof.
  assert (H : dates_increase
                (transactions_of 1
                   (transactions (view (run_all example_run))))).
  { repeat constructor. }
  split; [exact H|].
  destruct (history_reverses_insertion_order (run_all example_run) 1 H)
    as [rows [Hr [Hrows _]]].
  rewrite Hr, Hrows. reflexivity.
Defined.

(** * The statement export *)

Lemma draw_rows_printed (p y : Z) (rows : list history_row) :
  map printed (draw_rows p y rows) = rows.
Proof.
  revert p y. induction rows as [|r rows IH]; intros p y; simpl;
    [reflexivity|].
  rewrite IH. reflexivity.
Qed.

(** Every line drawn from a state whose height is at most 750. *)
Lemma draw_rows_bounds (rows : list history_row) (p y : Z) (l : drawn_line) :
  y <= 750 ->
  In l (draw_rows p y rows) ->
  50 <= height l <= 750 /\ p <= page l /\ (page l = p -> height l <= y).
Proof.
  revert p y. induction rows as [|r rows IH]; intros p y Hy Hl; simpl in Hl;
    [contradiction|].
  destruct (Z.ltb_spec y 50) as [Hlow|Hhigh]; destruct Hl as [<-|Hl]; simpl.
  - lia.
  - apply IH in Hl; lia.
  - lia.
  - apply IH in Hl; lia.
Qed.

(** X16.  The export prints every row of the history exactly once and in the
    order of the history, and every line it draws is inside the page: its
    height is between 50 and 750, and on the first page it is at most 615,
    below the table header. *)
Theorem statement_body_complete_and_inside (rows : list history_row) :
  map printed (statement_body rows) = rows /\
  forall l, In l (statement_body rows) ->
    0 <= page l /\ 50 <= height l <= 750 /\ (page l = 0 -> height l <= 615).
Proof.
  split; [apply draw_rows_printed|].
  intros l Hl. unfold statement_body in Hl.
  apply draw_rows_bounds in Hl; lia.
Qed.

Lemma draw_rows_sorted (rows : list history_row) (p y : Z) :
  y <= 750 -> StronglySorted drawn_before (draw_rows p y rows).
Proof.
  revert p y. induction rows as [|r rows IH]; intros p y Hy; simpl;
    [constructor|].
  destruct (Z.ltb_spec y 50) as [Hlow|Hhigh]; constructor;
    try (apply IH; lia);
    apply Forall_forall; intros l Hl; apply draw_rows_bounds in Hl;
      try lia; unfold drawn_before; simpl; lia.
Qed.

(** X17.  No two lines of the export collide: of any two lines drawn, the
    later one is on a later page, or on the same page at least 20 units (one
    line) below the earlier one. *)
Theorem statement_body_lines_apart (rows : list history_row) :
  StronglySorted drawn_before (statement_body rows).
Proof.
  apply draw_rows_sorted. lia.
Qed.

Lemma draw_rows_turn (p y : Z) (rows : list history_row) :
  y < 50 -> draw_rows p y rows = draw_rows (p + 1) 750 rows.
Proof.
  intros Hy. destruct rows as [|r rows]; simpl; [reflexivity|].
  destruct (Z.ltb_spec y 50); [reflexivity | lia].
Qed.

Lemma draw_rows_stay (p y : Z) (r : history_row) (rows : list history_row) :
  50 <= y ->
  draw_rows p y (r :: rows) = mk_line p y r :: draw_rows p (y - 20) rows.
Proof.
  intros Hy. cbn [draw_rows].
  destruct (Z.ltb_spec y 50); [lia | reflexivity].
Qed.

(** A page that is begun at the top: line [k] of the page is the next to
    draw. *)
Lemma draw_rows_full_page (rows : list history_row) (p k : Z) (i : nat)
    (l : drawn_line) :
  0 <= k < 36 ->
  nth_error (draw_rows p (750 - 20 * k) rows) i = Some l ->
  page l = p + (k + Z.of_nat i) / 36 /\
  height l = 750 - 20 * ((k + Z.of_nat i) mod 36).
Proof.
  revert p k i l. induction rows as [|r rows IH]; intros p k i l Hk Hl.
  - destruct i; discriminate.
  - rewrite draw_rows_stay in Hl by lia.
    destruct i as [|i]; cbn [nth_error] in Hl.
    + assert (Hl' : l = mk_line p (750 - 20 * k) r) by congruence.
      subst l. cbn [page height]. change (Z.of_nat 0) with 0.
      rewrite Z.add_0_r, Z.div_small, Z.mod_small by lia. lia.
    + destruct (Z.eq_dec k 35) as [->|Hne].
      * rewrite draw_rows_turn in Hl by lia.
        change 750 with (750 - 20 * 0) in Hl.
        apply (IH (p + 1) 0 i l) in Hl; [|lia].
        replace (35 + Z.of_nat (S i)) with (Z.of_nat i + 1 * 36) by lia.
        rewrite Z.div_add, Z.mod_add by lia.
        rewrite Z.add_0_l in Hl. destruct Hl as [Hp Hh]. rewrite Hp, Hh. lia.
      * replace (750 - 20 * k - 20) with (750 - 20 * (k + 1)) in Hl by lia.
        apply (IH p (k + 1) i l) in Hl; [|lia].
        replace (k + Z.of_nat (S i)) with (k + 1 + Z.of_nat i) by lia.
        exact Hl.
Qed.

(** The first page, begun below the table header. *)
Lemma draw_rows_first_page (rows : list history_row) (k : Z) (i : nat)
    (l : drawn_line) :
  0 <= k < 29 ->
  nth_error (draw_rows 0 (615 - 20 * k) rows) i = Some l ->
  (k + Z.of_nat i < 29 ->
   page l = 0 /\ height l = 615 - 20 * (k + Z.of_nat i)) /\
  (29 <= k + Z.of_nat i ->
   page l = 1 + (k + Z.of_nat i - 29) / 36 /\
   height l = 750 - 20 * ((k + Z.of_nat i - 29) mod 36)).
Proof.
  revert k i l. induction rows as [|r rows IH]; intros k i l Hk Hl.
  - destruct i; discriminate.
  - rewrite draw_rows_stay in Hl by lia.
    destruct i as [|i]; cbn [nth_error] in Hl.
    + assert (Hl' : l = mk_line 0 (615 - 20 * k) r) by congruence.
      subst l. cbn [page height]. change (Z.of_nat 0) with 0.
      split; intros; lia.
    + destruct (Z.eq_dec k 28) as [->|Hne].
      * rewrite draw_rows_turn in Hl by lia.
        change 750 with (750 - 20 * 0) in Hl.
        apply (draw_rows_full_page rows (0 + 1) 0 i l) in Hl; [|lia].
        split; [lia|]. intros _.
        replace (28 + Z.of_nat (S i) - 29) with (0 + Z.of_nat i) by lia.
        exact Hl.
      * replace (615 - 20 * k - 20) with (615 - 20 * (k + 1)) in Hl by lia.
        apply (IH (k + 1) i l) in Hl; [|lia].
        replace (k + Z.of_nat (S i)) with (k + 1 + Z.of_nat i) by lia.
        exact Hl.
Qed.

(** X18.  Where each row of the export goes: the first page takes the first
    29 rows, 20 units apart from height 615 down to 55, and every further
    page takes 36 rows, from height 750 down to 50.  Counting rows and pages
    from 0, row [i] is on page 0 when [i < 29] and on page
    [1 + (i - 29) / 36] otherwise. *)
Theorem statement_body_layout (rows : list history_row) (i : nat)
    (l : drawn_line) :
  nth_error (statement_body rows) i = Some l ->
  (Z.of_nat i < 29 ->
   page l = 0 /\ height l = 615 - 20 * Z.of_nat i) /\
  (29 <= Z.of_nat i ->
   page l = 1 + (Z.of_nat i - 29) / 36 /\
   height l = 750 - 20 * ((Z.of_nat i - 29) mod 36)).
Proof.
  intros Hl. unfold statement_body in Hl.
  change (640 - 25) with (615 - 20 * 0) in Hl.
  apply draw_rows_first_page in Hl; [|lia].
  rewrite !Z.add_0_l in Hl. exact Hl.
Qed.

Lemma statement_body_layout_witness :
  nth_error (statement_body example_long_history) 30
    = Some (mk_line 1 730 ("Deposit"%string, 1, 1, 0)) /\
  page (mk_line 1 730 ("Deposit"%string, 1, 1, 0))
    = 1 + (Z.of_nat 30 - 29) / 36 /\
  height (mk_line 1 730 ("Deposit"%string, 1, 1, 0))
    = 750 - 20 * ((Z.of_nat 30 - 29) mod 36).
Proof.
  assert (H : nth_error (statement_body example_long_history) 30
              = Some (mk_line 1 730 ("Deposit"%string, 1, 1, 0)))
    by reflexivity.
  split; [exact H|].
  apply (proj2 (statement_body_layout example_long_history 30 _ H)).
  simpl. lia.
Defined.

(** * The window *)

Lemma lookup_balance_exists (acct : Z) (d : database) :
  lookup_balance acct d <> None <-> In acct (map account_number (users d)).
Proof.
  split.
  - intros Hl. destruct (lookup_balance acct d) as [b|] eqn:Hb;
      [|contradiction].
    destruct (lookup_balance_In _ _ _ Hb) as [u [Hu [He _]]].
    rewrite <- He. apply in_map. exact Hu.
  - intros Hin Hl. apply in_map_iff in Hin. destruct Hin as [u [He Hu]].
    unfold lookup_balance in Hl.
    destruct (find _ (users d)) as [x|] eqn:Hf; [discriminate|].
    pose proof (find_none _ _ Hf u Hu) as Hn. simpl in Hn.
    apply Z.eqb_neq in Hn. contradiction.
Qed.

Lemma map_account_number_identity (l : list user_row) :
  map account_number l
  = map (fun i => fst (fst (fst (fst (fst i))))) (map identity_of l).
Proof.
  rewrite map_map. reflexivity.
Qed.

(** An account that exists is still there after any operation of the
    session. *)
Lemma account_persists (c : connection) (o : operation) (acct : Z) :
  is_restart o = false ->
  lookup_balance acct (view c) <> None ->
  lookup_balance acct (view (run c o)) <> None.
Proof.
  intros Hr Hl. apply lookup_balance_exists in Hl. apply lookup_balance_exists.
  destruct (run_grows c o Hr) as [_ [added [Hu _]]].
  rewrite map_account_number_identity in *. rewrite Hu, map_app.
  apply in_or_app. left. exact Hl.
Qed.

Lemma with_connection_same (g : gui) : with_connection (bank_system g) g = g.
Proof. destruct g; reflexivity. Qed.

Lemma show_dashboard_connection (g : gui) :
  bank_system (snd (show_dashboard g)) = bank_system g.
Proof.
  unfold show_dashboard. destruct (current_user g) as [[[acct n] b]|];
    [|reflexivity].
  rewrite get_balance_eq.
  destruct (lookup_balance acct (view (bank_system g))); reflexivity.
Qed.

Lemma show_dashboard_session (g : gui) (acct : Z) (n : string) (b : Z) :
  current_user g = Some (acct, n, b) ->
  lookup_balance acct (view (bank_system g)) <> None ->
  show_dashboard g = (Return tt, show DashboardScreen g).
Proof.
  intros Hcu Hl. unfold show_dashboard. rewrite Hcu, get_balance_eq.
  destruct (lookup_balance acct (view (bank_system g))); [|contradiction].
  rewrite with_connection_same. reflexivity.
Qed.

(** What [process_transaction] does to the connection. *)
Lemma process_transaction_connection (trans_type : string)
    (acct now : Z) (entered : option Z) (c : connection) :
  conn_of (process_transaction trans_type acct entered now c) = c \/
  exists o, valid_operation o = true /\ is_restart o = false /\
            conn_of (process_transaction trans_type acct entered now c)
            = run c o.
Proof.
  destruct entered as [a|]; [|left; reflexivity].
  destruct (Z.leb_spec a 0) as [Hle|Hpos].
  - left. unfold process_transaction, try_except, bind, float, ret at 1.
    destruct (Z.leb_spec a 0); [reflexivity | lia].
  - rewrite (process_transaction_eq _ _ _ _ _ Hpos).
    assert (Hv : (0 <? a) = true) by (apply Z.ltb_lt; exact Hpos).
    destruct (String.eqb trans_type "Deposit");
      destruct (lookup_balance acct (view c)) as [b|];
      try (left; reflexivity).
    + right. exists (Deposit acct a now). repeat split. exact Hv.
    + destruct (b <? a); [left; reflexivity|].
      right. exists (Withdraw acct a now). repeat split. exact Hv.
Qed.

Lemma select_login_exists (em pw : string) (d : database) (a : Z)
    (n : string) (b : Z) :
  select_login em pw d = Some (a, n, b) -> lookup_balance a d <> None.
Proof.
  unfold select_login. intros Hs.
  destruct (find (credentials_match em pw) (users d)) as [u|] eqn:Hf;
    [|discriminate].
  apply find_some in Hf. destruct Hf as [Hu _].
  injection Hs as <- _ _.
  apply lookup_balance_exists. apply in_map. exact Hu.
Qed.

Lemma step_ok_show (g : gui) (s : screen) (d : option gui_dialog) :
  session_ok g ->
  match s with
  | LoginScreen | RegisterScreen => True
  | DashboardScreen | TransactionScreen _ | HistoryScreen =>
      current_user g <> None
  | DashboardNavbar | DashboardBlank => False
  end ->
  step_ok g (Return d, show s g).
Proof.
  intros [H1 _] Hs. split; [exists d; reflexivity|].
  split; [|left; reflexivity]. split; [exact H1 | exact Hs].
Qed.

Lemma step_ok_stay (g : gui) (d : option gui_dialog) :
  session_ok g -> step_ok g (Return d, g).
Proof.
  intros Hg. split; [exists d; reflexivity|].
  split; [exact Hg | left; reflexivity].
Qed.

Lemma step_ok_login (g : gui) (em pw : string) :
  session_ok g -> shown g = LoginScreen -> step_ok g (login em pw g).
Proof.
  intros Hg Hs. unfold login.
  destruct (empty_text em || empty_text pw); [apply step_ok_stay; exact Hg|].
  unfold login_user, try_except. cbv beta.
  destruct (select_login em pw (view (bank_system g))) as [[[a n] b]|] eqn:Hl;
    cbv beta iota.
  - pose proof (select_login_exists _ _ _ _ _ _ Hl) as Hex.
    erewrite show_dashboard_session; [|reflexivity | exact Hex].
    split; [exists None; reflexivity|]. split; [|left; reflexivity].
    split; cbn [snd show current_user bank_system shown].
    + intros acct name bal [= <- <- <-]. exact Hex.
    + discriminate.
  - rewrite with_connection_same. apply step_ok_stay. exact Hg.
Qed.

Lemma step_ok_register (g : gui) (fn em ph pw dep_text : string)
    (dep : option Z) (t1 t2 : Z) :
  session_ok g -> shown g = RegisterScreen ->
  step_ok g (register fn em ph pw dep_text dep t1 t2 g).
Proof.
  intros Hg Hs. unfold register.
  destruct (empty_text fn || empty_text em || empty_text ph || empty_text pw
            || empty_text dep_text); [apply step_ok_stay; exact Hg|].
  destruct dep as [dep|]; [|apply step_ok_stay; exact Hg].
  destruct (Z.ltb_spec dep 0) as [Hneg|Hdep]; [apply step_ok_stay; exact Hg|].
  set (o := Register fn em ph pw dep t1 t2).
  assert (Hv : valid_operation o = true) by (apply Z.leb_le; exact Hdep).
  assert (Hrun : conn_of (register_user fn em ph pw dep t1 t2 (bank_system g))
                 = run (bank_system g) o) by reflexivity.
  destruct (register_user fn em ph pw dep t1 t2 (bank_system g))
    as [[account_number|e] c] eqn:Hr; unfold conn_of in Hrun; cbn [snd] in Hrun.
  - assert (Hkeep : forall acct name bal,
              current_user g = Some (acct, name, bal) ->
              lookup_balance acct (view c) <> None).
    { intros acct name bal Hcu. rewrite Hrun.
      apply account_persists; [reflexivity|].
      exact (proj1 Hg acct name bal Hcu). }
    destruct (truthy account_number).
    + split; [eexists; reflexivity|]. split.
      * split; [exact Hkeep | exact I].
      * right. exists o. split; [exact Hv | exact Hrun].
    + split; [eexists; reflexivity|]. split.
      * split; [exact Hkeep|]. cbn [snd with_connection shown].
        rewrite Hs. exact I.
      * right. exists o. split; [exact Hv | exact Hrun].
  - exfalso. destruct (email_taken em (view (bank_system g))) eqn:Ht.
    + rewrite (register_user_taken _ _ _ _ _ _ _ _ Ht) in Hr. discriminate.
    + rewrite (register_user_fresh _ _ _ _ _ _ _ _ Ht) in Hr. discriminate.
Qed.

Lemma step_ok_dashboard (g : gui) :
  session_ok g -> current_user g <> None ->
  step_ok g (lift_unit (show_dashboard g)).
Proof.
  intros Hg Hcu. destruct (current_user g) as [[[acct n] b]|] eqn:Hc;
    [|contradiction].
  rewrite (show_dashboard_session g acct n b Hc (proj1 Hg acct n b Hc)).
  cbn [lift_unit]. apply step_ok_show; [exact Hg|]. rewrite Hc. discriminate.
Qed.

Lemma step_ok_confirm (g : gui) (trans_type : string) (entered : option Z)
    (now : Z) :
  session_ok g -> current_user g <> None ->
  shown g = TransactionScreen trans_type ->
  step_ok g (confirm trans_type entered now g).
Proof.
  intros Hg Hcu Hs. destruct (current_user g) as [[[acct n] bal]|] eqn:Hc;
    [|contradiction].
  pose proof (proj1 Hg acct n bal Hc) as Hex.
  unfold confirm. rewrite Hc.
  assert (Hsuccess : forall (c : connection) (d : gui_dialog),
            (exists o, valid_operation o = true /\ is_restart o = false /\
                       c = run (bank_system g) o) ->
            step_ok g
              match show_dashboard (with_connection c g) with
              | (Return _, g') => (Return (Some d), g')
              | (Raise e, g') => (Raise e, g')
              end).
  { intros c d [o [Hv [Hr Hc']]].
    assert (Hex' : lookup_balance acct (view c) <> None).
    { rewrite Hc'. apply account_persists; assumption. }
    rewrite (show_dashboard_session (with_connection c g) acct n bal Hc Hex').
    split; [eexists; reflexivity|]. split.
    - split; cbn [snd show with_connection current_user bank_system shown].
      + intros a' n' b' Heq. rewrite Hc in Heq.
        injection Heq as <- <- <-. exact Hex'.
      + rewrite Hc. discriminate.
    - right. exists o. split; [exact Hv | exact Hc']. }
  assert (Hquiet : forall d : option dialog,
            step_ok g (Return (option_map messagebox d),
                       with_connection (bank_system g) g)).
  { intros d. rewrite with_connection_same. apply step_ok_stay. exact Hg. }
  destruct entered as [a|]; [|apply (Hquiet (Some _))].
  destruct (Z.leb_spec a 0) as [Hle|Hpos].
  - unfold process_transaction, try_except, bind, float, ret at 1.
    destruct (Z.leb_spec a 0); [|lia]. apply (Hquiet (Some _)).
  - rewrite (process_transaction_eq _ _ _ _ _ Hpos).
    assert (Hv : (0 <? a) = true) by (apply Z.ltb_lt; exact Hpos).
    destruct (lookup_balance acct (view (bank_system g))) as [b|];
      [|contradiction].
    destruct (String.eqb trans_type "Deposit").
    + apply Hsuccess. exists (Deposit acct a now). repeat split. exact Hv.
    + destruct (b <? a); [apply (Hquiet (Some _))|].
      apply Hsuccess. exists (Withdraw acct a now). repeat split. exact Hv.
Qed.

Lemma step_ok_export (g : gui) :
  session_ok g -> step_ok g (export_to_pdf g).
Proof.
  intros Hg. unfold export_to_pdf.
  destruct (current_user g) as [[[acct n] b]|]; [|apply step_ok_stay; exact Hg].
  unfold get_transaction_history, try_except.
  destruct (select_history acct (view (bank_system g)));
    rewrite with_connection_same; apply step_ok_stay; exact Hg.
Qed.

Lemma step_ok_handle (g : gui) (e : event) :
  session_ok g -> step_ok g (handle g e).
Proof.
  intros Hg. pose proof (proj2 Hg) as Hscreen.
  destruct e; unfold handle; destruct (shown g) eqn:Hs;
    try (apply step_ok_stay; exact Hg);
    try (apply step_ok_show; [exact Hg | exact I]);
    try (apply step_ok_show; [exact Hg | exact Hscreen]);
    try contradiction.
  - apply step_ok_login; assumption.
  - apply step_ok_register; assumption.
  - unfold show_transaction_history.
    destruct (current_user g) eqn:Hc; [|contradiction].
    apply step_ok_show; [exact Hg|]. rewrite Hc. discriminate.
  - apply step_ok_dashboard; assumption.
  - apply step_ok_dashboard; assumption.
  - apply step_ok_confirm; assumption.
  - apply step_ok_export; assumption.
  - split; [eexists; reflexivity|]. split; [split; [discriminate | exact I]|].
    right. exists Restart. split; reflexivity.
  - split; [eexists; reflexivity|]. split; [split; [discriminate | exact I]|].
    right. exists Restart. split; reflexivity.
  - split; [eexists; reflexivity|]. split; [split; [discriminate | exact I]|].
    right. exists Restart. split; reflexivity.
  - split; [eexists; reflexivity|]. split; [split; [discriminate | exact I]|].
    right. exists Restart. split; reflexivity.
  - split; [eexists; reflexivity|]. split; [split; [discriminate | exact I]|].
    right. exists Restart. split; reflexivity.
Qed.

Lemma run_all_snoc (ops : list operation) (o : operation) :
  run_all (ops ++ [o]) = run (run_all ops) o.
Proof.
  unfold run_all. rewrite fold_left_app. reflexivity.
Qed.

Lemma gui_fold (events : list event) (g : gui) (ops0 : list operation) :
  session_ok g ->
  forallb valid_operation ops0 = true ->
  bank_system g = run_all ops0 ->
  session_ok (fold_left after events g) /\
  exists ops, forallb valid_operation ops = true /\
              bank_system (fold_left after events g) = run_all ops.
Proof.
  revert g ops0. induction events as [|e events IH]; intros g ops0 Hg Hv Hc;
    simpl.
  - split; [exact Hg|]. exists ops0. split; assumption.
  - destruct (step_ok_handle g e Hg) as [_ [Hg' [Hsame|[o [Ho Hrun]]]]].
    + apply (IH (after g e) ops0); [exact Hg' | exact Hv|].
      unfold after. rewrite Hsame. exact Hc.
    + apply (IH (after g e) (ops0 ++ [o])); [exact Hg'| |].
      * rewrite forallb_app, Hv. simpl. rewrite Ho. reflexivity.
      * unfold after. rewrite Hrun, Hc, run_all_snoc. reflexivity.
Qed.

Lemma gui_run_ok (events : list event) :
  session_ok (gui_run events) /\
  exists ops, forallb valid_operation ops = true /\
              bank_system (gui_run events) = run_all ops.
Proof.
  apply (gui_fold events (launch empty_database) []).
  - split; [discriminate | exact I].
  - reflexivity.
  - reflexivity.
Qed.

(** X20.  Whenever the window shows the dashboard, an amount screen or the
    history, there is a session, and it is the session of an account that
    is in the users table, so the operations of these screens find their
    account. *)
Theorem gui_session_account_exists (events : list event) :
  shown (gui_run events) = LoginScreen \/
  shown (gui_run events) = RegisterScreen \/
  exists acct name bal u,
    current_user (gui_run events) = Some (acct, name, bal) /\
    In u (users (view (bank_system (gui_run events)))) /\
    account_number u = acct.
Proof.
  destruct (gui_run_ok events) as [[H1 H2] _].
  destruct (shown (gui_run events));
    try (left; reflexivity); try (right; left; reflexivity);
    try contradiction; right; right;
    (destruct (current_user (gui_run events)) as [[[acct name] bal]|] eqn:Hc;
     [|contradiction]);
    pose proof (H1 acct name bal eq_refl) as Hex;
    apply lookup_balance_exists, in_map_iff in Hex;
    destruct Hex as [u [He Hu]]; exists acct, name, bal, u; auto.
Qed.

(** ** The two forms in front of the login *)

Lemma users_seq_non_negative (ops : list operation) :
  0 <= users_seq (view (run_all ops)).
Proof.
  apply (invariant_run_all (fun d => 0 <= users_seq d)); simpl; intros; lia.
Qed.

Lemma lookup_balance_registered (fn em ph pw : string) (dep t1 t2 : Z)
    (c : connection) :
  db_wf (view c) ->
  email_taken em (view c) = false ->
  lookup_balance (users_seq (view c) + 1)
    (view (conn_of (register_user fn em ph pw dep t1 t2 c)))
  = Some dep.
Proof.
  intros Hwf Hfresh. rewrite (register_user_fresh _ _ _ _ _ _ _ _ Hfresh).
  unfold conn_of; cbn [snd view].
  assert (Hold : forall u, In u (users (view c)) ->
                 (account_number u =? users_seq (view c) + 1) = false).
  { intros u Hu. apply (wf_users_seq _ Hwf) in Hu. apply Z.eqb_neq. lia. }
  unfold lookup_balance.
  destruct (0 <? dep); cbn [users db_insert_transaction db_insert_user];
    rewrite (find_app_absent _ _ _ Hold); simpl; rewrite Z.eqb_refl;
    reflexivity.
Qed.

(** X23.  The registration form, filled in completely with a deposit that is
    a number [>= 0]: when the email is free, the handler shows the number of
    the new account, returns to the login screen, and the account is there
    with the deposit as balance; when the email is taken, it shows
    "Registration Failed", stays on the form and leaves the store as it
    was. *)
Theorem register_form (events : list event)
    (fn em ph pw dep_text : string) (dep now_user now_tx : Z) :
  shown (gui_run events) = RegisterScreen ->
  empty_text fn = false -> empty_text em = false -> empty_text ph = false ->
  empty_text pw = false -> empty_text dep_text = false ->
  0 <= dep ->
  let g := gui_run events in
  let r := handle g (CreateAccount fn em ph pw dep_text (Some dep)
                       now_user now_tx) in
  let acct := users_seq (view (bank_system g)) + 1 in
  if email_taken em (view (bank_system g))
  then r = (Return (Some (messagebox
                            (showerror "Registration Failed"
                               "Email already exists or registration failed"))),
            g)
  else fst r = Return (Some (showinfo_account_created acct)) /\
       shown (snd r) = LoginScreen /\
       lookup_balance acct (view (bank_system (snd r))) = Some dep.
Proof.
  intros Hs Hfn Hem Hph Hpw Hdt Hdep. cbv zeta.
  destruct (gui_run_ok events) as [_ [ops [_ Hc]]].
  pose proof (users_seq_non_negative ops) as Hseq.
  pose proof (proj2 (conn_wf_run_all ops)) as Hwf.
  rewrite <- Hc in Hseq, Hwf.
  unfold handle. rewrite Hs. unfold register.
  rewrite Hfn, Hem, Hph, Hpw, Hdt. cbn [orb].
  destruct (Z.ltb_spec dep 0) as [Hneg|_]; [lia|].
  destruct (email_taken em (view (bank_system (gui_run events)))) eqn:Ht.
  - rewrite (register_user_taken _ _ _ _ _ _ _ _ Ht). cbn [truthy].
    rewrite with_connection_same. reflexivity.
  - pose proof (lookup_balance_registered fn em ph pw dep now_user now_tx
                  _ Hwf Ht) as Hl.
    rewrite (register_user_fresh _ _ _ _ _ _ _ _ Ht) in *.
    cbv zeta. unfold truthy.
    destruct (Z.eqb_spec (users_seq (view (bank_system (gui_run events))) + 1)
                0) as [Hz|_]; [lia|].
    cbn [negb fst snd option_map]. repeat split. exact Hl.
Qed.

Lemma register_form_witness :
  shown (gui_run [CreateAccountLink]) = RegisterScreen /\
  0 <= 100 /\
  fst (handle (gui_run [CreateAccountLink])
         (CreateAccount "A" "a@x.com" "555" "pw" "100" (Some 100) 10 10))
  = Return (Some (showinfo_account_created 1)).
Proof.
  assert (Hs : shown (gui_run [CreateAccountLink]) = RegisterScreen)
    by reflexivity.
  assert (Hd : 0 <= 100) by lia.
  split; [exact Hs|]. split; [exact Hd|].
  exact (proj1 (register_form [CreateAccountLink] "A" "a@x.com" "555" "pw"
                  "100" 100 10 10 Hs eq_refl eq_refl eq_refl eq_refl eq_refl
                  Hd)).
Defined.



(** * The ledger in double precision *)

(** ** Comparisons of doubles *)

Lemma SFcompare_antisym (x y : SpecFloat.spec_float) :
  SpecFloat.SFcompare y x = option_map CompOpp (SpecFloat.SFcompare x y).
Proof.
  destruct x as [sx|sx| |sx mx ex], y as [sy|sy| |sy my ey]; simpl;
    try reflexivity;
    try (destruct sx; reflexivity); try (destruct sy; reflexivity);
    try (destruct sx, sy; reflexivity).
  destruct sx, sy; try reflexivity; simpl;
    rewrite (Z.compare_antisym ex ey); destruct (ex ?= ey)%Z; simpl;
    try reflexivity;
    pose proof (Pos.compare_cont_antisym mx my Eq) as H; simpl in H;
    rewrite <- H; destruct (Pos.compare_cont Eq mx my); reflexivity.
Qed.

Lemma SFcompare_refl (x : SpecFloat.spec_float) :
  x <> SpecFloat.S754_nan -> SpecFloat.SFcompare x x = Some Eq.
Proof.
  destruct x as [s|s| |s m e]; simpl; intros Hx;
    [reflexivity | destruct s; reflexivity | contradiction |].
  destruct s; rewrite Z.compare_refl, Pos.compare_cont_refl; reflexivity.
Qed.

(** [a <= b] excludes [b < a]. *)
Lemma leb_not_ltb (a b : PrimFloat.float) :
  PrimFloat.leb a b = true -> PrimFloat.ltb b a = false.
Proof.
  rewrite FloatAxioms.leb_spec, FloatAxioms.ltb_spec.
  unfold SpecFloat.SFleb, SpecFloat.SFltb.
  rewrite (SFcompare_antisym (FloatOps.Prim2SF a) (FloatOps.Prim2SF b)).
  destruct (SpecFloat.SFcompare (FloatOps.Prim2SF a) (FloatOps.Prim2SF b))
    as [[| |]|]; simpl; congruence.
Qed.


(** What is greater than something is a number. *)
Lemma ltb_number (x a : PrimFloat.float) :
  PrimFloat.ltb x a = true -> PrimFloat.is_nan a = false.
Proof.
  unfold PrimFloat.is_nan.
  rewrite FloatAxioms.ltb_spec, FloatAxioms.eqb_spec.
  unfold SpecFloat.SFltb, SpecFloat.SFeqb. intros Hlt.
  rewrite SFcompare_refl; [reflexivity|].
  intros Hnan. rewrite Hnan in Hlt.
  destruct (FloatOps.Prim2SF x); discriminate.
Qed.

Lemma to_real_number (x : PrimFloat.float) :
  PrimFloat.is_nan x = false -> Double.to_real x = Some x.
Proof.
  intros H. unfold Double.to_real. rewrite H. reflexivity.
Qed.

Lemma bind_value_to_real (x : PrimFloat.float) :
  Double.bind_value (Double.to_real x) = Double.to_real x.
Proof.
  unfold Double.to_real. destruct (PrimFloat.is_nan x) eqn:H; simpl;
    [reflexivity|].
  unfold Double.to_real. rewrite H. reflexivity.
Qed.

Lemma bind_value_add_amount (a : PrimFloat.float) (bal : option PrimFloat.float) :
  Double.bind_value (Double.add_amount a bal) = Double.add_amount a bal.
Proof.
  unfold Double.add_amount, Double.real_add.
  destruct bal as [b|]; [|reflexivity].
  destruct (Double.to_real a); [apply bind_value_to_real | reflexivity].
Qed.

(** ** The statements *)

Section DoubleStatements.

Variables (f : option PrimFloat.float -> option PrimFloat.float) (acct : Z).

Lemma double_set_balance_account (u : Double.user_row) :
  Double.account_number (Double.set_balance f acct u)
  = Double.account_number u.
Proof.
  unfold Double.set_balance.
  destruct (Double.account_number u =? acct); reflexivity.
Qed.

Lemma double_lookup_update (d : Double.database) :
  Double.lookup_balance acct (Double.db_update_balance f acct d)
  = option_map f (Double.lookup_balance acct d).
Proof.
  unfold Double.lookup_balance, Double.db_update_balance; cbn [Double.users].
  induction (Double.users d) as [|u l IH]; simpl; [reflexivity|].
  rewrite double_set_balance_account.
  destruct (Double.account_number u =? acct) eqn:He; [|exact IH].
  simpl. unfold Double.set_balance. rewrite He. reflexivity.
Qed.

Lemma double_update_absent (d : Double.database) :
  Double.lookup_balance acct d = None ->
  Double.db_update_balance f acct d = d.
Proof.
  unfold Double.lookup_balance, Double.db_update_balance. intros Hl.
  assert (Hmap : map (Double.set_balance f acct) (Double.users d)
                 = Double.users d).
  { induction (Double.users d) as [|u l IH]; simpl in *; [reflexivity|].
    unfold Double.set_balance at 1.
    destruct (Double.account_number u =? acct); [discriminate|].
    rewrite (IH Hl). reflexivity. }
  rewrite Hmap. destruct d; reflexivity.
Qed.

End DoubleStatements.

Lemma double_connection_eta (c : Double.connection) :
  {| Double.disk := Double.disk c; Double.view := Double.view c |} = c.
Proof. destruct c; reflexivity. Qed.

(** ** The two methods in closed form *)

Lemma double_deposit_money_eq (acct : Z) (a : PrimFloat.float) (now : Z)
    (c : Double.connection) :
  Double.deposit_money acct a now c =
  match Double.lookup_balance acct (Double.view c) with
  | None => (Raise TypeError, c)
  | Some bal =>
      let d1 := Double.db_update_balance (Double.add_amount a) acct
                  (Double.view c) in
      (Return (Double.add_amount a bal),
       Double.committed
         match Double.to_real a, Double.add_amount a bal with
         | Some a', Some nb =>
             Double.db_insert_transaction acct "Deposit" a' nb now d1
         | _, _ => d1
         end)
  end.
Proof.
  unfold Double.deposit_money, Double.try_except, Double.bind,
    Double.update_balance, Double.write, Double.select_balance.
  cbn [Double.view]. rewrite double_lookup_update.
  destruct (Double.lookup_balance acct (Double.view c)) as [bal|] eqn:Hl;
    cbn [option_map Double.subscript0 Double.raise Double.ret].
  - unfold Double.record_transaction, Double.try_except,
      Double.insert_transaction.
    rewrite bind_value_add_amount.
    destruct (Double.to_real a) as [a'|];
      destruct (Double.add_amount a bal) as [nb|]; reflexivity.
  - rewrite (double_update_absent _ _ _ Hl), double_connection_eta.
    reflexivity.
Qed.

Lemma double_withdraw_money_eq (acct : Z) (a : PrimFloat.float) (now : Z)
    (c : Double.connection) :
  Double.withdraw_money acct a now c =
  match Double.lookup_balance acct (Double.view c) with
  | None | Some None => (Raise TypeError, c)
  | Some (Some b) =>
      if PrimFloat.ltb b a
      then (Return (None, "Insufficient funds"%string), c)
      else
        let d1 := Double.db_update_balance (Double.subtract_amount a) acct
                    (Double.view c) in
        (Return (Some (PrimFloat.sub b a), "Success"%string),
         Double.committed
           match Double.to_real a, Double.to_real (PrimFloat.sub b a) with
           | Some a', Some nb =>
               Double.db_insert_transaction acct "Withdrawal" a' nb now d1
           | _, _ => d1
           end)
  end.
Proof.
  unfold Double.withdraw_money, Double.try_except, Double.bind,
    Double.select_balance.
  destruct (Double.lookup_balance acct (Double.view c)) as [[b|]|];
    cbn [Double.subscript0 Double.raise Double.ret Double.less_than];
    try reflexivity.
  destruct (PrimFloat.ltb b a); [reflexivity|].
  unfold Double.update_balance, Double.write, Double.record_transaction,
    Double.try_except, Double.insert_transaction.
  cbn [option_map Double.bind_value Double.view].
  destruct (Double.to_real a) as [a'|];
    destruct (Double.to_real (PrimFloat.sub b a)) as [nb|]; reflexivity.
Qed.

(** ** Withdrawals and deposits as the code computes them *)

(** C1, as stated, fails: the difference is taken in double precision.  An
    account is opened with 1e16; a withdrawal of 1 (so [0 < a <= b])
    succeeds, and the new balance returned, the balance stored and the
    [balance_after] recorded are all 1e16, the balance from before, and not
    1e16 - 1 = 9999999999999999. *)
Lemma withdraw_money_difference_is_rounded :
  Double.lookup_balance 1
    (Double.view (Double.opened_with 10000000000000000%float))
  = Some (Some 10000000000000000%float)
  /\ PrimFloat.ltb 0%float 1%float = true
  /\ PrimFloat.leb 1%float 10000000000000000%float = true
  /\ fst (Double.withdraw_money 1 1%float 11
            (Double.opened_with 10000000000000000%float))
     = Return (Some 10000000000000000%float, "Success"%string)
  /\ Double.lookup_balance 1
       (Double.view
          (snd (Double.withdraw_money 1 1%float 11
                  (Double.opened_with 10000000000000000%float))))
     = Some (Some 10000000000000000%float)
  /\ map Double.balance_after
       (Double.transactions
          (Double.view
             (snd (Double.withdraw_money 1 1%float 11
                     (Double.opened_with 10000000000000000%float)))))
     = [10000000000000000%float; 10000000000000000%float]
  /\ (10000000000000000 - 1 <> 10000000000000000)%Z.
Proof.
  repeat split; try reflexivity. lia.
Qed.

(** C1, amended.  When the account holds the double [b], [0 < a <= b], and
    the double-precision difference [b - a] is a number (it is not for
    [inf - inf]), [withdraw_money] succeeds and returns that difference,
    the balance stored for the account becomes that difference, and the
    transactions table grows by exactly one row: a "Withdrawal" of amount
    [a] for this account whose [balance_after] is that difference.  Both
    writes are committed. *)
Theorem double_withdraw_money_within_balance (c : Double.connection)
    (acct : Z) (b a : PrimFloat.float) (now : Z) :
  Double.lookup_balance acct (Double.view c) = Some (Some b) ->
  PrimFloat.ltb 0%float a = true ->
  PrimFloat.leb a b = true ->
  PrimFloat.is_nan (PrimFloat.sub b a) = false ->
  let r := Double.withdraw_money acct a now c in
  fst r = Return (Some (PrimFloat.sub b a), "Success"%string) /\
  Double.lookup_balance acct (Double.view (snd r))
    = Some (Some (PrimFloat.sub b a)) /\
  Double.transactions (Double.view (snd r)) =
    Double.transactions (Double.view c) ++
    [Double.mk_transaction (Double.transactions_seq (Double.view c) + 1) acct
       "Withdrawal" a (PrimFloat.sub b a) now] /\
  Double.disk (snd r) = Double.view (snd r).
Proof.
  intros Hb Hpos Hle Hnum. cbv zeta.
  rewrite double_withdraw_money_eq, Hb, (leb_not_ltb _ _ Hle).
  rewrite (to_real_number _ (ltb_number _ _ Hpos)), (to_real_number _ Hnum).
  cbn [fst snd Double.committed Double.view Double.disk].
  split; [reflexivity|]. split; [|split; reflexivity].
  unfold Double.lookup_balance at 1.
  cbn [Double.users Double.db_insert_transaction].
  change (Double.lookup_balance acct
            (Double.db_update_balance (Double.subtract_amount a) acct
               (Double.view c)) = Some (Some (PrimFloat.sub b a))).
  rewrite double_lookup_update, Hb. cbn [option_map].
  unfold Double.subtract_amount, Double.real_sub.
  rewrite (to_real_number _ (ltb_number _ _ Hpos)), (to_real_number _ Hnum).
  reflexivity.
Qed.

Lemma double_withdraw_money_within_balance_witness :
  Double.lookup_balance 1 (Double.view (Double.opened_with 100%float))
    = Some (Some 100%float) /\
  PrimFloat.ltb 0%float 40%float = true /\
  PrimFloat.leb 40%float 100%float = true /\
  PrimFloat.is_nan (PrimFloat.sub 100%float 40%float) = false /\
  fst (Double.withdraw_money 1 40%float 11 (Double.opened_with 100%float))
    = Return (Some 60%float, "Success"%string).
Proof.
  assert (Hb : Double.lookup_balance 1
                 (Double.view (Double.opened_with 100%float))
               = Some (Some 100%float)) by reflexivity.
  assert (Hpos : PrimFloat.ltb 0%float 40%float = true) by reflexivity.
  assert (Hle : PrimFloat.leb 40%float 100%float = true) by reflexivity.
  assert (Hnum : PrimFloat.is_nan (PrimFloat.sub 100%float 40%float) = false)
    by reflexivity.
  repeat (split; [assumption|]).
  exact (proj1 (double_withdraw_money_within_balance
                  (Double.opened_with 100%float) 1 100%float 40%float 11
                  Hb Hpos Hle Hnum)).
Defined.

(** C3, as stated, fails: the sum is taken in double precision.  An account
    is opened with 2^53 = 9007199254740992; a deposit of 1 succeeds, and
    the new balance returned, the balance stored and the [balance_after]
    recorded are all 2^53, the balance from before, and not 2^53 + 1. *)
Lemma deposit_money_sum_is_rounded :
  Double.lookup_balance 1
    (Double.view (Double.opened_with 9007199254740992%float))
  = Some (Some 9007199254740992%float)
  /\ PrimFloat.ltb 0%float 1%float = true
  /\ fst (Double.deposit_money 1 1%float 11
            (Double.opened_with 9007199254740992%float))
     = Return (Some 9007199254740992%float)
  /\ Double.lookup_balance 1
       (Double.view
          (snd (Double.deposit_money 1 1%float 11
                  (Double.opened_with 9007199254740992%float))))
     = Some (Some 9007199254740992%float)
  /\ map Double.balance_after
       (Double.transactions
          (Double.view
             (snd (Double.deposit_money 1 1%float 11
                     (Double.opened_with 9007199254740992%float)))))
     = [9007199254740992%float; 9007199254740992%float]
  /\ (9007199254740992 + 1 <> 9007199254740992)%Z.
Proof.
  repeat split; try reflexivity. lia.
Qed.

(** C3, amended.  When the account holds the double [b], [a > 0], and the
    double-precision sum [b + a] is a number, [deposit_money] succeeds and
    returns that sum, the balance stored for the account becomes that sum,
    and the transactions table grows by exactly one row: a "Deposit" of
    amount [a] for this account whose [balance_after] is that sum.  Both
    writes are committed. *)
Theorem double_deposit_money_positive (c : Double.connection)
    (acct : Z) (b a : PrimFloat.float) (now : Z) :
  Double.lookup_balance acct (Double.view c) = Some (Some b) ->
  PrimFloat.ltb 0%float a = true ->
  PrimFloat.is_nan (PrimFloat.add b a) = false ->
  let r := Double.deposit_money acct a now c in
  fst r = Return (Some (PrimFloat.add b a)) /\
  Double.lookup_balance acct (Double.view (snd r))
    = Some (Some (PrimFloat.add b a)) /\
  Double.transactions (Double.view (snd r)) =
    Double.transactions (Double.view c) ++
    [Double.mk_transaction (Double.transactions_seq (Double.view c) + 1) acct
       "Deposit" a (PrimFloat.add b a) now] /\
  Double.disk (snd r) = Double.view (snd r).
Proof.
  intros Hb Hpos Hnum. cbv zeta.
  assert (Hsum : Double.add_amount a (Some b) = Some (PrimFloat.add b a)).
  { unfold Double.add_amount, Double.real_add.
    rewrite (to_real_number _ (ltb_number _ _ Hpos)), (to_real_number _ Hnum).
    reflexivity. }
  rewrite double_deposit_money_eq, Hb. cbv zeta.
  rewrite Hsum, (to_real_number _ (ltb_number _ _ Hpos)).
  cbn [fst snd Double.committed Double.view Double.disk].
  split; [reflexivity|]. split; [|split; reflexivity].
  change (Double.lookup_balance acct
            (Double.db_update_balance (Double.add_amount a) acct
               (Double.view c)) = Some (Some (PrimFloat.add b a))).
  rewrite double_lookup_update, Hb. cbn [option_map]. rewrite Hsum.
  reflexivity.
Qed.

Lemma double_deposit_money_positive_witness :
  Double.lookup_balance 1 (Double.view (Double.opened_with 100%float))
    = Some (Some 100%float) /\
  PrimFloat.ltb 0%float 25%float = true /\
  PrimFloat.is_nan (PrimFloat.add 100%float 25%float) = false /\
  fst (Double.deposit_money 1 25%float 11 (Double.opened_with 100%float))
    = Return (Some 125%float).
Proof.
  assert (Hb : Double.lookup_balance 1
                 (Double.view (Double.opened_with 100%float))
               = Some (Some 100%float)) by reflexivity.
  assert (Hpos : PrimFloat.ltb 0%float 25%float = true) by reflexivity.
  assert (Hnum : PrimFloat.is_nan (PrimFloat.add 100%float 25%float) = false)
    by reflexivity.
  repeat (split; [assumption|]).
  exact (proj1 (double_deposit_money_positive
                  (Double.opened_with 100%float) 1 100%float 25%float 11
                  Hb Hpos Hnum)).
Defined.

(** ** The amount form on doubles *)

Lemma double_process_transaction_eq (trans_type : string)
    (current_user : Z) (a : PrimFloat.float) (now : Z)
    (c : Double.connection) :
  PrimFloat.leb a 0%float = false ->
  Double.process_transaction trans_type current_user (Some a) now c =
  if String.eqb trans_type "Deposit"
  then match Double.lookup_balance current_user (Double.view c) with
       | None => (Raise TypeError, c)
       | Some bal =>
           (Return (option_map (Double.showinfo_deposited a)
                      (Double.add_amount a bal)),
            snd (Double.deposit_money current_user a now c))
       end
  else match Double.lookup_balance current_user (Double.view c) with
       | None | Some None => (Raise TypeError, c)
       | Some (Some b) =>
           if PrimFloat.ltb b a
           then (Return (Some (Double.showerror "Transaction Failed"
                                 "Insufficient funds")), c)
           else (Return (Some (Double.showinfo_withdrawn a
                                 (PrimFloat.sub b a))),
                 snd (Double.withdraw_money current_user a now c))
       end.
Proof.
  intros Ha.
  unfold Double.process_transaction, Double.try_except, Double.float.
  unfold Double.bind at 1. unfold Double.ret at 1.
  change PrimFloat.zero with 0%float. rewrite Ha.
  destruct (String.eqb trans_type "Deposit"); unfold Double.bind.
  - rewrite double_deposit_money_eq.
    destruct (Double.lookup_balance current_user (Double.view c)) as [bal|];
      [|reflexivity].
    cbv zeta. destruct (Double.add_amount a bal); reflexivity.
  - rewrite double_withdraw_money_eq.
    destruct (Double.lookup_balance current_user (Double.view c))
      as [[b|]|]; try reflexivity.
    destruct (PrimFloat.ltb b a); reflexivity.
Qed.





(** X25.  The store can change without any dialog.  On the deposit screen,
    for an existing account, an amount that passes the check [amount <= 0]
    and whose SQL sum with the balance is [NULL] (a NaN, which is what
    [float] makes of the text "nan"; an infinity added to the opposite
    infinity; a balance that is [NULL] already) wipes the balance:
    [deposit_money] stores [NULL], the transaction it tries to record
    violates [NOT NULL] and is dropped without notice, the change is
    committed, and the form shows nothing. *)
Theorem double_deposit_can_store_null (c : Double.connection)
    (current_user : Z) (bal : option PrimFloat.float) (a : PrimFloat.float)
    (now : Z) :
  Double.lookup_balance current_user (Double.view c) = Some bal ->
  PrimFloat.leb a 0%float = false ->
  Double.add_amount a bal = None ->
  fst (Double.process_transaction "Deposit" current_user (Some a) now c)
    = Return None /\
  Double.lookup_balance current_user
    (Double.view
       (snd (Double.process_transaction "Deposit" current_user (Some a) now c)))
    = Some None /\
  Double.transactions
    (Double.view
       (snd (Double.process_transaction "Deposit" current_user (Some a) now c)))
    = Double.transactions (Double.view c) /\
  Double.disk
    (snd (Double.process_transaction "Deposit" current_user (Some a) now c))
  = Double.view
      (snd (Double.process_transaction "Deposit" current_user (Some a) now c)).
Proof.
  intros Hb Ha Hnull.
  pose proof (double_process_transaction_eq "Deposit" current_user a now c Ha)
    as Heq.
  change (String.eqb "Deposit" "Deposit") with true in Heq. cbv iota in Heq.
  rewrite Hb, Hnull in Heq. cbn [option_map] in Heq.
  rewrite Heq. cbn [fst snd].
  rewrite double_deposit_money_eq, Hb. cbv zeta. rewrite Hnull.
  assert (Hsame : forall d : Double.database,
            match Double.to_real a, @None Double.double with
            | Some a', Some nb =>
                Double.db_insert_transaction current_user "Deposit" a' nb now d
            | _, _ => d
            end = d).
  { intros d. destruct (Double.to_real a); reflexivity. }
  rewrite Hsame. cbn [snd Double.committed Double.view Double.disk].
  split; [reflexivity|]. split; [|split; reflexivity].
  rewrite double_lookup_update, Hb. cbn [option_map]. rewrite Hnull.
  reflexivity.
Qed.

Lemma double_deposit_can_store_null_witness :
  Double.lookup_balance 1 (Double.view (Double.opened_with 100%float))
    = Some (Some 100%float) /\
  PrimFloat.leb PrimFloat.nan 0%float = false /\
  Double.add_amount PrimFloat.nan (Some 100%float) = None /\
  fst (Double.process_transaction "Deposit" 1 (Some PrimFloat.nan) 11
         (Double.opened_with 100%float))
  = Return None /\
  Double.lookup_balance 1
    (Double.view
       (snd (Double.process_transaction "Deposit" 1 (Some PrimFloat.nan) 11
               (Double.opened_with 100%float))))
  = Some None.
Proof.
  assert (Hb : Double.lookup_balance 1
                 (Double.view (Double.opened_with 100%float))
               = Some (Some 100%float)) by reflexivity.
  assert (Ha : PrimFloat.leb PrimFloat.nan 0%float = false) by reflexivity.
  assert (Hn : Double.add_amount PrimFloat.nan (Some 100%float) = None)
    by reflexivity.
  repeat (split; [assumption|]).
  pose proof (double_deposit_can_store_null (Double.opened_with 100%float) 1
                (Some 100%float) PrimFloat.nan 11 Hb Ha Hn) as H.
  split; [exact (proj1 H) | exact (proj1 (proj2 H))].
Defined.

(** ** Signs of sums and differences of doubles *)

Lemma digits2_pos_bounds (m : positive) :
  2 ^ (Zpos (SpecFloat.digits2_pos m) - 1) <= Zpos m
  < 2 ^ Zpos (SpecFloat.digits2_pos m).
Proof.
  induction m as [p IH|p IH|]; cbn [SpecFloat.digits2_pos].
  - rewrite Pos2Z.inj_succ, Z.pow_succ_r by lia.
    replace (Z.succ (Zpos (SpecFloat.digits2_pos p)) - 1)
      with (Z.succ (Zpos (SpecFloat.digits2_pos p) - 1)) by lia.
    rewrite Z.pow_succ_r by lia. lia.
  - rewrite Pos2Z.inj_succ, Z.pow_succ_r by lia.
    replace (Z.succ (Zpos (SpecFloat.digits2_pos p)) - 1)
      with (Z.succ (Zpos (SpecFloat.digits2_pos p) - 1)) by lia.
    rewrite Z.pow_succ_r by lia. lia.
  - simpl. lia.
Qed.

Lemma iter_pos_invariant {A : Type} (P : A -> Prop) (f : A -> A) :
  (forall x, P x -> P (f x)) ->
  forall (n : positive) (x : A), P x -> P (SpecFloat.iter_pos f n x).
Proof.
  intros Hf. induction n as [n IH|n IH|]; intros x Hx; simpl; auto.
Qed.

Lemma shr_1_non_negative (mrs : SpecFloat.shr_record) :
  0 <= SpecFloat.shr_m mrs -> 0 <= SpecFloat.shr_m (SpecFloat.shr_1 mrs).
Proof.
  destruct mrs as [m r s]. simpl.
  destruct m as [|[p|p|]|[p|p|]]; simpl; lia.
Qed.

Lemma shr_fexp_non_negative (m e : Z) (l : SpecFloat.location) :
  0 <= m ->
  0 <= SpecFloat.shr_m (fst (SpecFloat.shr_fexp FloatOps.prec FloatOps.emax m e l)).
Proof.
  intros Hm. unfold SpecFloat.shr_fexp, SpecFloat.shr.
  assert (H0 : 0 <= SpecFloat.shr_m (SpecFloat.shr_record_of_loc m l))
    by (destruct l as [|[| |]]; exact Hm).
  destruct (SpecFloat.fexp FloatOps.prec FloatOps.emax
              (SpecFloat.Zdigits2 m + e) - e) as [|p|p];
    cbn [fst]; try exact H0.
  apply (iter_pos_invariant (fun r => 0 <= SpecFloat.shr_m r));
    [exact shr_1_non_negative | exact H0].
Qed.

Lemma round_nearest_even_non_negative (m : Z) (l : SpecFloat.location) :
  0 <= m -> 0 <= SpecFloat.round_nearest_even m l.
Proof.
  intros Hm. unfold SpecFloat.round_nearest_even.
  destruct l as [|[| |]]; try destruct (Z.even m); lia.
Qed.

Lemma binary_round_aux_sign (s : bool) (m e : Z) (l : SpecFloat.location) :
  0 <= m ->
  has_sign s (SpecFloat.binary_round_aux FloatOps.prec FloatOps.emax s m e l).
Proof.
  intros Hm. unfold SpecFloat.binary_round_aux.
  pose proof (shr_fexp_non_negative m e l Hm) as H1.
  destruct (SpecFloat.shr_fexp FloatOps.prec FloatOps.emax m e l)
    as [mrs' e'].
  cbn [fst] in H1.
  pose proof (shr_fexp_non_negative _ e' SpecFloat.loc_Exact
                (round_nearest_even_non_negative _
                   (SpecFloat.loc_of_shr_record mrs') H1)) as H2.
  destruct (SpecFloat.shr_fexp FloatOps.prec FloatOps.emax
              (SpecFloat.round_nearest_even (SpecFloat.shr_m mrs')
                 (SpecFloat.loc_of_shr_record mrs')) e' SpecFloat.loc_Exact)
    as [mrs'' e''].
  cbn [fst] in H2.
  destruct (SpecFloat.shr_m mrs'') as [|p|p]; simpl.
  - reflexivity.
  - match goal with |- context [if ?b then _ else _] => destruct b end;
      reflexivity.
  - lia.
Qed.

Lemma binary_round_sign (s : bool) (m : positive) (e : Z) :
  has_sign s (SpecFloat.binary_round FloatOps.prec FloatOps.emax s m e).
Proof.
  unfold SpecFloat.binary_round.
  destruct (SpecFloat.shl_align m e
              (SpecFloat.fexp FloatOps.prec FloatOps.emax
                 (Zpos (SpecFloat.digits2_pos m) + e))) as [mz ez].
  apply binary_round_aux_sign. lia.
Qed.

Lemma binary_normalize_non_negative (m e : Z) :
  0 <= m ->
  has_sign false
    (SpecFloat.binary_normalize FloatOps.prec FloatOps.emax m e false).
Proof.
  intros Hm. destruct m as [|p|p]; simpl.
  - reflexivity.
  - apply binary_round_sign.
  - lia.
Qed.

Lemma iter_xO_value (d m : positive) :
  Zpos (Pos.iter xO m d) = Zpos m * 2 ^ Zpos d.
Proof.
  revert m. induction d as [|d IH] using Pos.peano_ind; intros m.
  - simpl. lia.
  - rewrite Pos.iter_succ, Pos2Z.inj_succ, Z.pow_succ_r by lia.
    rewrite Pos2Z.inj_xO, IH. lia.
Qed.

Lemma shl_align_value (m : positive) (e e' : Z) :
  e' <= e ->
  Zpos (fst (SpecFloat.shl_align m e e')) = Zpos m * 2 ^ (e - e').
Proof.
  intros He. unfold SpecFloat.shl_align.
  destruct (e' - e) as [|d|d] eqn:Hd.
  - replace (e - e') with 0 by lia. simpl. lia.
  - lia.
  - cbn [fst]. rewrite iter_xO_value.
    replace (e - e') with (Zpos d) by lia. reflexivity.
Qed.

(** In a valid double the mantissa has at most 53 bits, and exactly 53
    above the least exponent; no exponent is below the least. *)
Lemma bounded_mantissa (m : positive) (e : Z) :
  SpecFloat.bounded FloatOps.prec FloatOps.emax m e = true ->
  -1074 <= e /\ Zpos m < 2 ^ 53 /\ (-1074 < e -> 2 ^ 52 <= Zpos m).
Proof.
  unfold SpecFloat.bounded, SpecFloat.canonical_mantissa, SpecFloat.fexp,
    SpecFloat.emin.
  intros H. apply andb_true_iff in H. destruct H as [H _].
  apply Z.eqb_eq in H.
  change FloatOps.prec with 53 in H. change FloatOps.emax with 1024 in H.
  change (3 - 1024 - 53) with (-1074) in H.
  pose proof (digits2_pos_bounds m) as [Hlo Hhi].
  set (d := Zpos (SpecFloat.digits2_pos m)) in *.
  assert (Hd : 0 < d) by (unfold d; lia).
  split; [lia|]. split.
  - assert (d <= 53) by lia.
    apply Z.lt_le_trans with (2 ^ d); [exact Hhi|].
    apply Z.pow_le_mono_r; lia.
  - intros He. assert (d = 53) by lia.
    replace 52 with (d - 1) by lia. exact Hlo.
Qed.

Lemma has_sign_non_negative (x : SpecFloat.spec_float) :
  has_sign false x -> SFnon_negative x.
Proof. destruct x; simpl; auto. Qed.

Lemma SFadd_non_negative (x y : SpecFloat.spec_float) :
  SFnon_negative x -> SFpositive y ->
  SFnon_negative (FloatAxioms.SF64add x y).
Proof.
  unfold FloatAxioms.SF64add.
  destruct x as [sx|sx| |sx mx ex], y as [sy|sy| |sy my ey]; simpl;
    intros Hx Hy; subst; try contradiction; try reflexivity.
  apply has_sign_non_negative, binary_normalize_non_negative. simpl. lia.
Qed.

(** [x - y] when [y] is finite and [x < y] does not hold. *)
Lemma SFsub_non_negative (x : SpecFloat.spec_float) (my : positive) (ey : Z) :
  SpecFloat.valid_binary FloatOps.prec FloatOps.emax x = true ->
  SpecFloat.bounded FloatOps.prec FloatOps.emax my ey = true ->
  SFnon_negative x ->
  SpecFloat.SFltb x (SpecFloat.S754_finite false my ey) = false ->
  SFnon_negative (FloatAxioms.SF64sub x (SpecFloat.S754_finite false my ey)).
Proof.
  unfold FloatAxioms.SF64sub, SpecFloat.SFltb.
  destruct x as [sx|sx| |sx mx ex]; simpl; intros Vx Vy Hx Hlt; subst;
    try contradiction; try reflexivity; try discriminate.
  apply has_sign_non_negative, binary_normalize_non_negative.
  cbn [SpecFloat.cond_Zopp].
  change (IntDef.Z.min ex ey) with (Z.min ex ey).
  destruct (bounded_mantissa _ _ Vx) as [Hex [Hmx Hnx]].
  destruct (bounded_mantissa _ _ Vy) as [Hey [Hmy Hny]].
  destruct (Z.compare_spec ex ey) as [He|He|He]; try discriminate.
  - subst ey. rewrite Z.min_id.
    rewrite !shl_align_value by lia. rewrite Z.sub_diag.
    change (2 ^ 0) with 1.
    change (PosDef.Pos.compare_cont Eq mx my) with (Pos.compare mx my) in Hlt.
    destruct (Pos.compare_spec mx my); try discriminate; lia.
  - rewrite Z.min_r by lia.
    rewrite !shl_align_value by lia. rewrite Z.sub_diag.
    assert (H2 : 2 ^ 1 <= 2 ^ (ex - ey)) by (apply Z.pow_le_mono_r; lia).
    assert (H52 : 2 ^ 52 <= Zpos mx) by (apply Hnx; lia).
    change (2 ^ 1) with 2 in H2. change (2 ^ 0) with 1.
    change (2 ^ 53) with (2 * 2 ^ 52) in Hmy.
    nia.
Qed.

(** The same on doubles. *)
Lemma leb_zero_spec (x : PrimFloat.float) :
  PrimFloat.leb PrimFloat.zero x = true <-> SFnon_negative (FloatOps.Prim2SF x).
Proof.
  rewrite FloatAxioms.leb_spec. unfold SpecFloat.SFleb.
  change (FloatOps.Prim2SF PrimFloat.zero) with (SpecFloat.S754_zero false).
  destruct (FloatOps.Prim2SF x) as [s|s| |s m e]; simpl;
    try (destruct s); simpl; split; intros H;
    try reflexivity; try discriminate; try contradiction; exact I.
Qed.

Lemma ltb_zero_spec (x : PrimFloat.float) :
  PrimFloat.ltb PrimFloat.zero x = true <-> SFpositive (FloatOps.Prim2SF x).
Proof.
  rewrite FloatAxioms.ltb_spec. unfold SpecFloat.SFltb.
  change (FloatOps.Prim2SF PrimFloat.zero) with (SpecFloat.S754_zero false).
  destruct (FloatOps.Prim2SF x) as [s|s| |s m e]; simpl;
    try (destruct s); simpl; split; intros H;
    try reflexivity; try discriminate; try contradiction.
Qed.

Lemma is_nan_spec (x : PrimFloat.float) :
  PrimFloat.is_nan x = false <-> FloatOps.Prim2SF x <> SpecFloat.S754_nan.
Proof.
  unfold PrimFloat.is_nan. rewrite FloatAxioms.eqb_spec.
  unfold SpecFloat.SFeqb.
  destruct (FloatOps.Prim2SF x) as [s|s| |s m e] eqn:Hx.
  - simpl. split; [discriminate | reflexivity].
  - rewrite SFcompare_refl by discriminate. simpl.
    split; [discriminate | reflexivity].
  - simpl. split; [discriminate | intros H; contradiction H; reflexivity].
  - rewrite SFcompare_refl by discriminate. simpl.
    split; [discriminate | reflexivity].
Qed.

Lemma is_finite_spec (a : PrimFloat.float) :
  PrimFloat.is_finite a = true ->
  match FloatOps.Prim2SF a with
  | SpecFloat.S754_zero _ | SpecFloat.S754_finite _ _ _ => True
  | _ => False
  end.
Proof.
  unfold PrimFloat.is_finite, PrimFloat.is_infinity.
  intros H. apply negb_true_iff, orb_false_iff in H. destruct H as [Hn Hi].
  apply is_nan_spec in Hn.
  rewrite FloatAxioms.eqb_spec, FloatAxioms.abs_spec in Hi.
  change (FloatOps.Prim2SF PrimFloat.infinity)
    with (SpecFloat.S754_infinity false) in Hi.
  destruct (FloatOps.Prim2SF a) as [s|s| |s m e]; simpl in *;
    try discriminate; try exact I; congruence.
Qed.

Lemma leb_zero_number (x : PrimFloat.float) :
  PrimFloat.leb PrimFloat.zero x = true -> PrimFloat.is_nan x = false.
Proof.
  intros H. apply leb_zero_spec in H. apply is_nan_spec.
  intros Hn. rewrite Hn in H. exact H.
Qed.

(** A number that is not below zero is at least zero, and one that is not
    at most zero is above it. *)
Lemma not_ltb_zero (x : PrimFloat.float) :
  PrimFloat.is_nan x = false -> PrimFloat.ltb x PrimFloat.zero = false ->
  PrimFloat.leb PrimFloat.zero x = true.
Proof.
  intros Hn Hlt. apply leb_zero_spec. apply is_nan_spec in Hn.
  rewrite FloatAxioms.ltb_spec in Hlt. unfold SpecFloat.SFltb in Hlt.
  change (FloatOps.Prim2SF PrimFloat.zero) with (SpecFloat.S754_zero false)
    in Hlt.
  destruct (FloatOps.Prim2SF x) as [s|s| |s m e]; simpl in *;
    try exact I; try (destruct s; [discriminate | reflexivity]).
  contradiction Hn; reflexivity.
Qed.

Lemma not_leb_zero (x : PrimFloat.float) :
  PrimFloat.is_nan x = false -> PrimFloat.leb x PrimFloat.zero = false ->
  PrimFloat.ltb PrimFloat.zero x = true.
Proof.
  intros Hn Hle. apply ltb_zero_spec. apply is_nan_spec in Hn.
  rewrite FloatAxioms.leb_spec in Hle. unfold SpecFloat.SFleb in Hle.
  change (FloatOps.Prim2SF PrimFloat.zero) with (SpecFloat.S754_zero false)
    in Hle.
  destruct (FloatOps.Prim2SF x) as [s|s| |s m e]; simpl in *;
    try discriminate; try (destruct s; [discriminate | reflexivity]).
  contradiction Hn; reflexivity.
Qed.

Lemma is_finite_number (x : PrimFloat.float) :
  PrimFloat.is_finite x = true -> PrimFloat.is_nan x = false.
Proof.
  unfold PrimFloat.is_finite. intros H.
  apply negb_true_iff, orb_false_iff in H. exact (proj1 H).
Qed.

(** A sum of a balance that is not negative and a positive amount is not
    negative, and is a number. *)
Lemma add_non_negative (b a : PrimFloat.float) :
  PrimFloat.leb PrimFloat.zero b = true ->
  PrimFloat.ltb PrimFloat.zero a = true ->
  PrimFloat.leb PrimFloat.zero (PrimFloat.add b a) = true.
Proof.
  intros Hb Ha. apply leb_zero_spec. rewrite FloatAxioms.add_spec.
  apply SFadd_non_negative; [apply leb_zero_spec, Hb | apply ltb_zero_spec, Ha].
Qed.

(** So is the difference, when the amount is finite and the balance is not
    below it: rounding does not cross zero. *)
Lemma sub_non_negative (b a : PrimFloat.float) :
  PrimFloat.leb PrimFloat.zero b = true ->
  PrimFloat.ltb PrimFloat.zero a = true ->
  PrimFloat.is_finite a = true ->
  PrimFloat.ltb b a = false ->
  PrimFloat.leb PrimFloat.zero (PrimFloat.sub b a) = true.
Proof.
  intros Hb Ha Hf Hlt. apply leb_zero_spec. rewrite FloatAxioms.sub_spec.
  rewrite FloatAxioms.ltb_spec in Hlt.
  apply ltb_zero_spec in Ha.
  pose proof (is_finite_spec a Hf) as Hfin.
  pose proof (FloatAxioms.Prim2SF_valid a) as Va.
  destruct (FloatOps.Prim2SF a) as [s|s| |s m e]; try contradiction.
  simpl in Ha. subst s.
  apply SFsub_non_negative;
    [apply FloatAxioms.Prim2SF_valid | exact Va
    | apply leb_zero_spec, Hb | exact Hlt].
Qed.

(** ** The ledger on doubles keeps its balances *)

Lemma double_lookup_In (acct : Z) (d : Double.database)
    (bal : option PrimFloat.float) :
  Double.lookup_balance acct d = Some bal ->
  exists u, In u (Double.users d) /\ Double.account_number u = acct /\
            Double.balance u = bal.
Proof.
  unfold Double.lookup_balance. intros H.
  destruct (find _ (Double.users d)) as [u|] eqn:Hf; [|discriminate].
  apply find_some in Hf. destruct Hf as [Hu He]. apply Z.eqb_eq in He.
  simpl in H. injection H as H.
  exists u. repeat split; assumption.
Qed.

Lemma double_lookup_exists (acct : Z) (d : Double.database) :
  Double.lookup_balance acct d <> None
  <-> In acct (map Double.account_number (Double.users d)).
Proof.
  split.
  - intros Hl. destruct (Double.lookup_balance acct d) as [b|] eqn:Hb;
      [|contradiction].
    destruct (double_lookup_In _ _ _ Hb) as [u [Hu [He _]]].
    rewrite <- He. apply in_map. exact Hu.
  - intros Hin Hl. apply in_map_iff in Hin. destruct Hin as [u [He Hu]].
    unfold Double.lookup_balance in Hl.
    destruct (find _ (Double.users d)) as [x|] eqn:Hf; [discriminate|].
    pose proof (find_none _ _ Hf u Hu) as Hn. simpl in Hn.
    apply Z.eqb_neq in Hn. contradiction.
Qed.

Lemma double_lookup_unique (d : Double.database) (u : Double.user_row) :
  NoDup (map Double.account_number (Double.users d)) ->
  In u (Double.users d) ->
  Double.lookup_balance (Double.account_number u) d
  = Some (Double.balance u).
Proof.
  unfold Double.lookup_balance.
  induction (Double.users d) as [|x l IH]; simpl; intros Hn Hu;
    [contradiction|].
  inversion Hn as [|? ? Hx Hl]; subst.
  destruct Hu as [->|Hu].
  - rewrite Z.eqb_refl. reflexivity.
  - destruct (Double.account_number x =? Double.account_number u) eqn:He.
    + apply Z.eqb_eq in He. exfalso. apply Hx. rewrite He.
      apply in_map. exact Hu.
    + apply IH; assumption.
Qed.

(** An account of a sound table holds a number that is not negative. *)
Lemma double_balance_number (d : Double.database) (acct : Z) :
  Double.db_ok d -> Double.lookup_balance acct d <> None ->
  exists b, Double.lookup_balance acct d = Some (Some b) /\
            PrimFloat.leb PrimFloat.zero b = true.
Proof.
  intros Hd Hl.
  destruct (Double.lookup_balance acct d) as [bal|] eqn:Hb; [|contradiction].
  destruct (double_lookup_In _ _ _ Hb) as [u [Hu [_ Hbal]]].
  destruct (Double.ok_balances d Hd u Hu) as [b [Hub Hpos]].
  exists b. split; [congruence | exact Hpos].
Qed.

Lemma double_update_accounts (f : option PrimFloat.float -> option PrimFloat.float)
    (acct : Z) (d : Double.database) :
  map Double.account_number (Double.users (Double.db_update_balance f acct d))
  = map Double.account_number (Double.users d).
Proof.
  unfold Double.db_update_balance; cbn [Double.users].
  rewrite map_map. apply map_ext. intros u.
  apply double_set_balance_account.
Qed.

Lemma db_ok_update (f : option PrimFloat.float -> option PrimFloat.float)
    (acct : Z) (d : Double.database) :
  Double.db_ok d ->
  (forall b, Double.lookup_balance acct d = Some (Some b) ->
             PrimFloat.leb PrimFloat.zero b = true ->
             exists b', f (Some b) = Some b' /\
                        PrimFloat.leb PrimFloat.zero b' = true) ->
  Double.db_ok (Double.db_update_balance f acct d).
Proof.
  intros [Hn Hi Hb] Hf. split.
  - rewrite double_update_accounts. exact Hn.
  - intros u' Hu'. cbn [Double.db_update_balance Double.users] in Hu'.
    apply in_map_iff in Hu'. destruct Hu' as [u [<- Hu]].
    rewrite double_set_balance_account. exact (Hi u Hu).
  - intros u' Hu'. cbn [Double.db_update_balance Double.users] in Hu'.
    apply in_map_iff in Hu'. destruct Hu' as [u [<- Hu]].
    destruct (Hb u Hu) as [b [Hub Hpos]].
    unfold Double.set_balance.
    destruct (Double.account_number u =? acct) eqn:He.
    + apply Z.eqb_eq in He. cbn [Double.balance]. rewrite Hub.
      apply Hf; [|exact Hpos].
      rewrite <- He, (double_lookup_unique d u Hn Hu), Hub. reflexivity.
    + exists b. split; assumption.
Qed.

Lemma db_ok_insert_transaction (acct : Z) (trans_type : string)
    (a b : PrimFloat.float) (now : Z) (d : Double.database) :
  Double.db_ok d ->
  Double.db_ok (Double.db_insert_transaction acct trans_type a b now d).
Proof.
  intros [Hn Hi Hb]. split; assumption.
Qed.

Lemma db_ok_insert_user (fn em ph pw : string) (b : PrimFloat.float)
    (now : Z) (d : Double.database) :
  Double.db_ok d -> PrimFloat.leb PrimFloat.zero b = true ->
  Double.db_ok (Double.db_insert_user fn em ph pw (Some b) now d).
Proof.
  intros [Hn Hi Hb] Hpos. split.
  - cbn [Double.db_insert_user Double.users]. rewrite map_app.
    apply NoDup_app; [exact Hn | repeat constructor; intros [] |].
    intros a Ha [<-|[]]. apply in_map_iff in Ha.
    destruct Ha as [u [He Hu]]. pose proof (Hi u Hu) as Hle.
    cbn [Double.account_number] in He. lia.
  - intros u Hu. cbn [Double.db_insert_user Double.users Double.users_seq] in *.
    apply in_app_or in Hu. destruct Hu as [Hu|[<-|[]]].
    + pose proof (Hi u Hu). lia.
    + cbn [Double.account_number]. lia.
  - intros u Hu. cbn [Double.db_insert_user Double.users] in Hu.
    apply in_app_or in Hu. destruct Hu as [Hu|[<-|[]]].
    + exact (Hb u Hu).
    + exists b. split; [reflexivity | exact Hpos].
Qed.

Lemma db_ok_empty : Double.db_ok Double.empty_database.
Proof.
  split; simpl; [constructor | intros u [] | intros u []].
Qed.

(** [register_user] with a deposit that is a number. *)
Lemma double_register_user_eq (fn em ph pw : string) (dep : PrimFloat.float)
    (t1 t2 : Z) (c : Double.connection) :
  PrimFloat.is_nan dep = false ->
  Double.register_user fn em ph pw dep t1 t2 c =
  if Double.email_taken em (Double.view c) then (Return None, c)
  else
    let d1 := Double.db_insert_user fn em ph pw (Some dep) t1
                (Double.view c) in
    (Return (Some (Double.users_seq (Double.view c) + 1)),
     {| Double.disk := d1;
        Double.view :=
          if PrimFloat.ltb PrimFloat.zero dep
          then Double.db_insert_transaction
                 (Double.users_seq (Double.view c) + 1) "Deposit" dep dep t2 d1
          else d1 |}).
Proof.
  intros Hn.
  unfold Double.register_user, Double.try_except, Double.bind,
    Double.insert_user.
  destruct (Double.email_taken em (Double.view c)); [reflexivity|].
  unfold Double.write, Double.commit, Double.ret. cbn [Double.view Double.disk].
  rewrite (to_real_number _ Hn).
  destruct (PrimFloat.ltb PrimFloat.zero dep); [|reflexivity].
  unfold Double.record_transaction, Double.try_except,
    Double.insert_transaction, Double.bind_value.
  rewrite (to_real_number _ Hn). reflexivity.
Qed.

Lemma ledger_ok_committed (d : Double.database) :
  Double.db_ok d -> Double.ledger_ok (Double.committed d).
Proof. intros Hd. split; exact Hd. Qed.

Lemma ledger_ok_register (fn em ph pw : string) (dep : PrimFloat.float)
    (t1 t2 : Z) (c : Double.connection) :
  Double.ledger_ok c ->
  PrimFloat.leb PrimFloat.zero dep = true ->
  Double.ledger_ok (snd (Double.register_user fn em ph pw dep t1 t2 c)).
Proof.
  intros [Hv Hd] Hpos.
  rewrite (double_register_user_eq _ _ _ _ _ _ _ _ (leb_zero_number _ Hpos)).
  destruct (Double.email_taken em (Double.view c)); [split; assumption|].
  cbv zeta. cbn [snd].
  pose proof (db_ok_insert_user fn em ph pw dep t1 _ Hv Hpos) as H1.
  split; cbn [Double.view Double.disk]; [|exact H1].
  destruct (PrimFloat.ltb PrimFloat.zero dep);
    [apply db_ok_insert_transaction|]; exact H1.
Qed.

Lemma add_amount_number (a b : PrimFloat.float) :
  PrimFloat.leb PrimFloat.zero b = true ->
  PrimFloat.ltb PrimFloat.zero a = true ->
  Double.add_amount a (Some b) = Some (PrimFloat.add b a) /\
  PrimFloat.leb PrimFloat.zero (PrimFloat.add b a) = true.
Proof.
  intros Hb Ha. pose proof (add_non_negative b a Hb Ha) as Hs.
  split; [|exact Hs].
  unfold Double.add_amount, Double.real_add.
  rewrite (to_real_number a (ltb_number _ _ Ha)).
  apply to_real_number, leb_zero_number, Hs.
Qed.

Lemma subtract_amount_number (a b : PrimFloat.float) :
  PrimFloat.leb PrimFloat.zero b = true ->
  PrimFloat.ltb PrimFloat.zero a = true ->
  PrimFloat.is_finite a = true ->
  PrimFloat.ltb b a = false ->
  Double.subtract_amount a (Some b) = Some (PrimFloat.sub b a) /\
  PrimFloat.leb PrimFloat.zero (PrimFloat.sub b a) = true.
Proof.
  intros Hb Ha Hf Hlt. pose proof (sub_non_negative b a Hb Ha Hf Hlt) as Hs.
  split; [|exact Hs].
  unfold Double.subtract_amount, Double.real_sub.
  rewrite (to_real_number a (ltb_number _ _ Ha)).
  apply to_real_number, leb_zero_number, Hs.
Qed.

Lemma ledger_ok_deposit (acct : Z) (a : PrimFloat.float) (now : Z)
    (c : Double.connection) :
  Double.ledger_ok c ->
  PrimFloat.ltb PrimFloat.zero a = true ->
  Double.ledger_ok (snd (Double.deposit_money acct a now c)).
Proof.
  intros [Hv Hd] Ha. rewrite double_deposit_money_eq.
  destruct (Double.lookup_balance acct (Double.view c)) as [bal|];
    [|split; assumption].
  cbv zeta. cbn [snd]. apply ledger_ok_committed.
  assert (H1 : Double.db_ok
                 (Double.db_update_balance (Double.add_amount a) acct
                    (Double.view c))).
  { apply db_ok_update; [exact Hv|]. intros b _ Hb.
    exists (PrimFloat.add b a). apply add_amount_number; assumption. }
  destruct (Double.to_real a); [|exact H1].
  destruct (Double.add_amount a bal); [|exact H1].
  apply db_ok_insert_transaction. exact H1.
Qed.

Lemma ledger_ok_withdraw (acct : Z) (a : PrimFloat.float) (now : Z)
    (c : Double.connection) :
  Double.ledger_ok c ->
  PrimFloat.ltb PrimFloat.zero a = true ->
  PrimFloat.is_finite a = true ->
  Double.ledger_ok (snd (Double.withdraw_money acct a now c)).
Proof.
  intros [Hv Hd] Ha Hf. rewrite double_withdraw_money_eq.
  destruct (Double.lookup_balance acct (Double.view c)) as [[b|]|] eqn:Hl;
    try (split; assumption).
  destruct (PrimFloat.ltb b a) eqn:Hlt; [split; assumption|].
  cbv zeta. cbn [snd]. apply ledger_ok_committed.
  assert (H1 : Double.db_ok
                 (Double.db_update_balance (Double.subtract_amount a) acct
                    (Double.view c))).
  { apply db_ok_update; [exact Hv|]. intros b' Hl' Hb.
    assert (b' = b) by congruence. subst b'.
    exists (PrimFloat.sub b a). apply subtract_amount_number; assumption. }
  destruct (Double.to_real a); [|exact H1].
  destruct (Double.to_real (PrimFloat.sub b a)); [|exact H1].
  apply db_ok_insert_transaction. exact H1.
Qed.

Lemma ledger_ok_run (c : Double.connection) (o : Double.operation) :
  Double.ledger_ok c -> Double.valid_operation o = true ->
  Double.ledger_ok (Double.run c o).
Proof.
  intros Hc Hv. destruct o as [fn em ph pw dep t1 t2|acct a now|acct a now|];
    cbn [Double.run Double.valid_operation] in *.
  - apply andb_true_iff in Hv. apply ledger_ok_register; tauto.
  - apply andb_true_iff in Hv. apply ledger_ok_deposit; tauto.
  - apply andb_true_iff in Hv. apply ledger_ok_withdraw; tauto.
  - split; exact (proj2 Hc).
Qed.

Lemma ledger_ok_run_all (ops : list Double.operation) :
  forallb Double.valid_operation ops = true ->
  Double.ledger_ok (Double.run_all ops).
Proof.
  unfold Double.run_all.
  assert (H0 : Double.ledger_ok (Double.setup_database Double.empty_database))
    by (split; exact db_ok_empty).
  revert H0. generalize (Double.setup_database Double.empty_database).
  induction ops as [|o ops IH]; intros c Hc Hv; simpl in *; [exact Hc|].
  apply andb_true_iff in Hv. destruct Hv as [Ho Hv].
  apply IH; [apply ledger_ok_run; assumption | exact Hv].
Qed.

(** The accounts of the session stay. *)
Lemma double_deposit_accounts (acct : Z) (a : PrimFloat.float) (now : Z)
    (c : Double.connection) :
  map Double.account_number
    (Double.users (Double.view (snd (Double.deposit_money acct a now c))))
  = map Double.account_number (Double.users (Double.view c)).
Proof.
  rewrite double_deposit_money_eq.
  destruct (Double.lookup_balance acct (Double.view c)) as [bal|];
    [|reflexivity].
  cbv zeta. cbn [snd Double.committed Double.view].
  destruct (Double.to_real a); [|apply double_update_accounts].
  destruct (Double.add_amount a bal); apply double_update_accounts.
Qed.

Lemma double_withdraw_accounts (acct : Z) (a : PrimFloat.float) (now : Z)
    (c : Double.connection) :
  map Double.account_number
    (Double.users (Double.view (snd (Double.withdraw_money acct a now c))))
  = map Double.account_number (Double.users (Double.view c)).
Proof.
  rewrite double_withdraw_money_eq.
  destruct (Double.lookup_balance acct (Double.view c)) as [[b|]|];
    try reflexivity.
  destruct (PrimFloat.ltb b a); [reflexivity|].
  cbv zeta. cbn [snd Double.committed Double.view].
  destruct (Double.to_real a); [|apply double_update_accounts].
  destruct (Double.to_real (PrimFloat.sub b a));
    apply double_update_accounts.
Qed.

Lemma double_register_accounts (fn em ph pw : string) (dep : PrimFloat.float)
    (t1 t2 : Z) (c : Double.connection) (acct : Z) :
  PrimFloat.is_nan dep = false ->
  In acct (map Double.account_number (Double.users (Double.view c))) ->
  In acct (map Double.account_number
             (Double.users
                (Double.view
                   (snd (Double.register_user fn em ph pw dep t1 t2 c))))).
Proof.
  intros Hn Hin. rewrite (double_register_user_eq _ _ _ _ _ _ _ _ Hn).
  destruct (Double.email_taken em (Double.view c)); [exact Hin|].
  cbv zeta. cbn [snd Double.view].
  destruct (PrimFloat.ltb PrimFloat.zero dep);
    cbn [Double.db_insert_transaction Double.db_insert_user Double.users];
    rewrite map_app; apply in_or_app; left; exact Hin.
Qed.

(** ** The window on doubles *)

Lemma double_get_balance_eq (acct : Z) (c : Double.connection) :
  Double.get_balance acct c =
  match Double.lookup_balance acct (Double.view c) with
  | Some b => (Return b, c)
  | None => (Raise TypeError, c)
  end.
Proof.
  unfold Double.get_balance, Double.try_except, Double.bind,
    Double.select_balance.
  destruct (Double.lookup_balance acct (Double.view c)); reflexivity.
Qed.

Lemma double_with_connection_same (g : Double.gui) :
  Double.with_connection (Double.bank_system g) g = g.
Proof. destruct g; reflexivity. Qed.

Lemma double_show_dashboard_session (g : Double.gui) (acct : Z) (n : string)
    (bal : option PrimFloat.float) (b : PrimFloat.float) :
  Double.current_user g = Some (acct, n, bal) ->
  Double.lookup_balance acct (Double.view (Double.bank_system g))
  = Some (Some b) ->
  Double.show_dashboard g = (Return tt, Double.show DashboardScreen g).
Proof.
  intros Hcu Hl. unfold Double.show_dashboard.
  rewrite Hcu, double_get_balance_eq, Hl, double_with_connection_same.
  reflexivity.
Qed.

Lemma double_select_login_exists (em pw : string) (d : Double.database)
    (a : Z) (n : string) (b : option PrimFloat.float) :
  Double.select_login em pw d = Some (a, n, b) ->
  Double.lookup_balance a d <> None.
Proof.
  unfold Double.select_login. intros Hs.
  destruct (find (Double.credentials_match em pw) (Double.users d))
    as [u|] eqn:Hf; [|discriminate].
  apply find_some in Hf. destruct Hf as [Hu _].
  injection Hs as <- _ _.
  apply double_lookup_exists. apply in_map. exact Hu.
Qed.

Lemma double_step_ok_show (g : Double.gui) (s : screen)
    (d : option Double.gui_dialog) :
  Double.session_ok g ->
  match s with
  | LoginScreen | RegisterScreen => True
  | DashboardScreen | TransactionScreen _ | HistoryScreen =>
      Double.current_user g <> None
  | DashboardNavbar | DashboardBlank => False
  end ->
  Double.step_ok g (Return d, Double.show s g).
Proof.
  intros [H1 _] Hs. split; [exists d; reflexivity|].
  split; [|left; reflexivity]. split; [exact H1 | exact Hs].
Qed.

Lemma double_step_ok_stay (g : Double.gui) (d : option Double.gui_dialog) :
  Double.session_ok g -> Double.step_ok g (Return d, g).
Proof.
  intros Hg. split; [exists d; reflexivity|].
  split; [exact Hg | left; reflexivity].
Qed.

Lemma double_step_ok_login (g : Double.gui) (em pw : string) :
  Double.session_ok g -> Double.ledger_ok (Double.bank_system g) ->
  Double.shown g = LoginScreen ->
  Double.step_ok g (Double.login em pw g).
Proof.
  intros Hg Hl Hs. unfold Double.login.
  destruct (empty_text em || empty_text pw);
    [apply double_step_ok_stay; exact Hg|].
  unfold Double.login_user, Double.try_except. cbv beta.
  destruct (Double.select_login em pw (Double.view (Double.bank_system g)))
    as [[[a n] b]|] eqn:Hsel; cbv beta iota.
  - pose proof (double_select_login_exists _ _ _ _ _ _ Hsel) as Hex.
    destruct (double_balance_number _ a (proj1 Hl) Hex) as [x [Hx _]].
    erewrite double_show_dashboard_session; [|reflexivity | exact Hx].
    split; [exists None; reflexivity|]. split; [|left; reflexivity].
    split; cbn [snd Double.show Double.current_user Double.bank_system
                Double.shown].
    + intros acct name bal [= <- <- <-]. exact Hex.
    + discriminate.
  - rewrite double_with_connection_same. apply double_step_ok_stay. exact Hg.
Qed.

Lemma double_step_ok_register (g : Double.gui)
    (fn em ph pw dep_text : string) (dep : option PrimFloat.float)
    (t1 t2 : Z) :
  Double.session_ok g -> Double.shown g = RegisterScreen ->
  Double.finite_entry dep = true ->
  Double.step_ok g (Double.register fn em ph pw dep_text dep t1 t2 g).
Proof.
  intros Hg Hs Hfin. unfold Double.register.
  destruct (empty_text fn || empty_text em || empty_text ph || empty_text pw
            || empty_text dep_text); [apply double_step_ok_stay; exact Hg|].
  destruct dep as [dep|]; [|apply double_step_ok_stay; exact Hg].
  cbn [Double.finite_entry] in Hfin.
  pose proof (is_finite_number _ Hfin) as Hnum.
  destruct (PrimFloat.ltb dep PrimFloat.zero) eqn:Hneg;
    [apply double_step_ok_stay; exact Hg|].
  pose proof (not_ltb_zero _ Hnum Hneg) as Hdep.
  set (o := Double.Register fn em ph pw dep t1 t2).
  assert (Hv : Double.valid_operation o = true).
  { cbn [Double.valid_operation o]. rewrite Hfin, Hdep. reflexivity. }
  assert (Hrun : snd (Double.register_user fn em ph pw dep t1 t2
                        (Double.bank_system g))
                 = Double.run (Double.bank_system g) o) by reflexivity.
  assert (Hkeep : forall acct name bal,
            Double.current_user g = Some (acct, name, bal) ->
            Double.lookup_balance acct
              (Double.view
                 (snd (Double.register_user fn em ph pw dep t1 t2
                         (Double.bank_system g)))) <> None).
  { intros acct name bal Hcu. apply double_lookup_exists.
    apply double_register_accounts; [exact Hnum|].
    apply double_lookup_exists. exact (proj1 Hg acct name bal Hcu). }
  assert (Hret : exists r,
            fst (Double.register_user fn em ph pw dep t1 t2
                   (Double.bank_system g)) = Return r).
  { rewrite (double_register_user_eq _ _ _ _ _ _ _ _ Hnum).
    destruct (Double.email_taken em (Double.view (Double.bank_system g)));
      eexists; reflexivity. }
  destruct (Double.register_user fn em ph pw dep t1 t2 (Double.bank_system g))
    as [[account_number|e] c]; cbn [fst snd] in *.
  - destruct (truthy account_number).
    + split; [eexists; reflexivity|]. split.
      * split; [exact Hkeep | exact I].
      * right. exists o. split; [exact Hv | exact Hrun].
    + split; [eexists; reflexivity|]. split.
      * split; [exact Hkeep|].
        cbn [snd Double.with_connection Double.shown].
        rewrite Hs. exact I.
      * right. exists o. split; [exact Hv | exact Hrun].
  - destruct Hret as [r Hr]. discriminate.
Qed.

Lemma double_step_ok_dashboard (g : Double.gui) :
  Double.session_ok g -> Double.ledger_ok (Double.bank_system g) ->
  Double.current_user g <> None ->
  Double.step_ok g (Double.lift_unit (Double.show_dashboard g)).
Proof.
  intros Hg Hl Hcu.
  destruct (Double.current_user g) as [[[acct n] bal]|] eqn:Hc;
    [|contradiction].
  destruct (double_balance_number _ acct (proj1 Hl) (proj1 Hg acct n bal Hc))
    as [b [Hb _]].
  rewrite (double_show_dashboard_session g acct n bal b Hc Hb).
  cbn [Double.lift_unit]. apply double_step_ok_show; [exact Hg|].
  rewrite Hc. discriminate.
Qed.

Lemma double_step_ok_confirm (g : Double.gui) (trans_type : string)
    (entered : option PrimFloat.float) (now : Z) :
  Double.session_ok g -> Double.ledger_ok (Double.bank_system g) ->
  Double.current_user g <> None ->
  Double.shown g = TransactionScreen trans_type ->
  Double.finite_entry entered = true ->
  Double.step_ok g (Double.confirm trans_type entered now g).
Proof.
  intros Hg Hl Hcu Hs Hfin.
  destruct (Double.current_user g) as [[[acct n] bal]|] eqn:Hc;
    [|contradiction].
  pose proof (proj1 Hg acct n bal Hc) as Hex.
  destruct (double_balance_number _ acct (proj1 Hl) Hex) as [b [Hb Hpos]].
  unfold Double.confirm. rewrite Hc.
  assert (Hsuccess : forall (c : Double.connection) (d : Double.gui_dialog)
                            (o : Double.operation),
            Double.valid_operation o = true ->
            c = Double.run (Double.bank_system g) o ->
            map Double.account_number (Double.users (Double.view c))
            = map Double.account_number
                (Double.users (Double.view (Double.bank_system g))) ->
            Double.step_ok g
              match Double.show_dashboard (Double.with_connection c g) with
              | (Return _, g') => (Return (Some d), g')
              | (Raise e, g') => (Raise e, g')
              end).
  { intros c d o Hv Hc' Hids.
    assert (Hl' : Double.ledger_ok c)
      by (rewrite Hc'; apply ledger_ok_run; assumption).
    assert (Hex' : Double.lookup_balance acct (Double.view c) <> None).
    { apply double_lookup_exists. rewrite Hids.
      apply double_lookup_exists. exact Hex. }
    destruct (double_balance_number _ acct (proj1 Hl') Hex') as [b' [Hb' _]].
    rewrite (double_show_dashboard_session (Double.with_connection c g)
               acct n bal b' Hc Hb').
    split; [eexists; reflexivity|]. split.
    - split; cbn [snd Double.show Double.with_connection
                  Double.current_user Double.bank_system Double.shown].
      + intros a' n' b'' Heq. rewrite Hc in Heq.
        injection Heq as <- <- <-. exact Hex'.
      + rewrite Hc. discriminate.
    - right. exists o. split; [exact Hv | exact Hc']. }
  assert (Hquiet : forall d : option Double.dialog,
            Double.step_ok g
              (Return (option_map Double.messagebox d),
               Double.with_connection (Double.bank_system g) g)).
  { intros d. rewrite double_with_connection_same.
    apply double_step_ok_stay. exact Hg. }
  destruct entered as [a|]; [|apply (Hquiet (Some _))].
  cbn [Double.finite_entry] in Hfin.
  destruct (PrimFloat.leb a PrimFloat.zero) eqn:Hle.
  - unfold Double.process_transaction, Double.try_except, Double.float.
    unfold Double.bind at 1. unfold Double.ret at 1. rewrite Hle.
    apply (Hquiet (Some _)).
  - pose proof (not_leb_zero _ (is_finite_number _ Hfin) Hle) as Ha.
    rewrite (double_process_transaction_eq _ _ _ _ _ Hle), Hb.
    assert (Hv : PrimFloat.is_finite a && PrimFloat.ltb PrimFloat.zero a
                 = true) by (rewrite Hfin, Ha; reflexivity).
    destruct (String.eqb trans_type "Deposit"); cbv beta iota.
    + unfold Double.double in *.
      rewrite (proj1 (add_amount_number a b Hpos Ha)). cbn [option_map].
      apply (Hsuccess _ _ (Double.Deposit acct a now));
        [exact Hv | reflexivity | apply double_deposit_accounts].
    + destruct (PrimFloat.ltb b a); [apply (Hquiet (Some _))|].
      apply (Hsuccess _ _ (Double.Withdraw acct a now));
        [exact Hv | reflexivity | apply double_withdraw_accounts].
Qed.

Lemma double_step_ok_export (g : Double.gui) :
  Double.session_ok g -> Double.step_ok g (Double.export_to_pdf g).
Proof.
  intros Hg. unfold Double.export_to_pdf.
  destruct (Double.current_user g) as [[[acct n] b]|];
    [|apply double_step_ok_stay; exact Hg].
  unfold Double.get_transaction_history, Double.try_except.
  destruct (Double.select_history acct (Double.view (Double.bank_system g)));
    rewrite double_with_connection_same; apply double_step_ok_stay; exact Hg.
Qed.

Lemma double_step_ok_relaunch (g : Double.gui) :
  Double.step_ok g
    (Return None, Double.launch (Double.disk (Double.bank_system g))).
Proof.
  split; [eexists; reflexivity|]. split; [split; [discriminate | exact I]|].
  right. exists Double.Restart. split; reflexivity.
Qed.

Lemma double_step_ok_handle (g : Double.gui) (e : Double.event) :
  Double.session_ok g -> Double.ledger_ok (Double.bank_system g) ->
  Double.finite_event e = true ->
  Double.step_ok g (Double.handle g e).
Proof.
  intros Hg Hl Hfin. pose proof (proj2 Hg) as Hscreen.
  destruct e; unfold Double.handle; destruct (Double.shown g) eqn:Hs;
    try (apply double_step_ok_relaunch);
    try (apply double_step_ok_stay; exact Hg);
    try (apply double_step_ok_show; [exact Hg | exact I]);
    try (apply double_step_ok_show; [exact Hg | exact Hscreen]);
    try contradiction.
  - apply double_step_ok_login; assumption.
  - apply double_step_ok_register; assumption.
  - unfold Double.show_transaction_history.
    destruct (Double.current_user g) eqn:Hc; [|contradiction].
    apply double_step_ok_show; [exact Hg|]. rewrite Hc. discriminate.
  - apply double_step_ok_dashboard; assumption.
  - apply double_step_ok_dashboard; assumption.
  - apply double_step_ok_confirm; assumption.
  - apply double_step_ok_export; assumption.
Qed.

Lemma double_run_all_snoc (ops : list Double.operation)
    (o : Double.operation) :
  Double.run_all (ops ++ [o]) = Double.run (Double.run_all ops) o.
Proof.
  unfold Double.run_all. rewrite fold_left_app. reflexivity.
Qed.

Lemma double_gui_fold (events : list Double.event) (g : Double.gui)
    (ops0 : list Double.operation) :
  Double.session_ok g ->
  forallb Double.valid_operation ops0 = true ->
  Double.bank_system g = Double.run_all ops0 ->
  forallb Double.finite_event events = true ->
  Double.session_ok (fold_left Double.after events g) /\
  exists ops, forallb Double.valid_operation ops = true /\
              Double.bank_system (fold_left Double.after events g)
              = Double.run_all ops.
Proof.
  revert g ops0.
  induction events as [|e events IH]; intros g ops0 Hg Hv Hc Hfin; simpl.
  - split; [exact Hg|]. exists ops0. split; assumption.
  - simpl in Hfin. apply andb_true_iff in Hfin. destruct Hfin as [He Hfin].
    assert (Hl : Double.ledger_ok (Double.bank_system g))
      by (rewrite Hc; apply ledger_ok_run_all; exact Hv).
    destruct (double_step_ok_handle g e Hg Hl He)
      as [_ [Hg' [Hsame|[o [Ho Hrun]]]]].
    + apply (IH (Double.after g e) ops0); [exact Hg' | exact Hv| | exact Hfin].
      unfold Double.after. rewrite Hsame. exact Hc.
    + apply (IH (Double.after g e) (ops0 ++ [o]));
        [exact Hg'| | | exact Hfin].
      * rewrite forallb_app, Hv. simpl. rewrite Ho. reflexivity.
      * unfold Double.after. rewrite Hrun, Hc, double_run_all_snoc.
        reflexivity.
Qed.

Lemma double_gui_run_ok (events : list Double.event) :
  forallb Double.finite_event events = true ->
  Double.session_ok (Double.gui_run events) /\
  exists ops, forallb Double.valid_operation ops = true /\
              Double.bank_system (Double.gui_run events)
              = Double.run_all ops.
Proof.
  apply (double_gui_fold events (Double.launch Double.empty_database) []).
  - split; [discriminate | exact I].
  - reflexivity.
  - reflexivity.
Qed.

(** X26.  In double precision: after any run of registrations with a
    finite deposit [>= 0], deposits and withdrawals of finite amounts [> 0],
    and restarts, every balance in the users table is a number (not [NULL],
    not a NaN) and is not negative.  Balances may round, and may overflow to
    [+inf], but rounding never takes a difference below zero. *)
Theorem valid_runs_keep_balances_numbers (ops : list Double.operation)
    (u : Double.user_row) :
  forallb Double.valid_operation ops = true ->
  In u (Double.users (Double.view (Double.run_all ops))) ->
  exists b, Double.balance u = Some b /\
            PrimFloat.leb PrimFloat.zero b = true.
Proof.
  intros Hv Hu.
  exact (Double.ok_balances _ (proj1 (ledger_ok_run_all ops Hv)) u Hu).
Qed.

Lemma valid_runs_keep_balances_numbers_witness :
  forallb Double.valid_operation
    [Double.Register "A" "a@x.com" "555" "pw" 0.5%float 10 10;
     Double.Withdraw 1 0.25%float 11] = true /\
  In (Double.mk_user 1 "A" "a@x.com" "555" "pw" (Some 0.25%float) 10)
     (Double.users
        (Double.view
           (Double.run_all
              [Double.Register "A" "a@x.com" "555" "pw" 0.5%float 10 10;
               Double.Withdraw 1 0.25%float 11]))) /\
  exists b,
    Double.balance
      (Double.mk_user 1 "A" "a@x.com" "555" "pw" (Some 0.25%float) 10)
    = Some b /\ PrimFloat.leb PrimFloat.zero b = true.
Proof.
  assert (Hv : forallb Double.valid_operation
                 [Double.Register "A" "a@x.com" "555" "pw" 0.5%float 10 10;
                  Double.Withdraw 1 0.25%float 11] = true) by reflexivity.
  assert (Hu : In (Double.mk_user 1 "A" "a@x.com" "555" "pw"
                     (Some 0.25%float) 10)
                 (Double.users
                    (Double.view
                       (Double.run_all
                          [Double.Register "A" "a@x.com" "555" "pw"
                             0.5%float 10 10;
                           Double.Withdraw 1 0.25%float 11]))))
    by (left; reflexivity).
  split; [exact Hv|]. split; [exact Hu|].
  exact (valid_runs_keep_balances_numbers _ _ Hv Hu).
Defined.

(** X19.  Whatever the user does, starting from a fresh database, restarts
    included, as long as every amount typed into a form is either no number
    at all or a finite number (not what [float] makes of "nan", "inf" or
    "1e999"): no handler of the window ends in an exception, and the
    dashboard is never left half built. *)
Theorem double_gui_never_raises (events : list Double.event)
    (e : Double.event) :
  forallb Double.finite_event events = true ->
  Double.finite_event e = true ->
  (exists d, fst (Double.handle (Double.gui_run events) e) = Return d) /\
  Double.shown (Double.gui_run events) <> DashboardNavbar /\
  Double.shown (Double.gui_run events) <> DashboardBlank.
Proof.
  intros Hfin He.
  destruct (double_gui_run_ok events Hfin) as [Hg [ops [Hv Hc]]].
  assert (Hl : Double.ledger_ok (Double.bank_system (Double.gui_run events)))
    by (rewrite Hc; apply ledger_ok_run_all; exact Hv).
  split; [exact (proj1 (double_step_ok_handle _ e Hg Hl He))|].
  destruct Hg as [_ Hs].
  destruct (Double.shown (Double.gui_run events)); try contradiction;
    split; discriminate.
Qed.

Lemma double_gui_never_raises_witness :
  forallb Double.finite_event Double.example_deposit_screen = true /\
  Double.finite_event (Double.Confirm (Some 0.5%float) 12) = true /\
  (exists d,
     fst (Double.handle (Double.gui_run Double.example_deposit_screen)
            (Double.Confirm (Some 0.5%float) 12)) = Return d).
Proof.
  assert (H1 : forallb Double.finite_event Double.example_deposit_screen
               = true) by reflexivity.
  assert (H2 : Double.finite_event (Double.Confirm (Some 0.5%float) 12)
               = true) by reflexivity.
  split; [exact H1|]. split; [exact H2|].
  exact (proj1 (double_gui_never_raises _ _ H1 H2)).
Defined.

(** X21.  As long as every amount typed into a form is either no number at
    all or a finite number, the window drives the ledger only with valid
    amounts: the store after any sequence of events is the store after some
    run of registrations with a finite deposit [>= 0], deposits and
    withdrawals of finite amounts [> 0], and restarts. *)
Theorem double_gui_refines_valid_runs (events : list Double.event) :
  forallb Double.finite_event events = true ->
  exists ops : list Double.operation,
    forallb Double.valid_operation ops = true /\
    Double.bank_system (Double.gui_run events) = Double.run_all ops.
Proof.
  intros Hfin. exact (proj2 (double_gui_run_ok events Hfin)).
Qed.

Lemma double_gui_refines_valid_runs_witness :
  forallb Double.finite_event Double.example_events = true /\
  exists ops : list Double.operation,
    forallb Double.valid_operation ops = true /\
    Double.bank_system (Double.gui_run Double.example_events)
    = Double.run_all ops.
Proof.
  assert (H : forallb Double.finite_event Double.example_events = true)
    by reflexivity.
  split; [exact H|].
  exact (double_gui_refines_valid_runs Double.example_events H).
Defined.

(** X22.  Whatever buttons are pressed and whatever is typed into the forms,
    as long as every amount typed is either no number at all or a finite
    number, every balance is a number and none is ever negative. *)
Theorem double_gui_balances_non_negative (events : list Double.event)
    (u : Double.user_row) :
  forallb Double.finite_event events = true ->
  In u (Double.users
          (Double.view (Double.bank_system (Double.gui_run events)))) ->
  exists b, Double.balance u = Some b /\
            PrimFloat.leb PrimFloat.zero b = true.
Proof.
  intros Hfin Hu.
  destruct (double_gui_run_ok events Hfin) as [_ [ops [Hv Hc]]].
  rewrite Hc in Hu.
  exact (Double.ok_balances _ (proj1 (ledger_ok_run_all ops Hv)) u Hu).
Qed.

Lemma double_gui_balances_non_negative_witness :
  forallb Double.finite_event Double.example_events = true /\
  In (Double.mk_user 1 "A" "a@x.com" "555" "pw" (Some 60%float) 10)
     (Double.users
        (Double.view
           (Double.bank_system (Double.gui_run Double.example_events)))) /\
  exists b,
    Double.balance
      (Double.mk_user 1 "A" "a@x.com" "555" "pw" (Some 60%float) 10)
    = Some b /\ PrimFloat.leb PrimFloat.zero b = true.
Proof.
  assert (H : forallb Double.finite_event Double.example_events = true)
    by reflexivity.
  assert (Hu : In (Double.mk_user 1 "A" "a@x.com" "555" "pw"
                     (Some 60%float) 10)
                 (Double.users
                    (Double.view
                       (Double.bank_system
                          (Double.gui_run Double.example_events)))))
    by (left; reflexivity).
  split; [exact H|]. split; [exact Hu|].
  exact (double_gui_balances_non_negative _ _ H Hu).
Defined.

(** X27.  The restriction to finite amounts is needed.  On the deposit
    screen of a session whose account exists, an amount that passes the
    check [amount <= 0] and whose SQL sum with the balance is [NULL] (a
    NaN, for one) is confirmed without any dialog and the deposit screen
    stays; the balance stored is then [NULL], and going back to the
    dashboard ends in the [TypeError] of formatting [None], uncaught, with
    only the navigation bar built. *)
Theorem nan_deposit_breaks_dashboard (g : Double.gui) (acct : Z)
    (n : string) (bal0 bal : option PrimFloat.float) (a : PrimFloat.float)
    (now : Z) :
  Double.current_user g = Some (acct, n, bal0) ->
  Double.shown g = TransactionScreen "Deposit" ->
  Double.lookup_balance acct (Double.view (Double.bank_system g))
  = Some bal ->
  PrimFloat.leb a PrimFloat.zero = false ->
  Double.add_amount a bal = None ->
  let r := Double.handle g (Double.Confirm (Some a) now) in
  fst r = Return None /\
  Double.shown (snd r) = TransactionScreen "Deposit" /\
  fst (Double.handle (snd r) Double.BackToDashboard) = Raise TypeError /\
  Double.shown (snd (Double.handle (snd r) Double.BackToDashboard))
  = DashboardNavbar.
Proof.
  intros Hc Hs Hb Ha Hnull. cbv zeta.
  assert (Hr : Double.handle g (Double.Confirm (Some a) now)
               = (Return None,
                  Double.with_connection
                    (snd (Double.deposit_money acct a now
                            (Double.bank_system g))) g)).
  { unfold Double.handle. rewrite Hs. unfold Double.confirm. rewrite Hc.
    pose proof (double_process_transaction_eq "Deposit" acct a now
                  (Double.bank_system g) Ha) as Heq.
    change (String.eqb "Deposit" "Deposit") with true in Heq.
    cbv iota in Heq. unfold Double.double in *.
    rewrite Hb, Hnull in Heq. cbn [option_map] in Heq.
    rewrite Heq. reflexivity. }
  rewrite Hr. cbn [fst snd Double.with_connection Double.shown].
  split; [reflexivity|]. split; [exact Hs|].
  assert (Hl : Double.lookup_balance acct
                 (Double.view
                    (snd (Double.deposit_money acct a now
                            (Double.bank_system g)))) = Some None).
  { rewrite double_deposit_money_eq. unfold Double.double in *.
    rewrite Hb. cbv zeta. rewrite Hnull.
    assert (Hsame : forall d : Double.database,
              match Double.to_real a, @None PrimFloat.float with
              | Some a', Some nb =>
                  Double.db_insert_transaction acct "Deposit" a' nb now d
              | _, _ => d
              end = d).
    { intros d. destruct (Double.to_real a); reflexivity. }
    rewrite Hsame. cbn [snd Double.committed Double.view].
    rewrite double_lookup_update, Hb. cbn [option_map]. rewrite Hnull.
    reflexivity. }
  set (g' := Double.with_connection
               (snd (Double.deposit_money acct a now (Double.bank_system g)))
               g).
  assert (Hs' : Double.shown g' = TransactionScreen "Deposit") by exact Hs.
  assert (Hc' : Double.current_user g' = Some (acct, n, bal0)) by exact Hc.
  unfold Double.handle. rewrite Hs'. unfold Double.show_dashboard.
  rewrite Hc', double_get_balance_eq.
  change (Double.bank_system g')
    with (snd (Double.deposit_money acct a now (Double.bank_system g))).
  rewrite Hl. split; reflexivity.
Qed.

Lemma nan_deposit_breaks_dashboard_witness :
  Double.current_user (Double.gui_run Double.example_deposit_screen)
  = Some (1, "A"%string, Some 100%float) /\
  Double.shown (Double.gui_run Double.example_deposit_screen)
  = TransactionScreen "Deposit" /\
  Double.lookup_balance 1
    (Double.view
       (Double.bank_system (Double.gui_run Double.example_deposit_screen)))
  = Some (Some 100%float) /\
  PrimFloat.leb PrimFloat.nan PrimFloat.zero = false /\
  Double.add_amount PrimFloat.nan (Some 100%float) = None /\
  fst (Double.handle
         (snd (Double.handle
                 (Double.gui_run Double.example_deposit_screen)
                 (Double.Confirm (Some PrimFloat.nan) 12)))
         Double.BackToDashboard) = Raise TypeError.
Proof.
  assert (Hc : Double.current_user
                 (Double.gui_run Double.example_deposit_screen)
               = Some (1, "A"%string, Some 100%float)) by reflexivity.
  assert (Hs : Double.shown (Double.gui_run Double.example_deposit_screen)
               = TransactionScreen "Deposit") by reflexivity.
  assert (Hb : Double.lookup_balance 1
                 (Double.view
                    (Double.bank_system
                       (Double.gui_run Double.example_deposit_screen)))
               = Some (Some 100%float)) by reflexivity.
  assert (Ha : PrimFloat.leb PrimFloat.nan PrimFloat.zero = false)
    by reflexivity.
  assert (Hn : Double.add_amount PrimFloat.nan (Some 100%float) = None)
    by reflexivity.
  repeat (split; [assumption|]).
  exact (proj1 (proj2 (proj2
           (nan_deposit_breaks_dashboard _ 1 "A" (Some 100%float)
              (Some 100%float) PrimFloat.nan 12 Hc Hs Hb Ha Hn)))).
Defined.
